(** * Tool handlers of the OFBiz SOC server: a shallow embedding

    The TypeScript tool handlers under [src/tools] are embedded as programs of
    a small state-and-exception monad.  The state records every outbound HTTP
    request, every console line and every file written; the backend and the
    local file system are an oracle ([World]) the handlers are run against.

    Conventions of the embedding:
    - backend records are untyped in the source ([any]); they are [JsVal]s
      here, with JavaScript's truthiness, [||], [===] and property access;
    - JavaScript numbers are integers ([Z]); no handler does arithmetic;
    - [try { ... } catch (error) { ... }] is [try_catch]; an early [return]
      inside an [if] is the [then] branch of a conditional whose [else]
      branch is the rest of the function body. *)

From Stdlib Require Import String Ascii List ZArith Bool Lia DecimalString.
Import ListNotations.
Local Open Scope string_scope.
Local Open Scope Z_scope.

Set Implicit Arguments.
Set Warnings "-register-all".

(** ** JavaScript values *)

Inductive JsVal : Type :=
| JUndef
| JNull
| JBool (b : bool)
| JNum (n : Z)
| JStr (s : string)
| JArr (elems : list JsVal)
| JObj (props : list (string * JsVal)).

(** A thrown value: an [Error] instance with its [message], or anything else
    (for which [error instanceof Error] is false). *)
Inductive Exn : Type :=
| JsErr (message : string)
| JsOther.

(** Decimal rendering of an integer: an HTTP status code in a template
    literal. *)
Definition string_of_Z (n : Z) : string := NilZero.string_of_int (Z.to_int n).

(** [ToBoolean]. Arrays and objects are always truthy. *)
Definition truthy (v : JsVal) : bool :=
  match v with
  | JUndef | JNull => false
  | JBool b => b
  | JNum n => negb (n =? 0)
  | JStr s => negb (String.eqb s "")
  | JArr _ | JObj _ => true
  end.

(** [a || b] *)
Definition js_or (a b : JsVal) : JsVal := if truthy a then a else b.

(** [a === b] on the values the handlers compare (primitives). Two distinct
    object or array literals are never strictly equal. *)
Definition js_strict_eq (a b : JsVal) : bool :=
  match a, b with
  | JUndef, JUndef | JNull, JNull => true
  | JBool x, JBool y => Bool.eqb x y
  | JNum x, JNum y => x =? y
  | JStr x, JStr y => String.eqb x y
  | _, _ => false
  end.

Fixpoint assoc {A : Type} (k : string) (l : list (string * A)) : option A :=
  match l with
  | [] => None
  | (k', v) :: r => if String.eqb k k' then Some v else assoc k r
  end.

Fixpoint chars_of (s : string) : list JsVal :=
  match s with
  | EmptyString => []
  | String c r => JStr (String c EmptyString) :: chars_of r
  end.

(** The [TypeError] of reading property [k] of [v], which is [undefined] or
    [null]. *)
Definition type_error_read (v : JsVal) (k : string) : Exn :=
  JsErr ("Cannot read properties of "
         ++ match v with JNull => "null" | _ => "undefined" end
         ++ " (reading '" ++ k ++ "')").

(** [v.k] for a data property [k]. Reading a property of [undefined] or
    [null] throws a [TypeError]; a missing property reads as [undefined]. *)
Definition js_get (v : JsVal) (k : string) : Exn + JsVal :=
  match v with
  | JUndef | JNull => inl (type_error_read v k)
  | JObj props => inr (match assoc k props with Some x => x | None => JUndef end)
  | JArr l => inr (if String.eqb k "length" then JNum (Z.of_nat (List.length l)) else JUndef)
  | JStr s => inr (if String.eqb k "length" then JNum (Z.of_nat (String.length s)) else JUndef)
  | JBool _ | JNum _ => inr JUndef
  end.

(** [v[0]] where [v] is known to be truthy (so the read cannot throw). *)
Definition js_first (v : JsVal) : JsVal :=
  match v with
  | JArr (x :: _) => x
  | JStr (String c _) => JStr (String c EmptyString)
  | JObj props => match assoc "0" props with Some x => x | None => JUndef end
  | _ => JUndef
  end.

(** [v.length === 0] *)
Definition js_length_is_zero (v : JsVal) : Exn + bool :=
  match js_get v "length" with
  | inl e => inl e
  | inr len => inr (js_strict_eq len (JNum 0))
  end.

(** [!data.docs || data.docs.length === 0], given [docs = data.docs]. *)
Definition no_docs (docs : JsVal) : bool :=
  negb (truthy docs) ||
  match js_length_is_zero docs with inr b => b | inl _ => false end.

(** ** Server configuration and request context *)

(** Modelled from the spec: [ServerConfig] is declared in
    [lib/config/types.ts], which is not among the sources; the three fields
    the handlers read are taken from section 3 of the specification (backend
    base URL, static access token, user agent string). *)
Record ServerConfig : Type := {
  BACKEND_API_BASE : string;
  BACKEND_ACCESS_TOKEN : option string;
  BACKEND_USER_AGENT : option string
}.

Record AuthInfo : Type := { downstreamToken : option string }.

(** The part of [express.Request] the handlers read: [request.authInfo]. *)
Record RequestContext : Type := { authInfo : option AuthInfo }.

(** [(request as any).authInfo?.downstreamToken] *)
Definition request_token (request : RequestContext) : option string :=
  match authInfo request with
  | Some a => downstreamToken a
  | None => None
  end.

(** Truthiness of an optional string: set and not empty. *)
Definition present (t : option string) : bool :=
  match t with
  | Some s => negb (String.eqb s "")
  | None => false
  end.

(** [`${t}`] of an optional string. *)
Definition opt_to_string (t : option string) : string :=
  match t with Some s => s | None => "undefined" end.

(** [t || ''] *)
Definition or_empty (t : option string) : string :=
  match t with Some s => s | None => "" end.

(** [a || b] on optional strings. *)
Definition opt_or (a b : option string) : option string :=
  if present a then a else b.

(** ** Outbound requests and the world they are sent to *)

Inductive FormValue : Type :=
| FormText (s : string)
| FormBlob (data : string) (mime : string) (fileName : string).

Inductive RequestBody : Type :=
| NoBody
| JsonBody (v : JsVal)            (* sent as [JSON.stringify(v)] *)
| FormBody (fields : list (string * FormValue)).

Record Request : Type := {
  url : string;
  method : string;
  headers : list (string * string);
  body : RequestBody;
  rejectUnauthorized : bool
}.

Record Response : Type := {
  status : Z;
  statusText : string;
  body_text : Exn + string;   (* [await response.text()] *)
  body_json : Exn + JsVal      (* [await response.json()] *)
}.

(** [response.ok] *)
Definition ok (r : Response) : bool := (200 <=? status r) && (status r <? 300).

Inductive FetchOutcome : Type :=
| Rejected (e : Exn)
| Responded (r : Response).

Definition Path : Type := list string.

Record World : Type := {
  (* the backend's answer to a request, given the requests sent before *)
  backend : list Request -> Request -> FetchOutcome;
  (* directory of the running module, [path.dirname(fileURLToPath(import.meta.url))],
     as components below the file system root *)
  module_dir : Path;
  (* [fs.existsSync(p) && fs.statSync(p).isDirectory()] *)
  fs_isDirectory : Path -> bool;
  fs_existsSync : Path -> bool;
  (* [fs.promises.mkdir(p, { recursive: true })]: [Some e] when it rejects *)
  fs_mkdir : Path -> option Exn;
  (* [fs.promises.writeFile(p, data, 'utf8')]: [Some e] when it rejects *)
  fs_writeFile : Path -> JsVal -> option Exn
}.

Record State : Type := {
  requests : list Request;            (* in the order they were sent *)
  console : list string;              (* console.error and console.log lines *)
  made_dirs : list Path;
  written : list (Path * JsVal)
}.

Definition init : State :=
  {| requests := []; console := []; made_dirs := []; written := [] |}.

(** ** The handler monad *)

Definition M (A : Type) : Type := World -> State -> (Exn + A) * State.

Definition ret {A} (a : A) : M A := fun _ s => (inr a, s).

Definition throw {A} (e : Exn) : M A := fun _ s => (inl e, s).

Definition bind {A B} (m : M A) (f : A -> M B) : M B :=
  fun w s =>
    match m w s with
    | (inr a, s') => f a w s'
    | (inl e, s') => (inl e, s')
    end.

Definition try_catch {A} (m : M A) (h : Exn -> M A) : M A :=
  fun w s =>
    match m w s with
    | (inr a, s') => (inr a, s')
    | (inl e, s') => h e w s'
    end.

Definition lift {A} (r : Exn + A) : M A :=
  match r with
  | inl e => throw e
  | inr a => ret a
  end.

Notation "x <- m ;; k" := (bind m (fun x => k))
  (at level 61, m at next level, right associativity).
Notation "m ;;; k" := (bind m (fun _ => k))
  (at level 61, right associativity).

(** The state after one more request, console line, directory or file. *)
Definition sent (s : State) (rq : Request) : State :=
  {| requests := requests s ++ [rq]; console := console s;
     made_dirs := made_dirs s; written := written s |}.

Definition logged (s : State) (line : string) : State :=
  {| requests := requests s; console := console s ++ [line];
     made_dirs := made_dirs s; written := written s |}.

(** [await fetch(url, options)]: the request is recorded, then the backend
    answers or the call rejects. *)
Definition fetch (rq : Request) : M Response :=
  fun w s =>
    match backend w (requests s) rq with
    | Rejected e => (inl e, sent s rq)
    | Responded r => (inr r, sent s rq)
    end.

Definition console_line (line : string) : M unit :=
  fun _ s => (inr tt, logged s line).

Definition response_json (r : Response) : M JsVal := lift (body_json r).
Definition response_text (r : Response) : M string := lift (body_text r).

Definition ask {A} (f : World -> A) : M A := fun w s => (inr (f w), s).

Definition mkdir (p : Path) : M unit :=
  fun w s =>
    match fs_mkdir w p with
    | Some e => (inl e, s)
    | None => (inr tt, {| requests := requests s; console := console s;
                          made_dirs := made_dirs s ++ [p]; written := written s |})
    end.

Definition writeFile (p : Path) (data : JsVal) : M unit :=
  fun w s =>
    match fs_writeFile w p data with
    | Some e => (inl e, s)
    | None => (inr tt, {| requests := requests s; console := console s;
                          made_dirs := made_dirs s; written := written s ++ [(p, data)] |})
    end.

(** ** Tool results *)

Record ContentItem : Type := { type : string; text : JsVal }.

(** The object literal a handler returns: [structuredContent] and [isError]
    are keys that are present or not. *)
Record ToolResult : Type := {
  content : list ContentItem;
  structuredContent : option JsVal;
  isError : option bool
}.

Definition text_item (s : string) : ContentItem := {| type := "text"; text := JStr s |}.

(** [{ content: [{ type: 'text', text }], isError: true }] *)
Definition error_result (items : list ContentItem) : ToolResult :=
  {| content := items; structuredContent := None; isError := Some true |}.

(** [{ content: [...], structuredContent }] *)
Definition success_result (items : list ContentItem) (sc : JsVal) : ToolResult :=
  {| content := items; structuredContent := Some sc; isError := None |}.

(** [error instanceof Error ? error.message : fallback] *)
Definition error_message (e : Exn) (fallback : string) : string :=
  match e with
  | JsErr m => m
  | JsOther => fallback
  end.

(** Built-ins of the JavaScript runtime that the handlers call and whose
    output format is no concern of theirs. *)
Class JsBuiltins : Type := {
  (* JSON.stringify(v, null, indent); indent 0 when it is not given *)
  JSON_stringify : JsVal -> nat -> string;
  (* how console.error prints a caught value *)
  inspect : Exn -> string;
  (* new Date(v).toISOString(), which throws a RangeError on an invalid date *)
  Date_toISOString : JsVal -> Exn + string;
  (* String.prototype.trim *)
  String_trim : string -> string;
  (* ToNumber on a string, restricted to integers; None is NaN *)
  String_toNumber : string -> option Z;
  (* Number::toString, as a template literal prints a number: the decimal
     digits of a safe integer, exponent form ("1e+21") from 10^21 on *)
  Number_toString : Z -> string
}.

(** ** Idioms shared by the handlers *)

Definition nl : string := String (ascii_of_nat 10) EmptyString.

(** A double quote character. *)
Definition dq : string := String (ascii_of_nat 34) EmptyString.

Definition opt_js (o : option string) : JsVal :=
  match o with Some s => JStr s | None => JUndef end.

Definition not_a_function (what : string) : Exn := JsErr (what ++ " is not a function").
Definition not_iterable (what : string) : Exn := JsErr (what ++ " is not iterable").

(** Receiver of [docs.map(...)] / [docs.filter(...)]: only arrays have these
    methods among JSON values. *)
Definition as_array (v : JsVal) (what : string) : Exn + list JsVal :=
  match v with
  | JArr l => inr l
  | _ => inl (not_a_function what)
  end.

(** Values visited by [for (const x of v)], [v] truthy. *)
Definition js_iterate (v : JsVal) (what : string) : Exn + list JsVal :=
  match v with
  | JArr l => inr l
  | JStr s => inr (chars_of s)
  | _ => inl (not_iterable what)
  end.

Section WithBuiltins.
Context {builtins : JsBuiltins}.

(** [String(v)], the coercion done by a template literal [`${v}`]; a number
    is printed by the runtime. *)
Fixpoint js_to_string (v : JsVal) : string :=
  match v with
  | JUndef => "undefined"
  | JNull => "null"
  | JBool true => "true"
  | JBool false => "false"
  | JNum n => Number_toString n
  | JStr s => s
  | JArr l =>
      (fix join (l : list JsVal) : string :=
         match l with
         | [] => ""
         | x :: r =>
             let sx := match x with JUndef | JNull => "" | _ => js_to_string x end in
             match r with
             | [] => sx
             | _ :: _ => sx ++ "," ++ join r
             end
         end) l
  | JObj _ => "[object Object]"
  end.

(** [ToNumber(v)]; [None] is NaN. *)
Definition js_to_number (v : JsVal) : option Z :=
  match v with
  | JUndef => None
  | JNull => Some 0
  | JBool b => Some (if b then 1 else 0)
  | JNum n => Some n
  | JStr s => String_toNumber s
  | JArr _ | JObj _ => String_toNumber (js_to_string v)
  end.

(** [v > 0] *)
Definition js_gt_zero (v : JsVal) : bool :=
  match js_to_number v with
  | Some n => 0 <? n
  | None => false
  end.

(** [data.docs && data.docs.length > 0], given [docs = data.docs]. *)
Definition has_docs (docs : JsVal) : bool :=
  truthy docs &&
  match js_get docs "length" with inr len => js_gt_zero len | inl _ => false end.

(** One property of an object literal built from a backend record [o]:
    [key: o.field] or [key: o.field || undefined]. *)
Inductive Proj : Type :=
| Plain (key field : string)
| OrUndef (key field : string).

Definition same (k : string) : Proj := Plain k k.
Definition same_or_undef (k : string) : Proj := OrUndef k k.

Fixpoint project (o : JsVal) (fields : list Proj) : Exn + list (string * JsVal) :=
  match fields with
  | [] => inr []
  | p :: rest =>
      let '(key, field, opt) :=
        match p with Plain k f => (k, f, false) | OrUndef k f => (k, f, true) end in
      match js_get o field with
      | inl e => inl e
      | inr v =>
          match project o rest with
          | inl e => inl e
          | inr l => inr ((key, if opt then js_or v JUndef else v) :: l)
          end
      end
  end.

Fixpoint map_exn {A B} (f : A -> Exn + B) (l : list A) : Exn + list B :=
  match l with
  | [] => inr []
  | x :: r =>
      match f x with
      | inl e => inl e
      | inr y => match map_exn f r with inl e => inl e | inr ys => inr (y :: ys) end
      end
  end.

Fixpoint filter_exn {A} (f : A -> Exn + bool) (l : list A) : Exn + list A :=
  match l with
  | [] => inr []
  | x :: r =>
      match f x with
      | inl e => inl e
      | inr b =>
          match filter_exn f r with
          | inl e => inl e
          | inr ys => inr (if b then x :: ys else ys)
          end
      end
  end.

Definition performFind_url (cfg : ServerConfig) : string :=
  BACKEND_API_BASE cfg ++ "/api/performFind".

(** The three headers every [performFind] request starts from. *)
Definition json_headers (cfg : ServerConfig) : list (string * string) :=
  [("Content-Type", "application/json");
   ("User-Agent", or_empty (BACKEND_USER_AGENT cfg));
   ("Accept", "application/json")].

(** [if (downstreamToken) headers['Authorization'] = `Bearer ${downstreamToken}`;
     else if (BACKEND_ACCESS_TOKEN) headers['Authorization'] = `Bearer ${BACKEND_ACCESS_TOKEN}`;] *)
Definition attach_authorization (cfg : ServerConfig) (request : RequestContext)
    (h : list (string * string)) : list (string * string) :=
  if present (request_token request)
  then h ++ [("Authorization", "Bearer " ++ opt_to_string (request_token request))]
  else if present (BACKEND_ACCESS_TOKEN cfg)
       then h ++ [("Authorization", "Bearer " ++ opt_to_string (BACKEND_ACCESS_TOKEN cfg))]
       else h.

(** [downstreamToken ? `Bearer ${downstreamToken}`
      : (BACKEND_ACCESS_TOKEN ? `Bearer ${BACKEND_ACCESS_TOKEN}` : '')] *)
Definition authorization_value (cfg : ServerConfig) (request : RequestContext) : string :=
  if present (request_token request)
  then "Bearer " ++ opt_to_string (request_token request)
  else if present (BACKEND_ACCESS_TOKEN cfg)
       then "Bearer " ++ opt_to_string (BACKEND_ACCESS_TOKEN cfg)
       else "".

(** Headers of the handlers that always write the [Authorization] key. *)
Definition json_headers_auth (cfg : ServerConfig) (request : RequestContext)
    : list (string * string) :=
  json_headers cfg ++ [("Authorization", authorization_value cfg request)].

Definition post_json (u : string) (h : list (string * string)) (b : JsVal) : Request :=
  {| url := u; method := "POST"; headers := h; body := JsonBody b;
     rejectUnauthorized := false |}.

(** [getRequestOptions(entityName, inputFields)] of getContent,
    findProductById and getImportSapiOrderConfig, sent to [backendUrl]. *)
Definition getRequestOptions (cfg : ServerConfig) (request : RequestContext)
    (entityName : string) (inputFields : JsVal) : Request :=
  post_json (performFind_url cfg) (json_headers_auth cfg request)
    (JObj [("entityName", JStr entityName); ("noConditionFind", JStr "Y");
           ("inputFields", inputFields); ("viewSize", JNum 1)]).

(** The [catch] block shared by the handlers that report [`Error: ${...}`]. *)
Definition catch_plain (label : string) (error : Exn) : M ToolResult :=
  console_line (label ++ " " ++ inspect error) ;;;
  ret (error_result [text_item ("Error: " ++ error_message error "Unknown error")]).

(** The [catch] block of the handlers that also echo the outbound request. *)
Definition catch_debug (rq : Request) (bodyv : JsVal) (label prefix fallback : string)
    (error : Exn) : M ToolResult :=
  console_line (label ++ " " ++ inspect error) ;;;
  ret (error_result
         [text_item ("DEBUG: URL: " ++ url rq ++ nl ++ "HEADERS: "
                     ++ JSON_stringify (JObj (map (fun kv => (fst kv, JStr (snd kv))) (headers rq))) 2
                     ++ nl ++ "BODY: " ++ JSON_stringify bodyv 0);
          text_item (prefix ++ error_message error fallback)]).

Definition http_error (r : Response) : Exn :=
  JsErr ("HTTP error! status: " ++ string_of_Z (status r)).

(** [const docs = responseData.docs || []] *)
Definition docs_or_empty (data : JsVal) : M JsVal :=
  d <- lift (js_get data "docs") ;; ret (js_or d (JArr [])).

End WithBuiltins.

(** ** src/tools/getLogById.ts *)

Module getLogById.
Section Handler.
Context {builtins : JsBuiltins}.

Record Args : Type := { logId : string }.

Definition request_body (args : Args) : JsVal :=
  JObj [("entityName", JStr "DataManagerLog"); ("noConditionFind", JStr "Y");
        ("inputFields", JObj [("logId", JStr (logId args))]); ("viewSize", JNum 1)].

Definition requestOptions (cfg : ServerConfig) (args : Args) (request : RequestContext)
    : Request :=
  post_json (performFind_url cfg) (attach_authorization cfg request (json_headers cfg))
    (request_body args).

Definition output_fields : list Proj :=
  map same
    ["logId"; "configId"; "ownerPartyId"; "uploadFileContentId"; "exportFileContentId";
     "logTypeEnumId"; "createdByUserLogin"; "createdDate"; "startDateTime";
     "finishDateTime"; "cancelDateTime"; "jobId"; "statusId"; "errorRecordContentId";
     "logFileContentId"; "runtimeDataId"; "createdByJobId"; "productStoreId"].

Definition handler (cfg : ServerConfig) (args : Args) (request : RequestContext)
    : M ToolResult :=
  let rq := requestOptions cfg args request in
  try_catch
    (console_line ("Executing getLogById against: " ++ performFind_url cfg) ;;;
     console_line ("Payload: " ++ JSON_stringify (request_body args) 2) ;;;
     response <- fetch rq ;;
     console_line ("[TRACE] Response Status: " ++ string_of_Z (status response)
                   ++ " " ++ statusText response) ;;;
     if negb (ok response) then throw (http_error response) else
     responseData <- response_json response ;;
     console_line ("[TRACE] Response Body: " ++ JSON_stringify responseData 2) ;;;
     docs <- docs_or_empty responseData ;;
     empty <- lift (js_length_is_zero docs) ;;
     if (empty : bool) then
       ret (error_result [text_item ("No DataManagerLog found with ID: " ++ logId args)])
     else
       let log := js_first docs in
       fields <- lift (project log output_fields) ;;
       let structured := JObj fields in
       ret (success_result [text_item (JSON_stringify structured 0)] structured))
    (catch_debug rq (request_body args) "Error making backend request:"
       "Error fetching DataManagerLog: " "Unknown error").

End Handler.
End getLogById.

(** ** getLogConfig (second module of unnamed/part_000) *)

Module getLogConfig.
Section Handler.
Context {builtins : JsBuiltins}.

Record Args : Type := { configId : string }.

Definition request_body (args : Args) : JsVal :=
  JObj [("entityName", JStr "DataManagerConfig"); ("noConditionFind", JStr "Y");
        ("inputFields", JObj [("configId", JStr (configId args))]); ("viewSize", JNum 1)].

Definition requestOptions (cfg : ServerConfig) (args : Args) (request : RequestContext)
    : Request :=
  post_json (performFind_url cfg) (attach_authorization cfg request (json_headers cfg))
    (request_body args).

Definition output_fields : list Proj :=
  map same
    ["configId"; "exportContentId"; "importServiceName"; "exportServiceName";
     "exportServiceScreenName"; "exportServiceScreenLocation"; "description";
     "scriptTitle"; "delimiter"; "fileNamePattern"; "executionModeId"; "multiThreading";
     "importPath"; "exportPath"; "priority"].

Definition handler (cfg : ServerConfig) (args : Args) (request : RequestContext)
    : M ToolResult :=
  let rq := requestOptions cfg args request in
  try_catch
    (console_line ("Executing getLogConfig against: " ++ performFind_url cfg) ;;;
     console_line ("Payload: " ++ JSON_stringify (request_body args) 2) ;;;
     response <- fetch rq ;;
     if negb (ok response) then throw (http_error response) else
     responseData <- response_json response ;;
     docs <- docs_or_empty responseData ;;
     empty <- lift (js_length_is_zero docs) ;;
     if (empty : bool) then
       ret (error_result [text_item ("Config " ++ configId args ++ " not found.")])
     else
       let config := js_first docs in
       fields <- lift (project config output_fields) ;;
       let structured := JObj fields in
       ret (success_result [text_item (JSON_stringify structured 0)] structured))
    (catch_debug rq (request_body args) "Error making backend request:"
       "Error fetching config: " "Unknown error").

End Handler.
End getLogConfig.

(** ** listRecentErrors (third module of src/tools/findOrderTasks.ts) *)

Module listRecentErrors.
Section Handler.
Context {builtins : JsBuiltins}.

Record Args : Type := { limit : option Z; configId : option string }.

(** [const inputFields = {}; if (args.configId) inputFields.configId = args.configId;] *)
Definition inputFields (args : Args) : JsVal :=
  if present (configId args) then JObj [("configId", opt_js (configId args))] else JObj [].

(** [args.limit || 20] *)
Definition viewSize (args : Args) : JsVal :=
  js_or (match limit args with Some n => JNum n | None => JUndef end) (JNum 20).

Definition request_body (args : Args) : JsVal :=
  JObj [("entityName", JStr "DataManagerLog"); ("noConditionFind", JStr "Y");
        ("inputFields", inputFields args); ("viewSize", viewSize args);
        ("orderBy", JStr "-createdDate")].

Definition requestOptions (cfg : ServerConfig) (args : Args) (request : RequestContext)
    : Request :=
  post_json (performFind_url cfg) (attach_authorization cfg request (json_headers cfg))
    (request_body args).

(** The callback of [docs.filter]. *)
Definition is_failed (log : JsVal) : Exn + bool :=
  match js_get log "statusId" with
  | inl e => inl e
  | inr st =>
      if js_strict_eq st (JStr "SERVICE_FAILED") || js_strict_eq st (JStr "SERVICE_CRASHED")
         || js_strict_eq st (JStr "DM_LOG_ERROR")
      then inr true
      else
        match js_get log "errorRecordContentId" with
        | inl e => inl e
        | inr erc =>
            if negb (truthy erc) then inr false
            else match erc with
                 | JStr s => inr (negb (String.eqb (String_trim s) ""))
                 | _ => inl (not_a_function "log.errorRecordContentId.trim")
                 end
        end
  end.

Definition output_fields : list Proj :=
  same "logId" ::
  map same_or_undef
    ["configId"; "ownerPartyId"; "uploadFileContentId"; "exportFileContentId";
     "logTypeEnumId"; "createdByUserLogin"; "createdDate"; "startDateTime";
     "finishDateTime"; "cancelDateTime"; "jobId"; "statusId"; "errorRecordContentId";
     "logFileContentId"; "runtimeDataId"; "createdByJobId"; "productStoreId"]
  ++ [OrUndef "reason" "statusId"].

Definition handler (cfg : ServerConfig) (args : Args) (request : RequestContext)
    : M ToolResult :=
  let rq := requestOptions cfg args request in
  try_catch
    (console_line ("Executing listRecentErrors against: " ++ performFind_url cfg) ;;;
     console_line ("Payload: " ++ JSON_stringify (request_body args) 2) ;;;
     response <- fetch rq ;;
     if negb (ok response) then throw (http_error response) else
     responseData <- response_json response ;;
     docs <- docs_or_empty responseData ;;
     arr <- lift (as_array docs "docs.filter") ;;
     failedLogs <- lift (filter_exn is_failed arr) ;;
     logs <- lift (map_exn (fun log => match project log output_fields with
                                       | inl e => inl e
                                       | inr l => inr (JObj l)
                                       end) failedLogs) ;;
     ret (success_result [text_item (JSON_stringify (JArr logs) 0)]
            (JObj [("logs", JArr logs)])))
    (catch_debug rq (request_body args) "Error making backend request:"
       "Error finding recent errors: " "Unknown error").

End Handler.
End listRecentErrors.

(** ** src/tools/findPickProfileGroup.ts *)

Module findPickProfileGroups.
Section Handler.
Context {builtins : JsBuiltins}.

Record Args : Type := {
  pickProfileGroupId : option string;
  groupName : option string;
  description : option string
}.

Definition request_body (args : Args) : JsVal :=
  JObj [("entityName", JStr "PickProfileGroup"); ("noConditionFind", JStr "Y");
        ("inputFields", JObj [("pickProfileGroupId", opt_js (pickProfileGroupId args));
                              ("groupName", opt_js (groupName args));
                              ("description", opt_js (description args))]);
        ("viewSize", JNum 20)].

Definition requestOptions (cfg : ServerConfig) (args : Args) (request : RequestContext)
    : Request :=
  post_json (performFind_url cfg) (attach_authorization cfg request (json_headers cfg))
    (request_body args).

Definition handler (cfg : ServerConfig) (args : Args) (request : RequestContext)
    : M ToolResult :=
  let rq := requestOptions cfg args request in
  try_catch
    (console_line ("Executing findPickProfileGroups against: " ++ performFind_url cfg) ;;;
     console_line ("Payload: " ++ JSON_stringify (request_body args) 2) ;;;
     response <- fetch rq ;;
     if negb (ok response) then throw (http_error response) else
     responseData <- response_json response ;;
     pickProfileGroups <- docs_or_empty responseData ;;
     ret (success_result [text_item (JSON_stringify pickProfileGroups 0)]
            (JObj [("pickProfileGroups", pickProfileGroups)])))
    (catch_debug rq (request_body args) "Error making backend request:"
       "Error finding pick profile groups: " "Unknown error").

End Handler.
End findPickProfileGroups.

(** ** retryFailedRecord (unnamed/part_001) *)

Module retryFailedRecord.
Section Handler.
Context {builtins : JsBuiltins}.

Record Args : Type := { logId : string }.

Definition request_body (args : Args) : JsVal :=
  JObj [("entityName", JStr "DataManagerLog"); ("noConditionFind", JStr "Y");
        ("inputFields", JObj [("logId", JStr (String_trim (logId args)))]);
        ("viewSize", JNum 1)].

Definition requestOptions (cfg : ServerConfig) (args : Args) (request : RequestContext)
    : Request :=
  post_json (performFind_url cfg) (attach_authorization cfg request (json_headers cfg))
    (request_body args).

Definition retry_message (args : Args) (configId statusId jobId runtimeDataId : JsVal)
    : string :=
  String_trim
    (nl ++ "Retry Context for Log " ++ logId args ++ ":" ++ nl
     ++ "- Config ID: " ++ js_to_string configId ++ nl
     ++ "- Status: " ++ js_to_string statusId ++ nl
     ++ "- Original Job ID: " ++ js_to_string jobId ++ nl
     ++ "- Runtime Data ID: " ++ js_to_string runtimeDataId ++ nl
     ++ nl
     ++ "Automatic retry via MCP is not yet fully implemented. " ++ nl
     ++ "To manually retry:" ++ nl
     ++ "1. Identify the file from 'getLogConfig' using Config ID "
     ++ js_to_string configId ++ "." ++ nl
     ++ "2. Re-trigger the import/export service associated with that config." ++ nl
     ++ "        ").

Definition handler (cfg : ServerConfig) (args : Args) (request : RequestContext)
    : M ToolResult :=
  let rq := requestOptions cfg args request in
  try_catch
    (console_line ("Executing retryFailedRecord (fetch log) against: "
                   ++ performFind_url cfg) ;;;
     console_line ("Payload: " ++ JSON_stringify (request_body args) 2) ;;;
     response <- fetch rq ;;
     if negb (ok response) then throw (http_error response) else
     responseData <- response_json response ;;
     docs <- docs_or_empty responseData ;;
     empty <- lift (js_length_is_zero docs) ;;
     if (empty : bool) then
       ret (error_result [text_item ("Log " ++ logId args ++ " not found.")])
     else
       let log := js_first docs in
       configId <- lift (js_get log "configId") ;;
       statusId <- lift (js_get log "statusId") ;;
       jobId <- lift (js_get log "jobId") ;;
       runtimeDataId <- lift (js_get log "runtimeDataId") ;;
       let message := retry_message args configId statusId jobId runtimeDataId in
       ret (success_result [text_item message]
              (JObj [("message", JStr message); ("canRetry", JBool false)])))
    (catch_debug rq (request_body args) "Error in retry logic:"
       "Error checking retry: " "Unknown").

End Handler.
End retryFailedRecord.

(** ** findDataManagerLogs (unnamed/part_004) *)

Module findDataManagerLogs.
Section Handler.
Context {builtins : JsBuiltins}.

Record Args : Type := {
  logId : option string;
  configId : option string;
  statusId : option string;
  jobId : option string
}.

Definition request_body (args : Args) : JsVal :=
  JObj [("entityName", JStr "DataManagerLog"); ("noConditionFind", JStr "Y");
        ("inputFields", JObj [("logId", opt_js (logId args));
                              ("configId", opt_js (configId args));
                              ("statusId", opt_js (statusId args));
                              ("jobId", opt_js (jobId args))]);
        ("viewSize", JNum 20); ("orderBy", JStr "-createdDate")].

Definition requestOptions (cfg : ServerConfig) (args : Args) (request : RequestContext)
    : Request :=
  post_json (performFind_url cfg) (attach_authorization cfg request (json_headers cfg))
    (request_body args).

Definition output_fields : list Proj :=
  [same "logId"; same_or_undef "configId"; same_or_undef "statusId";
   same_or_undef "jobId"; same_or_undef "createdDate"; OrUndef "reason" "statusId"].

Definition handler (cfg : ServerConfig) (args : Args) (request : RequestContext)
    : M ToolResult :=
  let rq := requestOptions cfg args request in
  try_catch
    (console_line ("Executing findDataManagerLogs against: " ++ performFind_url cfg) ;;;
     console_line ("Payload: " ++ JSON_stringify (request_body args) 2) ;;;
     response <- fetch rq ;;
     if negb (ok response) then throw (http_error response) else
     responseData <- response_json response ;;
     docs <- docs_or_empty responseData ;;
     arr <- lift (as_array docs "docs.map") ;;
     logs <- lift (map_exn (fun log => match project log output_fields with
                                       | inl e => inl e
                                       | inr l => inr (JObj l)
                                       end) arr) ;;
     ret (success_result [text_item (JSON_stringify (JArr logs) 0)]
            (JObj [("logs", JArr logs)])))
    (catch_debug rq (request_body args) "Error making backend request:"
       "Error finding DataManager logs: " "Unknown error").

End Handler.
End findDataManagerLogs.

(** ** src/tools/uploadFileToConfig.ts *)

Module uploadFileToConfig.
Section Handler.
Context {builtins : JsBuiltins}.

Record Args : Type := { configId : string; file : string; fileName : string }.

Definition upload_url (cfg : ServerConfig) : string :=
  BACKEND_API_BASE cfg ++ "/api/service/uploadAndImportFile".

(** [authInfo?.downstreamToken || serverConfig.BACKEND_ACCESS_TOKEN] *)
Definition authToken (cfg : ServerConfig) (request : RequestContext) : option string :=
  opt_or (request_token request) (BACKEND_ACCESS_TOKEN cfg).

Definition upload_headers (cfg : ServerConfig) (request : RequestContext)
    : list (string * string) :=
  let h := [("User-Agent", or_empty (BACKEND_USER_AGENT cfg));
            ("Accept", "application/json")] in
  if present (authToken cfg request)
  then h ++ [("Authorization", "Bearer " ++ opt_to_string (authToken cfg request))]
  else h.

Definition formData (args : Args) : list (string * FormValue) :=
  [("configId", FormText (configId args));
   ("uploadedFile", FormBlob (file args) "application/octet-stream" (fileName args));
   ("_uploadedFile_fileName", FormText (fileName args))].

Definition upload_request (cfg : ServerConfig) (args : Args) (request : RequestContext)
    : Request :=
  {| url := upload_url cfg; method := "POST"; headers := upload_headers cfg request;
     body := FormBody (formData args); rejectUnauthorized := false |}.

Definition handler (cfg : ServerConfig) (args : Args) (request : RequestContext)
    : M ToolResult :=
  try_catch
    (response <- fetch (upload_request cfg args request) ;;
     if negb (ok response) then
       errorText <- response_text response ;;
       throw (JsErr ("OFBiz service call failed: " ++ string_of_Z (status response)
                     ++ " " ++ statusText response ++ " - " ++ errorText))
     else
     result <- response_json response ;;
     responseMessage <- lift (js_get result "responseMessage") ;;
     if js_strict_eq responseMessage (JStr "error")
        || js_strict_eq responseMessage (JStr "fail")
     then
       errorMessage <- lift (js_get result "errorMessage") ;;
       errorMessageList <- lift (js_get result "errorMessageList") ;;
       throw (JsErr ("Service returned error: "
                     ++ js_to_string (js_or errorMessage errorMessageList)))
     else
     uploadFileContentId <- lift (js_get result "uploadFileContentId") ;;
     ret (success_result
            [text_item ("File uploaded successfully." ++ nl ++ "Config ID: "
                        ++ configId args ++ nl ++ "Content ID: "
                        ++ js_to_string (js_or uploadFileContentId (JStr "N/A")))]
            (JObj [("configId", JStr (configId args));
                   ("uploadFileContentId", uploadFileContentId);
                   ("status", JStr "success")])))
    (catch_plain "Error in uploadFileToConfig:").

End Handler.
End uploadFileToConfig.

(** ** src/tools/findOrderItems.ts *)

Module findOrderItems.
Section Handler.
Context {builtins : JsBuiltins}.

Record Args : Type := { orderId : string }.

Definition request_body (args : Args) : JsVal :=
  JObj [("entityName", JStr "OrderItem"); ("noConditionFind", JStr "Y");
        ("inputFields", JObj [("orderId", JStr (orderId args))]);
        ("viewSize", JNum 100); ("orderBy", JStr "orderItemSeqId")].

Definition requestOptions (cfg : ServerConfig) (args : Args) (request : RequestContext)
    : Request :=
  post_json (performFind_url cfg) (json_headers_auth cfg request) (request_body args).

Definition output_fields : list Proj :=
  map same ["orderId"; "orderItemSeqId"; "productId"; "itemDescription"; "quantity";
            "unitPrice"; "statusId"].

Definition handler (cfg : ServerConfig) (args : Args) (request : RequestContext)
    : M ToolResult :=
  if String.eqb (orderId args) "" then
    ret (error_result [text_item "Error: orderId is required"])
  else
  try_catch
    (response <- fetch (requestOptions cfg args request) ;;
     if negb (ok response) then throw (http_error response) else
     data <- response_json response ;;
     docs <- docs_or_empty data ;;
     arr <- lift (as_array docs "docs.map") ;;
     items <- lift (map_exn (fun item => match project item output_fields with
                                         | inl e => inl e
                                         | inr l => inr (JObj l)
                                         end) arr) ;;
     ret (success_result [text_item (JSON_stringify (JArr items) 2)]
            (JObj [("items", JArr items)])))
    (catch_plain "Error in findOrderItems:").

End Handler.
End findOrderItems.

(** ** findOrderHeader (second module of src/tools/findOrderItems.ts) *)

Module findOrderHeader.
Section Handler.
Context {builtins : JsBuiltins}.

Record Args : Type := { orderId : option string; externalId : option string }.

(** [const inputFields = {}; if (args.orderId) ...; if (args.externalId) ...] *)
Definition inputFields (args : Args) : list (string * JsVal) :=
  (if present (orderId args) then [("orderId", opt_js (orderId args))] else [])
  ++ (if present (externalId args) then [("externalId", opt_js (externalId args))] else []).

Definition request_body (args : Args) : JsVal :=
  JObj [("entityName", JStr "OrderHeader"); ("noConditionFind", JStr "Y");
        ("inputFields", JObj (inputFields args)); ("viewSize", JNum 1)].

Definition requestOptions (cfg : ServerConfig) (args : Args) (request : RequestContext)
    : Request :=
  post_json (performFind_url cfg) (json_headers_auth cfg request) (request_body args).

Definition output_fields : list Proj :=
  map same ["orderId"; "statusId"; "externalId"; "entryDate"; "productStoreId";
            "grandTotal"].

Definition handler (cfg : ServerConfig) (args : Args) (request : RequestContext)
    : M ToolResult :=
  match inputFields args with
  | [] => ret (error_result [text_item "Please provide either orderId or externalId"])
  | _ :: _ =>
  try_catch
    (response <- fetch (requestOptions cfg args request) ;;
     if negb (ok response) then throw (http_error response) else
     data <- response_json response ;;
     docs <- lift (js_get data "docs") ;;
     if no_docs docs then ret (error_result [text_item "Order not found."]) else
     let order := js_first docs in
     fields <- lift (project order output_fields) ;;
     let result := JObj fields in
     ret (success_result [text_item (JSON_stringify result 2)] result))
    (catch_plain "Error in findOrderHeader:")
  end.

End Handler.
End findOrderHeader.

(** ** src/tools/findOrderTasks.ts, first module: WorkEffort by sourceReferenceId *)

Module findOrderTasks.
Section Handler.
Context {builtins : JsBuiltins}.

Record Args : Type := { orderId : string; workEffortTypeId : option string }.

Definition inputFields (args : Args) : JsVal :=
  JObj [("sourceReferenceId", JStr (orderId args));
        ("workEffortTypeId",
         if present (workEffortTypeId args) then opt_js (workEffortTypeId args)
         else JStr "RESOLVE_ONHOLD_ORDER")].

Definition request_body (args : Args) : JsVal :=
  JObj [("entityName", JStr "WorkEffort"); ("noConditionFind", JStr "Y");
        ("inputFields", inputFields args); ("viewSize", JNum 20);
        ("orderBy", JStr "-createdDate")].

Definition requestOptions (cfg : ServerConfig) (args : Args) (request : RequestContext)
    : Request :=
  post_json (performFind_url cfg) (json_headers_auth cfg request) (request_body args).

Definition output_fields : list Proj :=
  map same ["workEffortId"; "workEffortName"; "workEffortTypeId"; "currentStatusId";
            "description"; "createdDate"].

Definition handler (cfg : ServerConfig) (args : Args) (request : RequestContext)
    : M ToolResult :=
  try_catch
    (response <- fetch (requestOptions cfg args request) ;;
     if negb (ok response) then throw (http_error response) else
     data <- response_json response ;;
     docs <- docs_or_empty data ;;
     arr <- lift (as_array docs "docs.map") ;;
     tasks <- lift (map_exn (fun task => match project task output_fields with
                                         | inl e => inl e
                                         | inr l => inr (JObj l)
                                         end) arr) ;;
     ret (success_result [text_item (JSON_stringify (JArr tasks) 0)]
            (JObj [("tasks", JArr tasks)])))
    (catch_plain "Error in findOrderTasks:").

End Handler.
End findOrderTasks.

(** ** src/tools/findOrderTasks.ts, second module: through OrderHeaderWorkEffort *)

Module findOrderTasks_linked.
Section Handler.
Context {builtins : JsBuiltins}.

Record Args : Type := { orderId : string; workEffortTypeId : option string }.

Definition commonHeaders := json_headers_auth.

Definition linkRequestOptions (cfg : ServerConfig) (args : Args) (request : RequestContext)
    : Request :=
  post_json (performFind_url cfg) (commonHeaders cfg request)
    (JObj [("entityName", JStr "OrderHeaderWorkEffort"); ("noConditionFind", JStr "Y");
           ("inputFields", JObj [("orderId", JStr (orderId args))]);
           ("viewSize", JNum 100)]).

Definition taskRequestOptions (cfg : ServerConfig) (request : RequestContext)
    (workEffortId : JsVal) : Request :=
  post_json (performFind_url cfg) (commonHeaders cfg request)
    (JObj [("entityName", JStr "WorkEffort");
           ("inputFields", JObj [("workEffortId", workEffortId)])]).

(** The object pushed onto [tasks]. *)
Definition task_entry (task : JsVal) : Exn + JsVal :=
  match project task [same "workEffortId"; same "workEffortName"; same "workEffortTypeId";
                      same "currentStatusId"; same_or_undef "description"] with
  | inl e => inl e
  | inr fields =>
      match js_get task "createdDate" with
      | inl e => inl e
      | inr created =>
          if truthy created then
            match Date_toISOString created with
            | inl e => inl e
            | inr iso => inr (JObj (fields ++ [("createdDate", JStr iso)])%list)
            end
          else inr (JObj (fields ++ [("createdDate", JUndef)])%list)
      end
  end.

(** One iteration of [for (const link of linkDocs)]: the task list after it. *)
Definition visit_link (cfg : ServerConfig) (args : Args) (request : RequestContext)
    (tasks : list JsVal) (link : JsVal) : M (list JsVal) :=
  workEffortId <- lift (js_get link "workEffortId") ;;
  taskResponse <- fetch (taskRequestOptions cfg request workEffortId) ;;
  if ok taskResponse then
    taskData <- response_json taskResponse ;;
    docs <- lift (js_get taskData "docs") ;;
    if has_docs docs then
      let task := js_first docs in
      skip <- (if present (workEffortTypeId args) then
                 ty <- lift (js_get task "workEffortTypeId") ;;
                 ret (negb (js_strict_eq ty (opt_js (workEffortTypeId args))))
               else ret false) ;;
      if (skip : bool) then ret tasks
      else entry <- lift (task_entry task) ;; ret (tasks ++ [entry])%list
    else ret tasks
  else ret tasks.

Fixpoint visit_links (cfg : ServerConfig) (args : Args) (request : RequestContext)
    (tasks : list JsVal) (links : list JsVal) : M (list JsVal) :=
  match links with
  | [] => ret tasks
  | link :: rest =>
      tasks' <- visit_link cfg args request tasks link ;;
      visit_links cfg args request tasks' rest
  end.

Definition handler (cfg : ServerConfig) (args : Args) (request : RequestContext)
    : M ToolResult :=
  try_catch
    (linkResponse <- fetch (linkRequestOptions cfg args request) ;;
     if negb (ok linkResponse) then
       throw (JsErr ("Failed to fetch OrderHeaderWorkEffort: "
                     ++ string_of_Z (status linkResponse)))
     else
     linkData <- response_json linkResponse ;;
     linkDocs <- docs_or_empty linkData ;;
     empty <- lift (js_length_is_zero linkDocs) ;;
     if (empty : bool) then
       ret (success_result [text_item (JSON_stringify (JArr []) 0)]
              (JObj [("tasks", JArr [])]))
     else
     links <- lift (js_iterate linkDocs "linkDocs") ;;
     tasks <- visit_links cfg args request [] links ;;
     ret (success_result [text_item (JSON_stringify (JArr tasks) 0)]
            (JObj [("tasks", JArr tasks)])))
    (catch_plain "Error in findOrderTasks:").

End Handler.
End findOrderTasks_linked.

(** ** findProductById (first module of unnamed/part_000) *)

Module findProductById.
Section Handler.
Context {builtins : JsBuiltins}.

Record Args : Type := { id : string }.

Definition by_productId (cfg : ServerConfig) (args : Args) (request : RequestContext)
    : Request :=
  getRequestOptions cfg request "Product" (JObj [("productId", JStr (id args))]).

Definition by_internalName (cfg : ServerConfig) (args : Args) (request : RequestContext)
    : Request :=
  getRequestOptions cfg request "Product" (JObj [("internalName", JStr (id args))]).

Definition output_fields : list Proj :=
  same "productId" ::
  map same_or_undef ["productName"; "internalName"; "description"; "productTypeId";
                     "isVirtual"; "isVariant"].

Definition not_found (args : Args) : ToolResult :=
  error_result [text_item ("Product not found: " ++ id args)].

Definition handler (cfg : ServerConfig) (args : Args) (request : RequestContext)
    : M ToolResult :=
  try_catch
    (response <- fetch (by_productId cfg args request) ;;
     data <- response_json response ;;
     docs <- lift (js_get data "docs") ;;
     docs <- (if no_docs docs then
                response <- fetch (by_internalName cfg args request) ;;
                data <- response_json response ;;
                lift (js_get data "docs")
              else ret docs) ;;
     if no_docs docs then ret (not_found args) else
     let product := js_first docs in
     fields <- lift (project product output_fields) ;;
     let result := JObj fields in
     ret (success_result [text_item (JSON_stringify result 2)] result))
    (catch_plain "Error in findProductById:").

End Handler.
End findProductById.

(** ** src/tools/getImportSapiOrderConfig.ts *)

Module getImportSapiOrderConfig.
Section Handler.
Context {builtins : JsBuiltins}.

Record Args : Type := { configId : option string }.

(** [args.configId || 'IMP_SAPI_ORDER'] *)
Definition effective_configId (args : Args) : string :=
  if present (configId args) then opt_to_string (configId args) else "IMP_SAPI_ORDER".

(** Step 2 of the handler: the RuntimeData lookup, whose result is assigned
    to a local that is not read afterwards. *)
Definition fetch_runtime (cfg : ServerConfig) (request : RequestContext)
    (runtimeDataId : JsVal) : M unit :=
  if truthy runtimeDataId then
    rtResponse <- fetch (getRequestOptions cfg request "RuntimeData"
                           (JObj [("runtimeDataId", runtimeDataId)])) ;;
    if ok rtResponse then
      rtData <- response_json rtResponse ;;
      docs <- lift (js_get rtData "docs") ;;
      if has_docs docs then
        _ <- lift (js_get (js_first docs) "runtimeInfo") ;; ret tt
      else ret tt
    else ret tt
  else ret tt.

Definition handler (cfg : ServerConfig) (args : Args) (request : RequestContext)
    : M ToolResult :=
  let configId' := effective_configId args in
  try_catch
    (console_line ("Fetching DataManagerConfig for " ++ configId') ;;;
     response <- fetch (getRequestOptions cfg request "DataManagerConfig"
                          (JObj [("dataManagerConfigId", JStr configId')])) ;;
     if negb (ok response) then throw (http_error response) else
     data <- response_json response ;;
     docs <- lift (js_get data "docs") ;;
     if no_docs docs then
       ret (error_result [text_item ("Config not found: " ++ configId')])
     else
     let config := js_first docs in
     runtimeDataId <- lift (js_get config "runtimeDataId") ;;
     fetch_runtime cfg request runtimeDataId ;;;
     dataManagerConfigId <- lift (js_get config "dataManagerConfigId") ;;
     rest <- lift (project config [same_or_undef "description"; same_or_undef "jobName";
                                   same_or_undef "runtimeDataId";
                                   same_or_undef "runtimeInfo"]) ;;
     let result :=
       JObj (("configId", js_or dataManagerConfigId (opt_js (configId args))) :: rest) in
     ret (success_result [text_item (JSON_stringify result 2)] result))
    (catch_plain "Error in getImportSapiOrderConfig:").

End Handler.
End getImportSapiOrderConfig.

(** ** The content resolution chain: steps shared by the three getContent sources

    [src/tools/getContent.ts], [unnamed/part_002] and [unnamed/part_003] are
    three versions of the same tool.  Steps 1 and 2 and the typed text fetch
    are the same text in all three. *)

Module getContentCommon.
Section Steps.
Context {builtins : JsBuiltins}.

Definition content_request (cfg : ServerConfig) (request : RequestContext)
    (contentId : string) : Request :=
  getRequestOptions cfg request "Content" (JObj [("contentId", JStr contentId)]).

Definition dataResource_request (cfg : ServerConfig) (request : RequestContext)
    (dataResourceId : JsVal) : Request :=
  getRequestOptions cfg request "DataResource" (JObj [("dataResourceId", dataResourceId)]).

Definition electronicText_request (cfg : ServerConfig) (request : RequestContext)
    (dataResourceId : JsVal) : Request :=
  getRequestOptions cfg request "ElectronicText" (JObj [("dataResourceId", dataResourceId)]).

Definition content_not_found (contentId : string) : ToolResult :=
  error_result [text_item ("Content not found: " ++ contentId)].

Definition is_text_type (ty : JsVal) : bool :=
  js_strict_eq ty (JStr "ELECTRONIC_TEXT") || js_strict_eq ty (JStr "SHORT_TEXT").

Definition is_file_type (ty : JsVal) : bool :=
  js_strict_eq ty (JStr "OFBIZ_FILE") || js_strict_eq ty (JStr "LOCAL_FILE").

(** The body of [if (type === 'ELECTRONIC_TEXT' || type === 'SHORT_TEXT')]:
    the value of [textData] after it, which starts as ['']. *)
Definition fetch_electronic_text (cfg : ServerConfig) (request : RequestContext)
    (dataResourceId : JsVal) : M JsVal :=
  textResponse <- fetch (electronicText_request cfg request dataResourceId) ;;
  if ok textResponse then
    textDataResponse <- response_json textResponse ;;
    docs <- lift (js_get textDataResponse "docs") ;;
    if has_docs docs then lift (js_get (js_first docs) "textData")
    else ret (JStr "")
  else ret (JStr "").

(** What steps 1 and 2 hand to the rest of the chain. *)
Record Resolved : Type := {
  contentRecord : JsVal;
  dataResourceId : JsVal;
  dr : JsVal;
  dataResourceTypeId : JsVal
}.

(** Steps 1 and 2: Content, then DataResource. [inl] is an early [return]. *)
Definition resolve (cfg : ServerConfig) (request : RequestContext) (contentId : string)
    : M (ToolResult + Resolved) :=
  contentResponse <- fetch (content_request cfg request contentId) ;;
  if negb (ok contentResponse) then
    throw (JsErr ("Failed to fetch Content: " ++ string_of_Z (status contentResponse)))
  else
  contentData <- response_json contentResponse ;;
  docs <- lift (js_get contentData "docs") ;;
  if no_docs docs then ret (inl (content_not_found contentId)) else
  let contentRecord := js_first docs in
  dataResourceId <- lift (js_get contentRecord "dataResourceId") ;;
  if negb (truthy dataResourceId) then
    ret (inl (error_result [text_item ("No dataResourceId for Content: " ++ contentId)]))
  else
  drResponse <- fetch (dataResource_request cfg request dataResourceId) ;;
  if negb (ok drResponse) then
    throw (JsErr ("Failed to fetch DataResource: " ++ string_of_Z (status drResponse)))
  else
  drData <- response_json drResponse ;;
  drDocs <- lift (js_get drData "docs") ;;
  let dr := if has_docs drDocs then js_first drDocs else JNull in
  if negb (truthy dr) then
    ret (inl (error_result [text_item ("DataResource not found for ID: "
                                       ++ js_to_string dataResourceId)]))
  else
  dataResourceTypeId <- lift (js_get dr "dataResourceTypeId") ;;
  ret (inr {| contentRecord := contentRecord; dataResourceId := dataResourceId;
              dr := dr; dataResourceTypeId := dataResourceTypeId |}).

End Steps.
End getContentCommon.

(** ** src/tools/getContent.ts *)

Module getContent.
Import getContentCommon.
Section Handler.
Context {builtins : JsBuiltins}.

Record Args : Type := { contentId : string }.

Definition remote_url (cfg : ServerConfig) (dataResourceId : JsVal) : string :=
  BACKEND_API_BASE cfg ++ "/content/control/ViewBinaryDataResource?dataResourceId="
  ++ js_to_string dataResourceId.

Definition remote_request (cfg : ServerConfig) (request : RequestContext)
    (dataResourceId : JsVal) : Request :=
  {| url := remote_url cfg dataResourceId; method := "GET";
     headers := [("Authorization", authorization_value cfg request);
                 ("User-Agent", or_empty (BACKEND_USER_AGENT cfg))];
     body := NoBody; rejectUnauthorized := false |}.

(** The early [return] of the [OFBIZ_FILE] / [LOCAL_FILE] branch. *)
Definition remote_file_result (args : Args) (r : Resolved) : M ToolResult :=
  objectInfo0 <- lift (js_get (dr r) "objectInfo") ;;
  let objectInfo := js_or objectInfo0 (JStr "Unknown Path") in
  contentName <- lift (js_get (contentRecord r) "contentName") ;;
  mimeTypeId <- lift (js_get (contentRecord r) "mimeTypeId") ;;
  ret (success_result
         [text_item
            ("[REMOTE FILE LOG]" ++ nl
             ++ "ID: " ++ contentId args ++ nl
             ++ "Name: " ++ js_to_string (js_or contentName (JStr "Unknown")) ++ nl
             ++ "Type: " ++ js_to_string (dataResourceTypeId r) ++ nl
             ++ "Remote Path: " ++ js_to_string objectInfo ++ nl
             ++ "MimeType: " ++ js_to_string (js_or mimeTypeId (JStr "N/A")) ++ nl
             ++ nl
             ++ "STATUS: Content is stored as a file on the remote server disk." ++ nl
             ++ "ACTION: Automated retrieval unavailable (Service 'renderDataResourceAsText' not exported)."
             ++ nl
             ++ "       Please retrieve this file via SSH from the server path above.")]
         (JObj [("contentId", JStr (contentId args));
                ("dataResourceId", dataResourceId r);
                ("textData", JStr ("[Remote File: " ++ js_to_string objectInfo ++ "]"));
                ("mimeType", js_or mimeTypeId JUndef)])).

(** The inner [try { ... } catch (remoteErr) { ... }]: the values of
    [textData] and [result.textData] after it. *)
Definition remote_fetch (cfg : ServerConfig) (request : RequestContext)
    (dataResourceId : JsVal) (textData : JsVal) : M (JsVal * JsVal) :=
  try_catch
    (console_line ("[getContent] Attempting remote fetch from: "
                   ++ remote_url cfg dataResourceId) ;;;
     remoteResponse <- fetch (remote_request cfg request dataResourceId) ;;
     if ok remoteResponse then
       t <- response_text remoteResponse ;;
       ret (JStr t, JStr t)
     else
       console_line ("[getContent] Remote fetch failed: "
                     ++ string_of_Z (status remoteResponse) ++ " "
                     ++ statusText remoteResponse) ;;;
       ret (textData, js_or textData JUndef))
    (fun remoteErr =>
       console_line ("[getContent] Remote fetch error: " ++ inspect remoteErr) ;;;
       ret (textData, js_or textData JUndef)).

Definition no_text_found (dataResourceId : JsVal) : ToolResult :=
  error_result [text_item ("No ElectronicText or File found for dataResourceId: "
                           ++ js_to_string dataResourceId ++ " (Remote fetch attempted)")].

Definition handler (cfg : ServerConfig) (args : Args) (request : RequestContext)
    : M ToolResult :=
  try_catch
    (step <- resolve cfg request (contentId args) ;;
     match step with
     | inl early => ret early
     | inr r =>
         let continue (textData : JsVal) : M ToolResult :=
           mimeTypeId <- lift (js_get (contentRecord r) "mimeTypeId") ;;
           fetched <- remote_fetch cfg request (dataResourceId r) textData ;;
           let '(textData', resultTextData) := fetched in
           if negb (truthy textData') then ret (no_text_found (dataResourceId r))
           else
             ret (success_result [{| type := "text"; text := textData' |}]
                    (JObj [("contentId", JStr (contentId args));
                           ("dataResourceId", js_or (dataResourceId r) JUndef);
                           ("textData", resultTextData);
                           ("mimeType", js_or mimeTypeId JUndef)])) in
         if is_text_type (dataResourceTypeId r) then
           textData <- fetch_electronic_text cfg request (dataResourceId r) ;;
           continue textData
         else if is_file_type (dataResourceTypeId r) then remote_file_result args r
         else continue (JStr "")
     end)
    (catch_plain "Error in getContent:").

End Handler.
End getContent.

(** ** unnamed/part_002: getContent with the guarded DownloadCsvFile fallback *)

Module getContent_part_002.
Import getContentCommon.
Section Handler.
Context {builtins : JsBuiltins}.

Inductive Category : Type := uploaded | error.

Record Args : Type := {
  contentId : string;
  configId : option string;
  category : option Category
}.

Definition download_url (cfg : ServerConfig) (contentId : string) : string :=
  BACKEND_API_BASE cfg ++ "/api/DownloadCsvFile?contentId=" ++ contentId.

(** [const token = authInfo?.downstreamToken || serverConfig.BACKEND_ACCESS_TOKEN] *)
Definition token (cfg : ServerConfig) (request : RequestContext) : option string :=
  opt_or (request_token request) (BACKEND_ACCESS_TOKEN cfg).

Definition download_request (cfg : ServerConfig) (request : RequestContext)
    (contentId : string) : Request :=
  {| url := download_url cfg contentId; method := "GET";
     headers := [("Authorization", "Bearer " ++ opt_to_string (token cfg request));
                 ("User-Agent", or_empty (BACKEND_USER_AGENT cfg))];
     body := NoBody; rejectUnauthorized := false |}.

(** The body of [if (!textData) { try { ... } catch (remoteErr) { ... } }]:
    the value of [textData] after it. *)
Definition download_fallback (cfg : ServerConfig) (request : RequestContext)
    (contentId : string) (textData : JsVal) : M JsVal :=
  try_catch
    (console_line ("[getContent] Attempting remote fetch from: "
                   ++ download_url cfg contentId) ;;;
     remoteResponse <- fetch (download_request cfg request contentId) ;;
     if ok remoteResponse then
       t <- response_text remoteResponse ;; ret (JStr t)
     else
       errText <- response_text remoteResponse ;;
       console_line ("[getContent] Remote fetch failed: "
                     ++ string_of_Z (status remoteResponse) ++ " "
                     ++ statusText remoteResponse ++ ". Response preview: "
                     ++ substring 0 200 errText) ;;;
       ret textData)
    (fun remoteErr =>
       console_line ("[getContent] Remote fetch error: " ++ inspect remoteErr) ;;;
       ret textData).

Definition no_text_content (contentId : string) (dataResourceTypeId : JsVal)
    : ToolResult :=
  error_result [text_item ("No text content found for contentId: " ++ contentId
                           ++ " (Type: " ++ js_to_string dataResourceTypeId ++ ")")].

(** Steps 3 to 6: the typed fetch, then the fallback when it gave no text.
    [inl] is the early [return] of the no-content error. *)
Definition retrieve_text (cfg : ServerConfig) (request : RequestContext)
    (contentId : string) (r : Resolved) : M (ToolResult + JsVal) :=
  textData <- (if is_text_type (dataResourceTypeId r)
               then fetch_electronic_text cfg request (dataResourceId r)
               else ret (JStr "")) ;;
  textData <- (if negb (truthy textData)
               then download_fallback cfg request contentId textData
               else ret textData) ;;
  if negb (truthy textData)
  then ret (inl (no_text_content contentId (dataResourceTypeId r)))
  else ret (inr textData).

Definition handler (cfg : ServerConfig) (args : Args) (request : RequestContext)
    : M ToolResult :=
  try_catch
    (step <- resolve cfg request (contentId args) ;;
     match step with
     | inl early => ret early
     | inr r =>
         got <- retrieve_text cfg request (contentId args) r ;;
         match got with
         | inl early => ret early
         | inr textData =>
             mimeTypeId <- lift (js_get (contentRecord r) "mimeTypeId") ;;
             ret (success_result [{| type := "text"; text := textData |}]
                    (JObj [("contentId", JStr (contentId args));
                           ("dataResourceId", js_or (dataResourceId r) JUndef);
                           ("textData", js_or textData JUndef);
                           ("mimeType", js_or mimeTypeId JUndef)]))
         end
     end)
    (catch_plain "Error in getContent:").

End Handler.
End getContent_part_002.

(** ** unnamed/part_003: getContent with the fallback and local persistence *)

Module getContent_part_003.
Import getContentCommon.
Section Handler.
Context {builtins : JsBuiltins}.

Definition Category := getContent_part_002.Category.
Definition Args := getContent_part_002.Args.
Definition contentId := getContent_part_002.contentId.
Definition configId := getContent_part_002.configId.
Definition category := getContent_part_002.category.

(** Steps 3 to 6 are the text of [unnamed/part_002]. *)
Definition retrieve_text := getContent_part_002.retrieve_text.

(** [args.category || 'uploaded'] *)
Definition category_name (args : Args) : string :=
  match category args with
  | Some getContent_part_002.error => "error"
  | Some getContent_part_002.uploaded | None => "uploaded"
  end.

(** The extension chosen from [contentRecord.mimeTypeId]. *)
Definition extension (mimeType : JsVal) : string :=
  if js_strict_eq mimeType (JStr "text/csv") || js_strict_eq mimeType (JStr "application/csv")
  then ".csv"
  else if js_strict_eq mimeType (JStr "application/json") then ".json"
  else if js_strict_eq mimeType (JStr "text/xml")
          || js_strict_eq mimeType (JStr "application/xml") then ".xml"
  else if js_strict_eq mimeType (JStr "application/pdf") then ".pdf"
  else ".txt".

(** Segments of a relative path, split at ['/']. *)
Fixpoint split_slash (s : string) (cur : string) : list string :=
  match s with
  | EmptyString => [cur]
  | String c r =>
      if Ascii.eqb c "/"%char then cur :: split_slash r ""
      else split_slash r (cur ++ String c EmptyString)
  end.

(** [path.join(dir, name)] for an absolute [dir]: the segments of [name] are
    appended, [''] and ['.'] are dropped and ['..'] steps up. *)
Definition path_join (dir : Path) (name : string) : Path :=
  fold_left
    (fun (acc : Path) (seg : string) =>
       if String.eqb seg "" || String.eqb seg "." then acc
       else if String.eqb seg ".." then removelast acc
       else (acc ++ [seg])%list)
    (split_slash name "") dir.

(** The path as a string. *)
Definition path_string (p : Path) : string :=
  match p with
  | [] => "/"
  | _ :: _ => fold_left (fun acc seg => acc ++ "/" ++ seg) p ""
  end.

(** [findRuntimeDir], on the components of [startDir] innermost first: the
    [while (currentDir !== root)] loop, then the check of the root. *)
Fixpoint findRuntimeDir_from (isDirectory : Path -> bool) (innermost_first : list string)
    : option Path :=
  let candidate := path_join (rev innermost_first) "runtime" in
  match innermost_first with
  | [] => if isDirectory candidate then Some candidate else None
  | _ :: parent =>
      if isDirectory candidate then Some candidate
      else findRuntimeDir_from isDirectory parent
  end.

Definition findRuntimeDir (isDirectory : Path -> bool) (startDir : Path) : option Path :=
  findRuntimeDir_from isDirectory (rev startDir).

(** The line logged when no [runtime] directory is found. *)
Definition runtime_not_found : string :=
  "Could not find " ++ dq ++ "runtime" ++ dq ++ " directory in parent hierarchy.".

(** The persistence block: the value of [savedPath] after it. *)
Definition persist (args : Args) (mimeType : JsVal) (textData : JsVal)
    : M (option string) :=
  match configId args with
  | None => ret None
  | Some cid =>
      if String.eqb cid "" then ret None else
      let ext := extension mimeType in
      isDirectory <- ask fs_isDirectory ;;
      currentDir <- ask module_dir ;;
      match findRuntimeDir isDirectory currentDir with
      | Some runtimeDir =>
          let dirName := category_name args ++ "File_" ++ cid in
          let targetDir := path_join runtimeDir dirName in
          exists_ <- ask (fun w => fs_existsSync w targetDir) ;;
          (if negb exists_ then mkdir targetDir else ret tt) ;;;
          let fileName := contentId args ++ ext in
          let savedPath := path_join targetDir fileName in
          writeFile savedPath textData ;;;
          console_line ("Saved content to: " ++ path_string savedPath) ;;;
          ret (Some (path_string savedPath))
      | None =>
          console_line runtime_not_found ;;;
          ret None
      end
  end.

(** [textData.substring(0, 500)]; only strings have the method. *)
Definition preview (textData : JsVal) : Exn + string :=
  match textData with
  | JStr t => inr (substring 0 500 t)
  | _ => inl (not_a_function "textData.substring")
  end.

Definition handler (cfg : ServerConfig) (args : Args) (request : RequestContext)
    : M ToolResult :=
  try_catch
    (step <- resolve cfg request (contentId args) ;;
     match step with
     | inl early => ret early
     | inr r =>
         got <- retrieve_text cfg request (contentId args) r ;;
         match got with
         | inl early => ret early
         | inr textData =>
             mimeTypeId <- lift (js_get (contentRecord r) "mimeTypeId") ;;
             savedPath <- persist args mimeTypeId textData ;;
             pre <- lift (preview textData) ;;
             ret (success_result
                    [text_item ("Content Retrieved." ++ nl
                                ++ match savedPath with
                                   | Some p => "Saved to: " ++ p ++ nl
                                   | None => ""
                                   end
                                ++ nl ++ "Preview:" ++ nl ++ pre ++ "...")]
                    (JObj [("contentId", JStr (contentId args));
                           ("dataResourceId", js_or (dataResourceId r) JUndef);
                           ("textData", js_or textData JUndef);
                           ("mimeType", js_or mimeTypeId JUndef);
                           ("savedPath", opt_js savedPath)]))
         end
     end)
    (catch_plain "Error in getContent:").

End Handler.
End getContent_part_003.

(** ** Every tool of the server *)

Inductive ToolCall : Type :=
| call_getLogById (args : getLogById.Args)
| call_getLogConfig (args : getLogConfig.Args)
| call_listRecentErrors (args : listRecentErrors.Args)
| call_findPickProfileGroups (args : findPickProfileGroups.Args)
| call_retryFailedRecord (args : retryFailedRecord.Args)
| call_findDataManagerLogs (args : findDataManagerLogs.Args)
| call_uploadFileToConfig (args : uploadFileToConfig.Args)
| call_findOrderItems (args : findOrderItems.Args)
| call_findOrderHeader (args : findOrderHeader.Args)
| call_findOrderTasks (args : findOrderTasks.Args)
| call_findOrderTasks_linked (args : findOrderTasks_linked.Args)
| call_findProductById (args : findProductById.Args)
| call_getImportSapiOrderConfig (args : getImportSapiOrderConfig.Args)
| call_getContent (args : getContent.Args)
| call_getContent_part_002 (args : getContent_part_002.Args)
| call_getContent_part_003 (args : getContent_part_003.Args).

Section Invoke.
Context {builtins : JsBuiltins}.

(** [tool.handler(args, request)] for the tool built from [cfg]. *)
Definition invoke (cfg : ServerConfig) (call : ToolCall) (request : RequestContext)
    : M ToolResult :=
  match call with
  | call_getLogById a => getLogById.handler cfg a request
  | call_getLogConfig a => getLogConfig.handler cfg a request
  | call_listRecentErrors a => listRecentErrors.handler cfg a request
  | call_findPickProfileGroups a => findPickProfileGroups.handler cfg a request
  | call_retryFailedRecord a => retryFailedRecord.handler cfg a request
  | call_findDataManagerLogs a => findDataManagerLogs.handler cfg a request
  | call_uploadFileToConfig a => uploadFileToConfig.handler cfg a request
  | call_findOrderItems a => findOrderItems.handler cfg a request
  | call_findOrderHeader a => findOrderHeader.handler cfg a request
  | call_findOrderTasks a => findOrderTasks.handler cfg a request
  | call_findOrderTasks_linked a => findOrderTasks_linked.handler cfg a request
  | call_findProductById a => findProductById.handler cfg a request
  | call_getImportSapiOrderConfig a => getImportSapiOrderConfig.handler cfg a request
  | call_getContent a => getContent.handler cfg a request
  | call_getContent_part_002 a => getContent_part_002.handler cfg a request
  | call_getContent_part_003 a => getContent_part_003.handler cfg a request
  end.

End Invoke.


(** Input the handler itself rejects before any request is built. *)
Definition rejected_input (call : ToolCall) : bool :=
  match call with
  | call_findOrderItems a => String.eqb (findOrderItems.orderId a) ""
  | call_findOrderHeader a =>
      match findOrderHeader.inputFields a with [] => true | _ :: _ => false end
  | _ => false
  end.


(** ** Vocabulary of the properties *)

(** The Success variant: content and structuredContent, no isError key. *)
Definition is_success (r : ToolResult) : Prop :=
  content r <> [] /\ (exists sc, structuredContent r = Some sc) /\ isError r = None.

(** The Error variant: content and isError: true, no structuredContent key. *)
Definition is_error (r : ToolResult) : Prop :=
  content r <> [] /\ structuredContent r = None /\ isError r = Some true.

(** [result.structuredContent.k], when there is a structuredContent. *)
Definition structured_field (r : ToolResult) (k : string) : option JsVal :=
  match structuredContent r with
  | Some (JObj props) => assoc k props
  | _ => None
  end.

(** The values of the header [name] in a header set. *)
Definition header_values (name : string) (hs : list (string * string)) : list string :=
  map snd (filter (fun kv => String.eqb (fst kv) name) hs).

(** [s.startsWith(sub)] *)
Fixpoint starts_with (sub s : string) : bool :=
  match sub with
  | EmptyString => true
  | String a sub' =>
      match s with
      | EmptyString => false
      | String b s' => Ascii.eqb a b && starts_with sub' s'
      end
  end.

(** [s.includes(sub)] *)
Fixpoint includes (sub s : string) : bool :=
  starts_with sub s ||
  match s with
  | EmptyString => false
  | String _ r => includes sub r
  end.

(** Some content item of the result is a string that includes [sub]. *)
Definition mentions (r : ToolResult) (sub : string) : Prop :=
  exists item msg, In item (content r) /\ text item = JStr msg /\ includes sub msg = true.

Definition mentionsb (r : ToolResult) (sub : string) : bool :=
  existsb (fun item => match text item with
                       | JStr msg => includes sub msg
                       | _ => false
                       end) (content r).

(** Running a handler on a fresh invocation. *)
Definition run {A} (m : M A) (w : World) : (Exn + A) * State := m w init.

(** A world whose backend gives the same answer to everything and whose file
    system has no directory and accepts every write. *)
Definition constant_world (answer : FetchOutcome) : World :=
  {| backend := fun _ _ => answer;
     module_dir := ["srv"; "app"; "build"; "tools"];
     fs_isDirectory := fun _ => false;
     fs_existsSync := fun _ => false;
     fs_mkdir := fun _ => None;
     fs_writeFile := fun _ _ => None |}.

(** A world whose backend answers the n-th request of the invocation with
    the n-th outcome of [answers] (and rejects once they run out). *)
Definition scripted_world (answers : list FetchOutcome) (dir : Path)
    (dirs : list Path) (mkdir_error write_error : option Exn) : World :=
  {| backend := fun sent _ => nth (List.length sent) answers (Rejected JsOther);
     module_dir := dir;
     fs_isDirectory := fun p => existsb (fun d => if list_eq_dec string_dec p d
                                                  then true else false) dirs;
     fs_existsSync := fun p => existsb (fun d => if list_eq_dec string_dec p d
                                                 then true else false) dirs;
     fs_mkdir := fun _ => mkdir_error;
     fs_writeFile := fun _ _ => write_error |}.

Definition json_response (code : Z) (data : JsVal) : FetchOutcome :=
  Responded {| status := code; statusText := "";
               body_text := inr ""; body_json := inr data |}.

Definition text_response (code : Z) (t : string) : FetchOutcome :=
  Responded {| status := code; statusText := "";
               body_text := inr t;
               body_json := inl (JsErr "Unexpected token in JSON at position 0") |}.

(** ASCII white space. *)
Definition is_space (c : ascii) : bool :=
  let n := nat_of_ascii c in
  (n =? 32)%nat || ((9 <=? n)%nat && (n <=? 13)%nat).

Fixpoint drop_while (f : ascii -> bool) (l : list ascii) : list ascii :=
  match l with
  | c :: r => if f c then drop_while f r else l
  | [] => []
  end.

(** [s] without the characters in [f] at its two ends. *)
Definition strip (f : ascii -> bool) (s : string) : string :=
  string_of_list_ascii
    (rev (drop_while f (rev (drop_while f (list_ascii_of_string s))))).

(** [s.trim()] on ASCII text. *)
Definition plain_trim (s : string) : string := strip is_space s.

(** A number as a template literal prints it, for the integers used in
    concrete runs: decimal digits below 10^21, and from there on the digits
    without their trailing zeros in exponent form. *)
Definition plain_number (n : Z) : string :=
  if Z.abs n <? 10 ^ 21 then string_of_Z n
  else
    let digits := string_of_Z (Z.abs n) in
    let exponent := string_of_Z (Z.of_nat (String.length digits) - 1) in
    let kept := string_of_list_ascii
                  (rev (drop_while (Ascii.eqb "0"%char)
                          (rev (list_ascii_of_string digits)))) in
    (if n <? 0 then "-" else "")
    ++ match kept with
       | String c EmptyString => String c EmptyString
       | String c more => String c ("." ++ more)
       | EmptyString => "0"
       end
    ++ "e+" ++ exponent.

(** Built-ins for running the handlers on concrete inputs. *)
Definition plain_builtins : JsBuiltins :=
  {| JSON_stringify := fun _ _ => "<json>";
     inspect := fun e => match e with JsErr m => m | JsOther => "<thrown>" end;
     Date_toISOString := fun _ => inr "1970-01-01T00:00:00.000Z";
     String_trim := plain_trim;
     String_toNumber := fun _ => None;
     Number_toString := plain_number |}.

(** Exactly one of the two variants. *)
Definition one_variant (r : ToolResult) : Prop :=
  (is_success r \/ is_error r) /\ ~ (is_success r /\ is_error r).

(** [m], when it returns normally, returns a value in [Q]. *)
Definition returns {A} (Q : A -> Prop) (m : M A) : Prop :=
  forall w s, match fst (m w s) with inr a => Q a | inl _ => True end.

(** [m] never throws, and its value is in [Q]. *)
Definition always {A} (Q : A -> Prop) (m : M A) : Prop :=
  forall w s, exists a s', m w s = (inr a, s') /\ Q a.

(** [m] only appends to the list of requests sent, and what it appends is
    in [P]. *)
Definition trace {A} (P : Request -> Prop) (m : M A) : Prop :=
  forall w s, exists more,
    requests (snd (m w s)) = (requests s ++ more)%list /\ Forall P more.


(** The three sources of the getContent tool. *)
Inductive Source : Type :=
| src_tools_getContent
| unnamed_part_002
| unnamed_part_003.

Section GetContentSources.
Context {builtins : JsBuiltins}.

(** The handler of each source, on the arguments of the richest schema
    (the schema of [src/tools/getContent.ts] has [contentId] only). *)
Definition getContent_handler (src : Source) (cfg : ServerConfig)
    (args : getContent_part_002.Args) (request : RequestContext) : M ToolResult :=
  match src with
  | src_tools_getContent =>
      getContent.handler cfg
        {| getContent.contentId := getContent_part_002.contentId args |} request
  | unnamed_part_002 => getContent_part_002.handler cfg args request
  | unnamed_part_003 => getContent_part_003.handler cfg args request
  end.


End GetContentSources.

(** The request carries exactly one Authorization header, [Bearer t]. *)
Definition carries_bearer (t : string) (rq : Request) : Prop :=
  header_values "Authorization" (headers rq) = ["Bearer " ++ t].


(** ** Fixtures: concrete configurations, contexts and backends *)

Definition cfg_static : ServerConfig :=
  {| BACKEND_API_BASE := "https://erp.example";
     BACKEND_ACCESS_TOKEN := Some "STATIC";
     BACKEND_USER_AGENT := Some "soc-mcp" |}.

Definition cfg_no_token : ServerConfig :=
  {| BACKEND_API_BASE := "https://erp.example";
     BACKEND_ACCESS_TOKEN := None;
     BACKEND_USER_AGENT := Some "soc-mcp" |}.

Definition request_delegated : RequestContext :=
  {| authInfo := Some {| downstreamToken := Some "DELEGATED" |} |}.

(** [{ authInfo: {} }], as the demonstration driver passes it. *)
Definition request_no_token : RequestContext :=
  {| authInfo := Some {| downstreamToken := None |} |}.

Definition args_C1 : getContent_part_002.Args :=
  {| getContent_part_002.contentId := "C1";
     getContent_part_002.configId := None;
     getContent_part_002.category := None |}.

Definition args_C1_saved : getContent_part_002.Args :=
  {| getContent_part_002.contentId := "C1";
     getContent_part_002.configId := Some "IMP_SAPI_ORDER";
     getContent_part_002.category := Some getContent_part_002.error |}.

Definition one_doc (fields : list (string * JsVal)) : JsVal :=
  JObj [("docs", JArr [JObj fields])].

Definition no_rows : JsVal := JObj [("docs", JArr [])].

(** Content C1 -> DataResource D1 of the given type. *)
Definition chain_answers (dataResourceTypeId : string) : list FetchOutcome :=
  [json_response 200 (one_doc [("contentId", JStr "C1"); ("dataResourceId", JStr "D1");
                               ("mimeTypeId", JStr "text/csv")]);
   json_response 200 (one_doc [("dataResourceId", JStr "D1");
                               ("dataResourceTypeId", JStr dataResourceTypeId);
                               ("objectInfo", JStr "/data/files/C1.csv")])].

Definition plain_world (answers : list FetchOutcome) : World :=
  scripted_world answers ["srv"; "app"; "build"; "tools"] [] None None.



(** No ElectronicText row; the download answers "a,b". *)
Definition world_text_fallback : World :=
  plain_world (chain_answers "ELECTRONIC_TEXT"
               ++ [json_response 200 no_rows; text_response 200 "a,b"])%list.


(** The tools whose first query is followed by a check of [response.ok]. *)
Definition status_checked (call : ToolCall) : bool :=
  match call with
  | call_findProductById _ | call_uploadFileToConfig _ => false
  | _ => true
  end.

Definition args_P1 : findProductById.Args := {| findProductById.id := "P1" |}.

Definition response_500 (data : JsVal) : Response :=
  {| status := 500; statusText := "Internal Server Error";
     body_text := inr "Internal Server Error"; body_json := inr data |}.

(** A backend that answers every request with HTTP 500 and a JSON error body. *)
Definition world_http_500 : World :=
  constant_world
    (Responded (response_500 (JObj [("errorMessage", JStr "Internal Server Error")]))).

(** The same, with a product in the body of the 500 answer. *)
Definition world_http_500_docs : World :=
  constant_world (Responded (response_500 (one_doc [("productId", JStr "P1")]))).

(** Text "hello" is retrieved; a [runtime] directory exists beside [build],
    and creating a directory in it is refused. *)
Definition world_mkdir_refused : World :=
  scripted_world
    (chain_answers "ELECTRONIC_TEXT"
     ++ [json_response 200 (one_doc [("textData", JStr "hello")])])%list
    ["srv"; "app"; "build"; "tools"] [["srv"; "app"; "runtime"]]
    (Some (JsErr "EACCES: permission denied, mkdir")) None.

(** The same retrieval, with no [runtime] directory anywhere above the module. *)
Definition world_no_anchor : World :=
  plain_world (chain_answers "ELECTRONIC_TEXT"
               ++ [json_response 200 (one_doc [("textData", JStr "hello")])])%list.

(** What steps 1 and 2 resolve on [chain_answers ty]. *)
Definition resolved_D1 (ty : string) : getContentCommon.Resolved :=
  {| getContentCommon.contentRecord :=
       JObj [("contentId", JStr "C1"); ("dataResourceId", JStr "D1");
             ("mimeTypeId", JStr "text/csv")];
     getContentCommon.dataResourceId := JStr "D1";
     getContentCommon.dr :=
       JObj [("dataResourceId", JStr "D1"); ("dataResourceTypeId", JStr ty);
             ("objectInfo", JStr "/data/files/C1.csv")];
     getContentCommon.dataResourceTypeId := JStr ty |}.

(** An OK answer with a JSON body. *)
Definition answer_200 (data : JsVal) : Response :=
  {| status := 200; statusText := ""; body_text := inr ""; body_json := inr data |}.

(** ** Vocabulary of the further properties *)
(** ** Vocabulary of the further properties *)

(** The endpoints of the backend the handlers talk to: the generic find, the
    upload service, and the two raw downloads. *)
Definition known_endpoint {builtins : JsBuiltins} (cfg : ServerConfig) (rq : Request)
    : Prop :=
  (method rq = "POST" /\ url rq = performFind_url cfg /\ exists b, body rq = JsonBody b)
  \/ (method rq = "POST" /\ url rq = uploadFileToConfig.upload_url cfg
      /\ exists f, body rq = FormBody f)
  \/ (method rq = "GET" /\ body rq = NoBody
      /\ ((exists id, url rq = getContent.remote_url cfg id)
          \/ (exists cid, url rq = getContent_part_002.download_url cfg cid))).

(** What every outbound request has in common. *)
Definition backend_request {builtins : JsBuiltins} (cfg : ServerConfig) (rq : Request)
    : Prop :=
  known_endpoint cfg rq
  /\ starts_with (BACKEND_API_BASE cfg) (url rq) = true
  /\ rejectUnauthorized rq = false
  /\ header_values "User-Agent" (headers rq) = [or_empty (BACKEND_USER_AGENT cfg)].

(** [m] sends at most [n] requests. *)
Definition at_most {A} (n : nat) (m : M A) : Prop :=
  forall w s,
    (List.length (requests (snd (m w s))) <= List.length (requests s) + n)%nat.

(** The most requests one invocation of a tool can send; the linked
    findOrderTasks sends one per link and has no fixed bound. *)
Definition max_requests (call : ToolCall) : option nat :=
  match call with
  | call_findOrderTasks_linked _ => None
  | call_findProductById _ | call_getImportSapiOrderConfig _ => Some 2%nat
  | call_getContent _ | call_getContent_part_002 _ | call_getContent_part_003 _ =>
      Some 4%nat
  | _ => Some 1%nat
  end.

(** An answer to a raw download that leaves [textData] as it was: the call
    rejects, the status is not OK, or the body cannot be read. *)
Definition download_fails (o : FetchOutcome) : bool :=
  match o with
  | Rejected _ => true
  | Responded r =>
      if ok r then match body_text r with inl _ => true | inr _ => false end
      else true
  end.


(** A Content row without a dataResourceId. *)
Definition world_no_link : World :=
  plain_world [json_response 200 (one_doc [("contentId", JStr "C1")])].


(** The ElectronicText query is answered 503; the download answers "a,b". *)
Definition world_text_query_refused : World :=
  plain_world (chain_answers "SHORT_TEXT"
               ++ [json_response 503 (JObj []); text_response 200 "a,b"])%list.



(** The invocation leaves the file system alone: it creates no directory
    and writes no file. *)
Definition keeps_files {A} (m : M A) : Prop :=
  forall w s, made_dirs (snd (m w s)) = made_dirs s /\ written (snd (m w s)) = written s.

(** The calls that ask for the retrieved content to be saved:
    [if (args.configId)] in [unnamed/part_003]. *)
Definition saves (call : ToolCall) : bool :=
  match call with
  | call_getContent_part_003 a => present (getContent_part_002.configId a)
  | _ => false
  end.


(** Text "hello" is retrieved; a [runtime] directory exists beside [build]
    and the file system accepts everything. *)
Definition world_saves : World :=
  scripted_world
    (chain_answers "ELECTRONIC_TEXT"
     ++ [json_response 200 (one_doc [("textData", JStr "hello")])])%list
    ["srv"; "app"; "build"; "tools"] [["srv"; "app"; "runtime"]] None None.

Section FirstRequest.
Context {builtins : JsBuiltins}.

(** The request each handler builds first. *)
Definition first_request (cfg : ServerConfig) (call : ToolCall) (request : RequestContext)
    : Request :=
  match call with
  | call_getLogById a => getLogById.requestOptions cfg a request
  | call_getLogConfig a => getLogConfig.requestOptions cfg a request
  | call_listRecentErrors a => listRecentErrors.requestOptions cfg a request
  | call_findPickProfileGroups a => findPickProfileGroups.requestOptions cfg a request
  | call_retryFailedRecord a => retryFailedRecord.requestOptions cfg a request
  | call_findDataManagerLogs a => findDataManagerLogs.requestOptions cfg a request
  | call_uploadFileToConfig a => uploadFileToConfig.upload_request cfg a request
  | call_findOrderItems a => findOrderItems.requestOptions cfg a request
  | call_findOrderHeader a => findOrderHeader.requestOptions cfg a request
  | call_findOrderTasks a => findOrderTasks.requestOptions cfg a request
  | call_findOrderTasks_linked a => findOrderTasks_linked.linkRequestOptions cfg a request
  | call_findProductById a => findProductById.by_productId cfg a request
  | call_getImportSapiOrderConfig a =>
      getRequestOptions cfg request "DataManagerConfig"
        (JObj [("dataManagerConfigId",
                JStr (getImportSapiOrderConfig.effective_configId a))])
  | call_getContent a =>
      getContentCommon.content_request cfg request (getContent.contentId a)
  | call_getContent_part_002 a | call_getContent_part_003 a =>
      getContentCommon.content_request cfg request (getContent_part_002.contentId a)
  end.

End FirstRequest.

(** [m] sends [rq] before any other request. *)
Definition starts_by {A} (rq : Request) (m : M A) : Prop :=
  forall w s, exists more, requests (snd (m w s)) = (requests s ++ rq :: more)%list.

(** A backend that refuses every connection. *)
Definition world_unreachable : World :=
  constant_world (Rejected (JsErr "connect ECONNREFUSED 10.0.0.7:443")).

Section Answers.
Context {builtins : JsBuiltins}.

(** The tools that look one record up, with the message each reports when
    the backend has no such record. *)
Definition not_found_text (call : ToolCall) : option string :=
  match call with
  | call_getLogById a => Some ("No DataManagerLog found with ID: " ++ getLogById.logId a)
  | call_getLogConfig a => Some ("Config " ++ getLogConfig.configId a ++ " not found.")
  | call_retryFailedRecord a => Some ("Log " ++ retryFailedRecord.logId a ++ " not found.")
  | call_findOrderHeader _ => Some "Order not found."
  | call_getImportSapiOrderConfig a =>
      Some ("Config not found: " ++ getImportSapiOrderConfig.effective_configId a)
  | _ => None
  end.

(** The tools that return a list, with the key of structuredContent under
    which they return it. *)
Definition list_key (call : ToolCall) : option string :=
  match call with
  | call_listRecentErrors _ | call_findDataManagerLogs _ => Some "logs"
  | call_findPickProfileGroups _ => Some "pickProfileGroups"
  | call_findOrderItems _ => Some "items"
  | call_findOrderTasks _ | call_findOrderTasks_linked _ => Some "tasks"
  | _ => None
  end.

(** The list tools that return one entry per backend row, with the fields
    they copy from a row. *)
Definition row_fields (call : ToolCall) : option (list Proj) :=
  match call with
  | call_findDataManagerLogs _ => Some findDataManagerLogs.output_fields
  | call_findOrderItems _ => Some findOrderItems.output_fields
  | call_findOrderTasks _ => Some findOrderTasks.output_fields
  | _ => None
  end.

(** [row => ({ ...fields })] *)
Definition entry_of (fields : list Proj) (row : JsVal) : Exn + JsVal :=
  match project row fields with
  | inl e => inl e
  | inr l => inr (JObj l)
  end.

End Answers.

Definition is_object (v : JsVal) : bool :=
  match v with JObj _ => true | _ => false end.


(** Two rows of an order; the second has no description. *)
Definition two_items : list JsVal :=
  [JObj [("orderId", JStr "1001"); ("orderItemSeqId", JStr "00001");
         ("productId", JStr "P1"); ("itemDescription", JStr "Widget");
         ("quantity", JNum 2); ("unitPrice", JNum 10); ("statusId", JStr "ITEM_APPROVED")];
   JObj [("orderId", JStr "1001"); ("orderItemSeqId", JStr "00002");
         ("productId", JStr "P2"); ("quantity", JNum 1); ("unitPrice", JNum 5);
         ("statusId", JStr "ITEM_APPROVED")]].

(** The rows listRecentErrors is to keep, worded on the two fields of a row
    (to be compared with [listRecentErrors.is_failed], the filter callback of
    the source): the status is one of the three failure statuses, or the row
    carries an error record that is neither empty nor blank. *)
Definition reports_failure {builtins : JsBuiltins} (row : JsVal) : bool :=
  match row with
  | JObj props =>
      let field k := match assoc k props with Some x => x | None => JUndef end in
      js_strict_eq (field "statusId") (JStr "SERVICE_FAILED")
      || js_strict_eq (field "statusId") (JStr "SERVICE_CRASHED")
      || js_strict_eq (field "statusId") (JStr "DM_LOG_ERROR")
      || match field "errorRecordContentId" with
         | JStr s => negb (String.eqb s "") && negb (String.eqb (String_trim s) "")
         | _ => false
         end
  | _ => false
  end.

(** A log row on which the filter callback cannot throw: an object whose
    errorRecordContentId is absent, a string, or falsy (a truthy value of
    another type has no [trim]). *)
Definition plain_log_row (row : JsVal) : bool :=
  match row with
  | JObj props =>
      match assoc "errorRecordContentId" props with
      | None | Some (JStr _) => true
      | Some v => negb (truthy v)
      end
  | _ => false
  end.

(** Five log rows: one finished, one failed, one finished with an error
    record, one finished with a blank error record, one crashed. *)
Definition sample_logs : list JsVal :=
  [JObj [("logId", JStr "L1"); ("statusId", JStr "SERVICE_FINISHED")];
   JObj [("logId", JStr "L2"); ("statusId", JStr "SERVICE_FAILED")];
   JObj [("logId", JStr "L3"); ("statusId", JStr "SERVICE_FINISHED");
         ("errorRecordContentId", JStr "E3")];
   JObj [("logId", JStr "L4"); ("statusId", JStr "SERVICE_FINISHED");
         ("errorRecordContentId", JStr "   ")];
   JObj [("logId", JStr "L5"); ("statusId", JStr "SERVICE_CRASHED");
         ("errorRecordContentId", JNull)]].




Section Records.
Context {builtins : JsBuiltins}.

(** The single-record tools that copy fields of the row found, with the
    fields they copy. *)
Definition record_fields (call : ToolCall) : option (list Proj) :=
  match call with
  | call_getLogById _ => Some getLogById.output_fields
  | call_getLogConfig _ => Some getLogConfig.output_fields
  | call_findOrderHeader _ => Some findOrderHeader.output_fields
  | _ => None
  end.

End Records.

(** The key under which a projected field is returned. *)
Definition proj_key (p : Proj) : string :=
  match p with Plain k _ | OrUndef k _ => k end.

(** A failed log 40160 is found. *)
Definition world_log_found : World :=
  constant_world
    (json_response 200 (one_doc [("logId", JStr "40160"); ("configId", JStr "IMP_SAPI_ORDER");
                                 ("statusId", JStr "SERVICE_FAILED");
                                 ("internalNote", JStr "not for clients")])).

(** The configuration row names a RuntimeData record; the RuntimeData lookup
    answers with the given outcome. *)
Definition world_config (runtime_answer : FetchOutcome) : World :=
  plain_world
    [json_response 200 (one_doc [("dataManagerConfigId", JStr "IMP_SAPI_ORDER");
                                 ("runtimeDataId", JStr "R1");
                                 ("runtimeInfo", JStr "from the config row")]);
     runtime_answer].

(** * Properties *)

(** ** Rules for reasoning about handler programs *)

Section Rules.

Lemma returns_ret {A} (Q : A -> Prop) (a : A) : Q a -> returns Q (ret a).
Proof. intros H w s. exact H. Qed.

Lemma returns_throw {A} (Q : A -> Prop) (e : Exn) : returns Q (throw e).
Proof. intros w s. exact I. Qed.

Lemma returns_bind {A B} (Q : B -> Prop) (m : M A) (f : A -> M B) :
  (forall a, returns Q (f a)) -> returns Q (bind m f).
Proof.
  intros H w s. unfold bind. destruct (m w s) as [[e | a] s']; simpl.
  - exact I.
  - apply H.
Qed.

Lemma returns_bind_post {A B} (Q' : A -> Prop) (Q : B -> Prop) (m : M A) (f : A -> M B) :
  returns Q' m -> (forall a, Q' a -> returns Q (f a)) -> returns Q (bind m f).
Proof.
  intros Hm H w s. unfold bind. specialize (Hm w s).
  destruct (m w s) as [[e | a] s']; simpl in *.
  - exact I.
  - apply H. exact Hm.
Qed.

Lemma returns_try_catch {A} (Q : A -> Prop) (m : M A) (h : Exn -> M A) :
  returns Q m -> (forall e, returns Q (h e)) -> returns Q (try_catch m h).
Proof.
  intros Hm Hh w s. unfold try_catch. specialize (Hm w s).
  destruct (m w s) as [[e | a] s']; simpl in *.
  - apply Hh.
  - exact Hm.
Qed.

Lemma always_ret {A} (Q : A -> Prop) (a : A) : Q a -> always Q (ret a).
Proof. intros H w s. exists a, s. split; [reflexivity | exact H]. Qed.

Lemma always_bind {A B} (Q : B -> Prop) (m : M A) (f : A -> M B) :
  always (fun _ => True) m -> (forall a, always Q (f a)) -> always Q (bind m f).
Proof.
  intros Hm Hf w s. destruct (Hm w s) as (a & s' & E & _).
  destruct (Hf a w s') as (b & s'' & E' & Hb).
  exists b, s''. unfold bind. rewrite E. split; assumption.
Qed.

Lemma always_console_line (line : string) : always (fun _ => True) (console_line line).
Proof. intros w s. eexists _, _. split; [reflexivity | exact I]. Qed.

Lemma always_try_catch {A} (Q : A -> Prop) (m : M A) (h : Exn -> M A) :
  returns Q m -> (forall e, always Q (h e)) -> always Q (try_catch m h).
Proof.
  intros Hm Hh w s. unfold try_catch. specialize (Hm w s).
  destruct (m w s) as [[e | a] s']; simpl in *.
  - apply Hh.
  - exists a, s'. split; [reflexivity | exact Hm].
Qed.

Variable P : Request -> Prop.

Lemma trace_pure {A} (m : M A) :
  (forall w s, requests (snd (m w s)) = requests s) -> trace P m.
Proof.
  intros H w s. exists []. rewrite H, app_nil_r. split; [reflexivity | constructor].
Qed.

Lemma trace_ret {A} (a : A) : trace P (ret a).
Proof. apply trace_pure. reflexivity. Qed.

Lemma trace_throw {A} (e : Exn) : trace P (@throw A e).
Proof. apply trace_pure. reflexivity. Qed.

Lemma trace_lift {A} (r : Exn + A) : trace P (lift r).
Proof. destruct r; [apply trace_throw | apply trace_ret]. Qed.

Lemma trace_console_line (line : string) : trace P (console_line line).
Proof. apply trace_pure. reflexivity. Qed.

Lemma trace_ask {A} (f : World -> A) : trace P (ask f).
Proof. apply trace_pure. reflexivity. Qed.

Lemma trace_mkdir (p : Path) : trace P (mkdir p).
Proof.
  apply trace_pure. intros w s. unfold mkdir. destruct (fs_mkdir w p); reflexivity.
Qed.

Lemma trace_writeFile (p : Path) (d : JsVal) : trace P (writeFile p d).
Proof.
  apply trace_pure. intros w s. unfold writeFile.
  destruct (fs_writeFile w p d); reflexivity.
Qed.

Lemma trace_fetch (rq : Request) : P rq -> trace P (fetch rq).
Proof.
  intros H w s. exists [rq]. unfold fetch. split; [| repeat constructor; exact H].
  destruct (backend w (requests s) rq); reflexivity.
Qed.

Lemma trace_bind {A B} (m : M A) (f : A -> M B) :
  trace P m -> (forall a, trace P (f a)) -> trace P (bind m f).
Proof.
  intros Hm Hf w s. unfold bind. destruct (Hm w s) as (l1 & E1 & F1).
  destruct (m w s) as [[e | a] s']; simpl in *.
  - exists l1. split; assumption.
  - destruct (Hf a w s') as (l2 & E2 & F2). exists (l1 ++ l2)%list.
    rewrite E2, E1, app_assoc. split; [reflexivity | apply Forall_app; split; assumption].
Qed.

Lemma trace_try_catch {A} (m : M A) (h : Exn -> M A) :
  trace P m -> (forall e, trace P (h e)) -> trace P (try_catch m h).
Proof.
  intros Hm Hf w s. unfold try_catch. destruct (Hm w s) as (l1 & E1 & F1).
  destruct (m w s) as [[e | a] s']; simpl in *.
  - destruct (Hf e w s') as (l2 & E2 & F2). exists (l1 ++ l2)%list.
    rewrite E2, E1, app_assoc. split; [reflexivity | apply Forall_app; split; assumption].
  - exists l1. split; assumption.
Qed.

Lemma trace_run {A} (m : M A) (w : World) :
  trace P m -> Forall P (requests (snd (run m w))).
Proof.
  intros H. destruct (H w init) as (more & E & F). unfold run. rewrite E. exact F.
Qed.






End Rules.

Ltac returns_step :=
  lazymatch goal with
  | |- returns _ (bind _ _) => apply returns_bind; intros
  | |- returns _ (ret _) => apply returns_ret
  | |- returns _ (throw _) => apply returns_throw
  | |- returns _ (try_catch _ _) => apply returns_try_catch; intros
  | |- returns _ (if ?b then _ else _) => destruct b
  | |- returns _ (match ?x with _ => _ end) => destruct x
  | |- returns _ (let _ := _ in _) => cbv zeta
  end.

Ltac trace_step side :=
  lazymatch goal with
  | |- trace _ (bind _ _) => apply trace_bind; intros
  | |- trace _ (ret _) => apply trace_ret
  | |- trace _ (throw _) => apply trace_throw
  | |- trace _ (lift _) => apply trace_lift
  | |- trace _ (console_line _) => apply trace_console_line
  | |- trace _ (ask _) => apply trace_ask
  | |- trace _ (mkdir _) => apply trace_mkdir
  | |- trace _ (writeFile _ _) => apply trace_writeFile
  | |- trace _ (fetch _) => apply trace_fetch; side
  | |- trace _ (try_catch _ _) => apply trace_try_catch; intros
  | |- trace _ (if ?b then _ else _) => destruct b
  | |- trace _ (match ?x with _ => _ end) => destruct x
  | |- trace _ (let _ := _ in _) => cbv zeta
  end.

(** ** The two-variant result envelope *)

Section ResultShape.
Context {builtins : JsBuiltins}.

Lemma error_result_one_variant (items : list ContentItem) :
  items <> [] -> one_variant (error_result items).
Proof.
  intros H. split.
  - right. repeat split; assumption || reflexivity.
  - intros [(_ & _ & H1) (_ & _ & H2)]. simpl in *. congruence.
Qed.

Lemma success_result_one_variant (items : list ContentItem) (sc : JsVal) :
  items <> [] -> one_variant (success_result items sc).
Proof.
  intros H. split.
  - left. repeat split; try assumption; try reflexivity. exists sc. reflexivity.
  - intros [(_ & _ & H1) (_ & _ & H2)]. simpl in *. congruence.
Qed.

Lemma always_catch_plain (label : string) (e : Exn) :
  always one_variant (catch_plain label e).
Proof.
  unfold catch_plain. apply always_bind; [apply always_console_line | intros _].
  apply always_ret, error_result_one_variant. discriminate.
Qed.

Lemma always_catch_debug rq bodyv label prefix fallback (e : Exn) :
  always one_variant (catch_debug rq bodyv label prefix fallback e).
Proof.
  unfold catch_debug. apply always_bind; [apply always_console_line | intros _].
  apply always_ret, error_result_one_variant. discriminate.
Qed.

Ltac shape_done :=
  (apply error_result_one_variant || apply success_result_one_variant); discriminate.

Ltac shape_debug :=
  cbv zeta; apply always_try_catch; [| intros; apply always_catch_debug];
  repeat returns_step; shape_done.

Ltac shape_plain :=
  cbv zeta; apply always_try_catch; [| intros; apply always_catch_plain];
  repeat returns_step; shape_done.

Lemma getLogById_shape cfg args request :
  always one_variant (getLogById.handler cfg args request).
Proof. unfold getLogById.handler. shape_debug. Qed.

Lemma getLogConfig_shape cfg args request :
  always one_variant (getLogConfig.handler cfg args request).
Proof. unfold getLogConfig.handler. shape_debug. Qed.

Lemma listRecentErrors_shape cfg args request :
  always one_variant (listRecentErrors.handler cfg args request).
Proof. unfold listRecentErrors.handler. shape_debug. Qed.

Lemma findPickProfileGroups_shape cfg args request :
  always one_variant (findPickProfileGroups.handler cfg args request).
Proof. unfold findPickProfileGroups.handler. shape_debug. Qed.

Lemma retryFailedRecord_shape cfg args request :
  always one_variant (retryFailedRecord.handler cfg args request).
Proof. unfold retryFailedRecord.handler. shape_debug. Qed.

Lemma findDataManagerLogs_shape cfg args request :
  always one_variant (findDataManagerLogs.handler cfg args request).
Proof. unfold findDataManagerLogs.handler. shape_debug. Qed.

Lemma uploadFileToConfig_shape cfg args request :
  always one_variant (uploadFileToConfig.handler cfg args request).
Proof. unfold uploadFileToConfig.handler. shape_plain. Qed.

Lemma findOrderItems_shape cfg args request :
  always one_variant (findOrderItems.handler cfg args request).
Proof.
  unfold findOrderItems.handler. destruct (String.eqb _ _).
  - apply always_ret. shape_done.
  - shape_plain.
Qed.

Lemma findOrderHeader_shape cfg args request :
  always one_variant (findOrderHeader.handler cfg args request).
Proof.
  unfold findOrderHeader.handler. destruct (findOrderHeader.inputFields args).
  - apply always_ret. shape_done.
  - shape_plain.
Qed.

Lemma findOrderTasks_shape cfg args request :
  always one_variant (findOrderTasks.handler cfg args request).
Proof. unfold findOrderTasks.handler. shape_plain. Qed.

Lemma findOrderTasks_linked_shape cfg args request :
  always one_variant (findOrderTasks_linked.handler cfg args request).
Proof. unfold findOrderTasks_linked.handler. shape_plain. Qed.

Lemma findProductById_shape cfg args request :
  always one_variant (findProductById.handler cfg args request).
Proof.
  unfold findProductById.handler, findProductById.not_found. shape_plain.
Qed.

Lemma getImportSapiOrderConfig_shape cfg args request :
  always one_variant (getImportSapiOrderConfig.handler cfg args request).
Proof. unfold getImportSapiOrderConfig.handler. shape_plain. Qed.

(** An early [return] of steps 1 and 2 is one of the two variants. *)
Lemma resolve_shape cfg request cid :
  returns (fun x => match x with inl r => one_variant r | inr _ => True end)
    (getContentCommon.resolve cfg request cid).
Proof.
  unfold getContentCommon.resolve, getContentCommon.content_not_found.
  repeat returns_step; try exact I; shape_done.
Qed.

Lemma retrieve_text_shape cfg request cid r :
  returns (fun x => match x with inl r => one_variant r | inr _ => True end)
    (getContent_part_002.retrieve_text cfg request cid r).
Proof.
  unfold getContent_part_002.retrieve_text, getContent_part_002.no_text_content.
  repeat returns_step; try exact I; shape_done.
Qed.

Lemma getContent_shape cfg args request :
  always one_variant (getContent.handler cfg args request).
Proof.
  unfold getContent.handler.
  apply always_try_catch; [| intros; apply always_catch_plain].
  eapply returns_bind_post; [apply resolve_shape |]. intros [early | r] H.
  - apply returns_ret, H.
  - cbv zeta. unfold getContent.remote_file_result, getContent.no_text_found.
    repeat returns_step; shape_done.
Qed.

Lemma getContent_part_002_shape cfg args request :
  always one_variant (getContent_part_002.handler cfg args request).
Proof.
  unfold getContent_part_002.handler.
  apply always_try_catch; [| intros; apply always_catch_plain].
  eapply returns_bind_post; [apply resolve_shape |]. intros [early | r] H.
  - apply returns_ret, H.
  - eapply returns_bind_post; [apply retrieve_text_shape |]. intros [early | t] H'.
    + apply returns_ret, H'.
    + repeat returns_step; shape_done.
Qed.

Lemma getContent_part_003_shape cfg args request :
  always one_variant (getContent_part_003.handler cfg args request).
Proof.
  unfold getContent_part_003.handler.
  apply always_try_catch; [| intros; apply always_catch_plain].
  eapply returns_bind_post; [apply resolve_shape |]. intros [early | r] H.
  - apply returns_ret, H.
  - eapply returns_bind_post; [apply retrieve_text_shape |]. intros [early | t] H'.
    + apply returns_ret, H'.
    + repeat returns_step; shape_done.
Qed.

(** C7. Every tool handler, on every input, request context, backend and
    file system, returns (it never throws), and what it returns is exactly
    one of the two variants: Success, with content and structuredContent and
    no isError key, or Error, with content and isError: true and no
    structuredContent key; never both, never neither. *)
Theorem every_handler_returns_exactly_one_variant
    (cfg : ServerConfig) (call : ToolCall) (request : RequestContext)
    (w : World) (s : State) :
  exists r s', invoke cfg call request w s = (inr r, s') /\ one_variant r.
Proof.
  destruct call; simpl.
  - apply getLogById_shape.
  - apply getLogConfig_shape.
  - apply listRecentErrors_shape.
  - apply findPickProfileGroups_shape.
  - apply retryFailedRecord_shape.
  - apply findDataManagerLogs_shape.
  - apply uploadFileToConfig_shape.
  - apply findOrderItems_shape.
  - apply findOrderHeader_shape.
  - apply findOrderTasks_shape.
  - apply findOrderTasks_linked_shape.
  - apply findProductById_shape.
  - apply getImportSapiOrderConfig_shape.
  - apply getContent_shape.
  - apply getContent_part_002_shape.
  - apply getContent_part_003_shape.
Qed.

End ResultShape.

(** ** Requests sent by the handlers *)

Create HintDb handlers.
#[export] Hint Unfold response_json response_text docs_or_empty catch_plain catch_debug
  getLogById.handler getLogConfig.handler listRecentErrors.handler
  findPickProfileGroups.handler retryFailedRecord.handler findDataManagerLogs.handler
  uploadFileToConfig.handler findOrderItems.handler findOrderHeader.handler
  findOrderTasks.handler findOrderTasks_linked.handler findOrderTasks_linked.visit_link
  findProductById.handler getImportSapiOrderConfig.handler
  getImportSapiOrderConfig.fetch_runtime
  getContentCommon.resolve getContentCommon.fetch_electronic_text
  getContent.handler getContent.remote_file_result getContent.remote_fetch
  getContent_part_002.handler getContent_part_002.retrieve_text
  getContent_part_002.download_fallback
  getContent_part_003.handler getContent_part_003.retrieve_text
  getContent_part_003.persist : handlers.

Ltac trace_auto links side :=
  repeat first [ links | progress autounfold with handlers | trace_step side ].

Section LinkLoop.
Context {builtins : JsBuiltins}.
Variable P : Request -> Prop.
Variables (cfg : ServerConfig) (request : RequestContext).
Hypothesis task_ok : forall id, P (findOrderTasks_linked.taskRequestOptions cfg request id).

(** The per-link loop of findOrderTasks sends task requests only. *)
Lemma trace_visit_links args links : forall tasks,
  trace P (findOrderTasks_linked.visit_links cfg args request tasks links).
Proof.
  induction links as [| link rest IH]; intros tasks; simpl.
  - apply trace_ret.
  - apply trace_bind; [| intros; apply IH].
    trace_auto fail ltac:(apply task_ok).
Qed.

End LinkLoop.

(** ** Authorization precedence *)

Section DelegatedToken.
Context {builtins : JsBuiltins}.
Variables (cfg : ServerConfig) (request : RequestContext) (T1 : string).
Hypothesis delegated : request_token request = Some T1.
Hypothesis not_empty : T1 <> "".

Lemma present_delegated : present (request_token request) = true.
Proof.
  rewrite delegated. simpl. destruct (String.eqb_spec T1 ""); [contradiction | reflexivity].
Qed.

Lemma bearer_attach :
  header_values "Authorization" (attach_authorization cfg request (json_headers cfg))
  = ["Bearer " ++ T1].
Proof. unfold attach_authorization. rewrite present_delegated, delegated. reflexivity. Qed.

Lemma bearer_ternary :
  header_values "Authorization" (json_headers_auth cfg request) = ["Bearer " ++ T1].
Proof.
  unfold json_headers_auth, authorization_value.
  rewrite present_delegated, delegated. reflexivity.
Qed.

Lemma bearer_upload :
  header_values "Authorization" (uploadFileToConfig.upload_headers cfg request)
  = ["Bearer " ++ T1].
Proof.
  unfold uploadFileToConfig.upload_headers, uploadFileToConfig.authToken, opt_or.
  rewrite present_delegated. rewrite present_delegated, delegated. reflexivity.
Qed.

Lemma bearer_remote id : carries_bearer T1 (getContent.remote_request cfg request id).
Proof.
  unfold carries_bearer, getContent.remote_request, authorization_value. simpl.
  rewrite present_delegated, delegated. reflexivity.
Qed.

Lemma bearer_download id :
  carries_bearer T1 (getContent_part_002.download_request cfg request id).
Proof.
  unfold carries_bearer, getContent_part_002.download_request,
    getContent_part_002.token, opt_or. simpl.
  rewrite present_delegated, delegated. reflexivity.
Qed.

Ltac bearer_side :=
  first [ exact bearer_attach | exact bearer_ternary | exact bearer_upload
        | apply bearer_remote | apply bearer_download ].

Lemma trace_bearer call : trace (carries_bearer T1) (invoke cfg call request).
Proof.
  destruct call; simpl;
    trace_auto ltac:(apply trace_visit_links; intros; bearer_side) bearer_side.
Qed.

End DelegatedToken.

Lemma bearer_injective (t1 t2 : string) (rq : Request) :
  carries_bearer t1 rq -> carries_bearer t2 rq -> t1 = t2.
Proof.
  unfold carries_bearer. intros H1 H2. rewrite H1 in H2.
  simpl in H2. congruence.
Qed.

(** C4. When the request context carries a delegated token T1 (a non-empty
    string) and the server configuration a static token T2, every request
    that any tool handler sends to the backend carries exactly one
    Authorization header, whose value is Bearer T1; it is Bearer T2 only if
    the two tokens are the same string. *)
Theorem delegated_token_takes_precedence {builtins : JsBuiltins}
    (cfg : ServerConfig) (call : ToolCall) (request : RequestContext) (w : World)
    (T1 T2 : string) :
  request_token request = Some T1 ->
  T1 <> "" ->
  BACKEND_ACCESS_TOKEN cfg = Some T2 ->
  Forall (fun rq => carries_bearer T1 rq /\ (T1 <> T2 -> ~ carries_bearer T2 rq))
    (requests (snd (run (invoke cfg call request) w))).
Proof.
  intros HT HN _.
  eapply Forall_impl; [| apply trace_run, (trace_bearer cfg request HT HN call)].
  intros rq H. split; [exact H |].
  intros Hneq H2. apply Hneq. exact (bearer_injective H H2).
Qed.

(** C4, on the chain Content -> DataResource -> ElectronicText -> download
    of [unnamed/part_002]: all four requests carry Bearer DELEGATED. *)
Lemma delegated_token_takes_precedence_witness :
  Forall (fun rq => carries_bearer "DELEGATED" rq
                    /\ ("DELEGATED" <> "STATIC" -> ~ carries_bearer "STATIC" rq))
    (requests (snd (run (@invoke plain_builtins cfg_static
                           (call_getContent_part_002 args_C1) request_delegated)
                      world_text_fallback))).
Proof.
  apply (@delegated_token_takes_precedence plain_builtins cfg_static
           (call_getContent_part_002 args_C1) request_delegated world_text_fallback
           "DELEGATED" "STATIC").
  - reflexivity.
  - discriminate.
  - reflexivity.
Defined.

(** ** No token at all *)

Section NoToken.
Context {builtins : JsBuiltins}.
Variables (cfg : ServerConfig) (request : RequestContext).
Hypothesis no_delegated : present (request_token request) = false.
Hypothesis no_static : present (BACKEND_ACCESS_TOKEN cfg) = false.








End NoToken.

Section Attempted.
Context {builtins : JsBuiltins}.




End Attempted.




(** ** Running a handler step by step *)

Section RunRules.

Lemma bind_run_inr {A B} (m : M A) (f : A -> M B) w s a s' :
  m w s = (inr a, s') -> bind m f w s = f a w s'.
Proof. intros H. unfold bind. rewrite H. reflexivity. Qed.

Lemma bind_run_inl {A B} (m : M A) (f : A -> M B) w s e s' :
  m w s = (inl e, s') -> bind m f w s = (inl e, s').
Proof. intros H. unfold bind. rewrite H. reflexivity. Qed.

Lemma try_catch_run_inr {A} (m : M A) h w s a s' :
  m w s = (inr a, s') -> try_catch m h w s = (inr a, s').
Proof. intros H. unfold try_catch. rewrite H. reflexivity. Qed.

Lemma try_catch_run_inl {A} (m : M A) h w s e s' :
  m w s = (inl e, s') -> try_catch m h w s = h e w s'.
Proof. intros H. unfold try_catch. rewrite H. reflexivity. Qed.

Lemma bind_inv {A B} (m : M A) (f : A -> M B) w s b s2 :
  bind m f w s = (inr b, s2) ->
  exists a s1, m w s = (inr a, s1) /\ f a w s1 = (inr b, s2).
Proof.
  unfold bind. destruct (m w s) as [[e | a] s1]; intros H; [discriminate |].
  exists a, s1. split; [reflexivity | exact H].
Qed.

Lemma bind_fetch_run {B} rq (f : Response -> M B) w s r :
  backend w (requests s) rq = Responded r -> bind (fetch rq) f w s = f r w (sent s rq).
Proof. intros H. unfold bind, fetch. rewrite H. reflexivity. Qed.

Lemma fetch_inv rq w s r s' :
  fetch rq w s = (inr r, s') ->
  backend w (requests s) rq = Responded r /\ s' = sent s rq.
Proof.
  unfold fetch. destruct (backend w (requests s) rq); intros H; inversion H; subst.
  split; reflexivity.
Qed.

Lemma bind_lift_run {A B} (x : Exn + A) (f : A -> M B) w s a :
  x = inr a -> bind (lift x) f w s = f a w s.
Proof. intros ->. reflexivity. Qed.

Lemma lift_inv {A} (x : Exn + A) w s a s' :
  lift x w s = (inr a, s') -> x = inr a /\ s' = s.
Proof. destruct x; intros H; inversion H; subst. split; reflexivity. Qed.

Lemma bind_console_run {B} l (f : unit -> M B) w s :
  bind (console_line l) f w s = f tt w (logged s l).
Proof. reflexivity. Qed.

Lemma bind_ret_run {A B} (a : A) (f : A -> M B) w s : bind (ret a) f w s = f a w s.
Proof. reflexivity. Qed.

End RunRules.

Ltac inv_run :=
  repeat match goal with
  | H : bind _ _ _ _ = (inr _, _) |- _ =>
      let a := fresh "a" in let s := fresh "s" in let E := fresh "E" in
      apply bind_inv in H; destruct H as (a & s & E & H)
  | H : fetch _ _ _ = (inr _, _) |- _ => apply fetch_inv in H; destruct H as [? ?]; subst
  | H : response_json _ _ _ = (inr _, _) |- _ => unfold response_json in H
  | H : response_text _ _ _ = (inr _, _) |- _ => unfold response_text in H
  | H : lift _ _ _ = (inr _, _) |- _ => apply lift_inv in H; destruct H as [? ?]; subst
  | H : (if ?b then _ else _) _ _ = (inr _, _) |- _ => destruct b eqn:?
  | H : throw _ _ _ = (inr _, _) |- _ => discriminate H
  | H : ret _ _ _ = (inr _, _) |- _ => inversion H; subst; clear H
  end.

(** ** Strings *)

Lemma starts_with_app (s t : string) : starts_with s (s ++ t) = true.
Proof.
  induction s as [| c s IH]; simpl.
  - reflexivity.
  - rewrite Ascii.eqb_refl. exact IH.
Qed.

Lemma includes_here (sub s : string) : starts_with sub s = true -> includes sub s = true.
Proof. intros H. destruct s; simpl; rewrite H; reflexivity. Qed.

Lemma includes_app (sub pre post : string) : includes sub (pre ++ sub ++ post) = true.
Proof.
  induction pre as [| c pre IH].
  - change (includes sub (sub ++ post) = true). apply includes_here, starts_with_app.
  - simpl. rewrite IH. apply orb_true_r.
Qed.

Lemma append_empty (s : string) : s ++ "" = s.
Proof. induction s; simpl; congruence. Qed.

Lemma includes_suffix (sub pre : string) : includes sub (pre ++ sub) = true.
Proof.
  rewrite <- (append_empty sub) at 2. apply includes_app.
Qed.

(** ** JavaScript values and monad steps *)


Lemma js_get_other (v : JsVal) (k k' : string) (x : JsVal) :
  js_get v k = inr x -> exists y, js_get v k' = inr y.
Proof. destruct v; simpl; intros H; try discriminate; eauto. Qed.

Lemma js_or_truthy (v d : JsVal) : truthy v = true -> js_or v d = v.
Proof. unfold js_or. intros ->. reflexivity. Qed.


Lemma try_catch_bind_inr {A B} (m : M A) (f : A -> M B) h w s a s' :
  m w s = (inr a, s') -> try_catch (bind m f) h w s = try_catch (f a) h w s'.
Proof. intros H. unfold try_catch, bind. rewrite H. reflexivity. Qed.

Lemma silent_requests {A} (m : M A) w s :
  trace (fun _ => False) m -> requests (snd (m w s)) = requests s.
Proof.
  intros H. destruct (H w s) as (more & E & F). rewrite E.
  destruct more as [| x more]; [apply app_nil_r | inversion F; contradiction].
Qed.

Lemma bind_ask_run {A B} (g : World -> A) (f : A -> M B) w s :
  bind (ask g) f w s = f (g w) w s.
Proof. reflexivity. Qed.
Lemma success_result_is_success items sc : items <> [] -> is_success (success_result items sc).
Proof. intros H. repeat split; simpl; try assumption; try reflexivity. eexists; reflexivity. Qed.


Lemma try_catch_inv {A} (m : M A) h w s x s' :
  try_catch m h w s = (inr x, s') ->
  m w s = (inr x, s') \/ exists e s1, m w s = (inl e, s1) /\ h e w s1 = (inr x, s').
Proof.
  unfold try_catch. destruct (m w s) as [[e | a] s1]; intros H.
  - right. eauto.
  - left. exact H.
Qed.

Lemma fetch_requests rq w s : requests (snd (fetch rq w s)) = (requests s ++ [rq])%list.
Proof. unfold fetch. destruct (backend w (requests s) rq); reflexivity. Qed.

Lemma includes_skip (sub pre s : string) : includes sub s = true -> includes sub (pre ++ s) = true.
Proof.
  intros H. induction pre as [| c pre IH]; [exact H |].
  simpl. rewrite IH. apply orb_true_r.
Qed.


(** ** The content resolution chain *)

Section ResolutionChain.
Context {builtins : JsBuiltins}.
Import getContentCommon.

(** Step 1 on an empty Content result: an early return after one request. *)
Lemma resolve_not_found cfg request cid w s resp data docs :
  backend w (requests s) (content_request cfg request cid) = Responded resp ->
  ok resp = true ->
  body_json resp = inr data ->
  js_get data "docs" = inr docs ->
  no_docs docs = true ->
  resolve cfg request cid w s
  = (inr (inl (content_not_found cid)), sent s (content_request cfg request cid)).
Proof.
  intros H1 H2 H3 H4 H5. unfold resolve.
  erewrite bind_fetch_run by eassumption. rewrite H2. cbn [negb].
  unfold response_json. erewrite bind_lift_run by eassumption.
  erewrite bind_lift_run by eassumption. rewrite H5. reflexivity.
Qed.

(** What is known once steps 1 and 2 have resolved the data resource. *)
Lemma resolve_resolved cfg request cid w s r s1 :
  resolve cfg request cid w s = (inr (inr r), s1) ->
  requests s1 = (requests s ++ [content_request cfg request cid;
                                dataResource_request cfg request (dataResourceId r)])%list
  /\ console s1 = console s
  /\ made_dirs s1 = made_dirs s
  /\ written s1 = written s
  /\ truthy (dataResourceId r) = true
  /\ truthy (dr r) = true
  /\ js_get (contentRecord r) "dataResourceId" = inr (dataResourceId r)
  /\ js_get (dr r) "dataResourceTypeId" = inr (dataResourceTypeId r).
Proof.
  intros H. unfold resolve in H. inv_run. cbv zeta in *. inv_run.
  simpl. rewrite <- app_assoc. simpl.
  repeat split; try assumption; try reflexivity;
    match goal with
    | H : negb (truthy ?x) = false |- truthy ?x = true =>
        destruct (truthy x); [reflexivity | discriminate]
    end.
Qed.

(** C3. In each of the three sources of getContent, when the Content
    lookup answers OK with zero docs (no docs key, or an empty list), the
    handler returns the Error variant, whose message names the contentId, and
    the Content query is the only request sent: no DataResource query. *)
Theorem content_not_found_stops_the_chain (src : Source)
    (cfg : ServerConfig) (args : getContent_part_002.Args) (request : RequestContext)
    (w : World) (resp : Response) (data docs : JsVal) :
  let cid := getContent_part_002.contentId args in
  backend w [] (content_request cfg request cid) = Responded resp ->
  ok resp = true ->
  body_json resp = inr data ->
  js_get data "docs" = inr docs ->
  no_docs docs = true ->
  exists res s',
    run (getContent_handler src cfg args request) w = (inr res, s')
    /\ res = content_not_found cid
    /\ is_error res
    /\ mentions res cid
    /\ requests s' = [content_request cfg request cid].
Proof.
  intros cid H1 H2 H3 H4 H5.
  exists (content_not_found cid), (sent init (content_request cfg request cid)).
  split; [| split; [reflexivity | split; [| split; [| reflexivity]]]].
  - unfold run. destruct src; simpl;
      unfold getContent.handler, getContent_part_002.handler, getContent_part_003.handler;
      apply try_catch_run_inr;
      erewrite bind_run_inr by (eapply resolve_not_found; eassumption);
      reflexivity.
  - repeat split; simpl; discriminate || reflexivity.
  - eexists _, _. split; [left; reflexivity |]. split; [reflexivity |].
    apply includes_suffix.
Qed.






Lemma always_catch_plain_error label e : always is_error (catch_plain label e).
Proof.
  unfold catch_plain. apply always_bind; [apply always_console_line | intros _].
  apply always_ret. repeat split; simpl; discriminate || reflexivity.
Qed.

Lemma always_weaken {A} (Q Q' : A -> Prop) (m : M A) :
  (forall a, Q a -> Q' a) -> always Q m -> always Q' m.
Proof. intros H Hm w s. destruct (Hm w s) as (a & s' & E & Ha). eauto. Qed.

Lemma not_both res : is_success res -> is_error res -> False.
Proof. intros (_ & _ & H1) (_ & _ & H2). congruence. Qed.


Lemma bind_requests_silent_rest {A B} (m : M A) (f : A -> M B) w s :
  (forall a, trace (fun _ => False) (f a)) ->
  requests (snd (bind m f w s)) = requests (snd (m w s)).
Proof.
  intros H. unfold bind. destruct (m w s) as [[e | a] s']; [reflexivity |].
  apply silent_requests, H.
Qed.

Lemma try_catch_requests_silent_handler {A} (m : M A) h w s :
  (forall e, trace (fun _ => False) (h e)) ->
  requests (snd (try_catch m h w s)) = requests (snd (m w s)).
Proof.
  intros H. unfold try_catch. destruct (m w s) as [[e | a] s']; [| reflexivity].
  apply silent_requests, H.
Qed.




Lemma retrieve_text_truthy cfg request cid r w s td s' :
  getContent_part_002.retrieve_text cfg request cid r w s = (inr (inr td), s') ->
  truthy td = true.
Proof.
  intros H. unfold getContent_part_002.retrieve_text in H. inv_run.
  all: apply negb_false_iff; assumption.
Qed.



Section PersistCases.
Variables (args : getContent_part_002.Args) (mime td : JsVal) (w : World) (s : State) (c : string).
Hypothesis Hcfg : getContent_part_002.configId args = Some c.
Hypothesis Hc : c <> "".
Let anchor := getContent_part_003.findRuntimeDir (fs_isDirectory w) (module_dir w).
Let dirName := getContent_part_003.category_name args ++ "File_" ++ c.
Let fileName := getContent_part_002.contentId args ++ getContent_part_003.extension mime.

Lemma persist_start :
  getContent_part_003.persist args mime td w s
  = match anchor with
    | Some runtimeDir =>
        let targetDir := getContent_part_003.path_join runtimeDir dirName in
        let savedPath := getContent_part_003.path_join targetDir fileName in
        ((if negb (fs_existsSync w targetDir) then mkdir targetDir else ret tt) ;;;
         writeFile savedPath td ;;;
         console_line ("Saved content to: " ++ getContent_part_003.path_string savedPath) ;;;
         ret (Some (getContent_part_003.path_string savedPath))) w s
    | None => (inr None, logged s getContent_part_003.runtime_not_found)
    end.
Proof.
  unfold getContent_part_003.persist, getContent_part_003.configId.
  rewrite Hcfg. replace (String.eqb c "") with false by (symmetry; apply String.eqb_neq; exact Hc).
  rewrite !bind_ask_run. fold anchor. destruct anchor; [| reflexivity].
  rewrite bind_ask_run. reflexivity.
Qed.

Lemma persist_no_anchor :
  anchor = None ->
  getContent_part_003.persist args mime td w s = (inr None, logged s getContent_part_003.runtime_not_found).
Proof. intros H. rewrite persist_start, H. reflexivity. Qed.

Lemma persist_mkdir_fails runtimeDir e :
  anchor = Some runtimeDir ->
  fs_existsSync w (getContent_part_003.path_join runtimeDir dirName) = false ->
  fs_mkdir w (getContent_part_003.path_join runtimeDir dirName) = Some e ->
  getContent_part_003.persist args mime td w s = (inl e, s).
Proof.
  intros H Hex Hmk. rewrite persist_start, H. cbv zeta. rewrite Hex. cbn [negb].
  unfold bind, mkdir. rewrite Hmk. reflexivity.
Qed.

Lemma persist_write_fails runtimeDir e :
  anchor = Some runtimeDir ->
  fs_existsSync w (getContent_part_003.path_join runtimeDir dirName) = true
  \/ fs_mkdir w (getContent_part_003.path_join runtimeDir dirName) = None ->
  fs_writeFile w (getContent_part_003.path_join
                    (getContent_part_003.path_join runtimeDir dirName) fileName) td = Some e ->
  exists s', getContent_part_003.persist args mime td w s = (inl e, s')
             /\ written s' = written s /\ requests s' = requests s.
Proof.
  intros H Hdir Hwr. rewrite persist_start, H. cbv zeta.
  unfold bind, mkdir, writeFile.
  destruct (fs_existsSync w _) eqn:Hex; cbn [negb].
  - unfold ret at 1. rewrite Hwr. eexists. repeat split.
  - destruct Hdir as [Hd | Hmk]; [discriminate |]. rewrite Hmk. simpl. rewrite Hwr.
    eexists. repeat split.
Qed.
End PersistCases.

(** C6, amended. In the getContent source with persistence
    ([unnamed/part_003]), once text has been retrieved and a configId asks
    for it to be saved: when no [runtime] anchor directory is found, the step
    is skipped and logged and the handler still returns Success with the
    retrieved textData and no savedPath; when creating the target directory
    or writing the file fails, the failure reaches the handler's outer catch
    and the handler returns the Error variant carrying the failure's
    message, not Success. *)
Theorem persistence_failure_outcomes
    (cfg : ServerConfig) (args : getContent_part_002.Args) (request : RequestContext)
    (w : World) (r : Resolved) (s1 s2 : State) (t c : string) :
  let cid := getContent_part_002.contentId args in
  let outcome := run (getContent_part_003.handler cfg args request) w in
  let anchor := getContent_part_003.findRuntimeDir (fs_isDirectory w) (module_dir w) in
  resolve cfg request cid w init = (inr (inr r), s1) ->
  getContent_part_002.retrieve_text cfg request cid r w s1 = (inr (inr (JStr t)), s2) ->
  getContent_part_002.configId args = Some c ->
  c <> "" ->
  (anchor = None ->
   exists res s',
     outcome = (inr res, s')
     /\ is_success res
     /\ structured_field res "textData" = Some (JStr t)
     /\ structured_field res "savedPath" = Some JUndef
     /\ console s' = (console s2 ++ [getContent_part_003.runtime_not_found])%list
     /\ written s' = written s2)
  /\ (forall runtimeDir e,
        anchor = Some runtimeDir ->
        let targetDir :=
          getContent_part_003.path_join runtimeDir
            (getContent_part_003.category_name args ++ "File_" ++ c) in
        fs_existsSync w targetDir = false ->
        fs_mkdir w targetDir = Some e ->
        exists s',
          outcome = (inr (error_result
                            [text_item ("Error: " ++ error_message e "Unknown error")]), s')
          /\ written s' = written s2)
  /\ (forall runtimeDir e mime,
        anchor = Some runtimeDir ->
        let targetDir :=
          getContent_part_003.path_join runtimeDir
            (getContent_part_003.category_name args ++ "File_" ++ c) in
        let savedPath :=
          getContent_part_003.path_join targetDir
            (cid ++ getContent_part_003.extension mime) in
        js_get (contentRecord r) "mimeTypeId" = inr mime ->
        fs_existsSync w targetDir = true \/ fs_mkdir w targetDir = None ->
        fs_writeFile w savedPath (JStr t) = Some e ->
        exists s',
          outcome = (inr (error_result
                            [text_item ("Error: " ++ error_message e "Unknown error")]), s')
          /\ written s' = written s2).
Proof.
  intros cid outcome anchor Hres Hrt Hcfg Hc.
  pose proof Hres as Hr. apply resolve_resolved in Hr.
  destruct Hr as (_ & _ & _ & _ & _ & _ & Hcr & _).
  assert (Hm : exists y, js_get (contentRecord r) "mimeTypeId" = inr y)
    by (eapply js_get_other; exact Hcr).
  destruct Hm as (mime & Hmime).
  assert (Ht : truthy (JStr t) = true) by (eapply retrieve_text_truthy; exact Hrt).
  assert (Hce : String.eqb c "" = false) by (apply String.eqb_neq; exact Hc).
  assert (Hstart : outcome
                   = try_catch
                       (savedPath <- getContent_part_003.persist args mime (JStr t) ;;
                        pre <- lift (getContent_part_003.preview (JStr t)) ;;
                        ret (success_result
                               [text_item ("Content Retrieved." ++ nl
                                           ++ match savedPath with
                                              | Some p => "Saved to: " ++ p ++ nl
                                              | None => ""
                                              end
                                           ++ nl ++ "Preview:" ++ nl ++ pre ++ "...")]
                               (JObj [("contentId", JStr cid);
                                      ("dataResourceId", js_or (dataResourceId r) JUndef);
                                      ("textData", js_or (JStr t) JUndef);
                                      ("mimeType", js_or mime JUndef);
                                      ("savedPath", opt_js savedPath)])))
                       (catch_plain "Error in getContent:") w s2).
  { unfold outcome, run, getContent_part_003.handler.
    erewrite try_catch_bind_inr by exact Hres. cbv beta iota.
    erewrite try_catch_bind_inr by exact Hrt. cbv beta iota.
    unfold try_catch at 1.
    erewrite bind_lift_run by exact Hmime. reflexivity. }
  rewrite Hstart. clear Hstart.
  split; [| split].
  - intros Hanchor.
    erewrite try_catch_bind_inr by (eapply persist_no_anchor; eassumption).
    eexists _, _. split; [reflexivity |].
    split; [apply success_result_is_success; discriminate |].
    split; [simpl; rewrite (@js_or_truthy (JStr t) JUndef Ht); reflexivity |].
    repeat split.
  - intros runtimeDir e Hanchor targetDir Hex Hmk.
    erewrite try_catch_run_inl
      by (apply bind_run_inl; eapply persist_mkdir_fails; eassumption).
    eexists. split; reflexivity.
  - intros runtimeDir e mime' Hanchor targetDir savedPath Hmime' Hdir Hwr.
    rewrite Hmime in Hmime'. injection Hmime' as <-.
    destruct (@persist_write_fails args mime (JStr t) w s2 c Hcfg Hc runtimeDir e
                Hanchor Hdir Hwr) as (s' & Ep & Hw & _).
    erewrite try_catch_run_inl by (apply bind_run_inl; exact Ep).
    eexists. split; [reflexivity | exact Hw].
Qed.

End ResolutionChain.

(** ** The query tools *)

Section QueryTools.
Context {builtins : JsBuiltins}.

Lemma docs_or_empty_run data docs w s :
  js_get data "docs" = inr docs -> docs_or_empty data w s = (inr (js_or docs (JArr [])), s).
Proof. intros H. unfold docs_or_empty. erewrite bind_lift_run by exact H. reflexivity. Qed.

(** C8. When findOrderItems is given an order id and the backend answers
    its OrderItem query OK with zero docs (an empty list, or no docs), the
    handler returns the Success variant whose structuredContent is
    [{ items: [] }], and no isError. *)
Theorem findOrderItems_no_rows_is_success
    (cfg : ServerConfig) (args : findOrderItems.Args) (request : RequestContext)
    (w : World) (resp : Response) (data docs : JsVal) :
  findOrderItems.orderId args <> "" ->
  backend w [] (findOrderItems.requestOptions cfg args request) = Responded resp ->
  ok resp = true ->
  body_json resp = inr data ->
  js_get data "docs" = inr docs ->
  docs = JArr [] \/ truthy docs = false ->
  exists res s',
    run (findOrderItems.handler cfg args request) w = (inr res, s')
    /\ is_success res
    /\ structuredContent res = Some (JObj [("items", JArr [])])
    /\ isError res = None.
Proof.
  intros Hid Hb Hok Hjson Hdocs Hempty.
  assert (Hor : js_or docs (JArr []) = JArr []).
  { destruct Hempty as [-> | Hf]; [reflexivity | unfold js_or; rewrite Hf; reflexivity]. }
  unfold run, findOrderItems.handler.
  replace (String.eqb (findOrderItems.orderId args) "") with false
    by (symmetry; apply String.eqb_neq; exact Hid).
  erewrite try_catch_run_inr
    by (erewrite bind_fetch_run by exact Hb; rewrite Hok; cbn [negb];
        unfold response_json; erewrite bind_lift_run by exact Hjson;
        erewrite bind_run_inr by (apply docs_or_empty_run; exact Hdocs);
        rewrite Hor; reflexivity).
  eexists _, _. split; [reflexivity |].
  split; [apply success_result_is_success; discriminate |]. split; reflexivity.
Qed.

(** C10. In findProductById, when the Product query by productId answers
    with zero docs, a second Product query, by internalName with the same
    input value, is sent before any result is reported; and the not-found
    Error is returned only when both queries answered with zero docs.  The
    two queries go to the same URL with the same headers and differ in their
    one input field: [productId] in the first, [internalName] in the second,
    each with the value of [args.id]. *)
Theorem findProductById_falls_back_to_internalName
    (cfg : ServerConfig) (args : findProductById.Args) (request : RequestContext)
    (w : World) :
  let by_id := findProductById.by_productId cfg args request in
  let by_name := findProductById.by_internalName cfg args request in
  let query (field : string) :=
    JsonBody (JObj [("entityName", JStr "Product"); ("noConditionFind", JStr "Y");
                    ("inputFields", JObj [(field, JStr (findProductById.id args))]);
                    ("viewSize", JNum 1)]) in
  (body by_id = query "productId"
   /\ body by_name = query "internalName"
   /\ url by_name = performFind_url cfg /\ url by_id = performFind_url cfg
   /\ method by_name = "POST" /\ method by_id = "POST"
   /\ headers by_name = headers by_id)
  /\ (forall r1 d1 docs1,
      backend w [] by_id = Responded r1 ->
      body_json r1 = inr d1 ->
      js_get d1 "docs" = inr docs1 ->
      no_docs docs1 = true ->
      exists res s',
        run (findProductById.handler cfg args request) w = (inr res, s')
        /\ requests s' = [by_id; by_name])
  /\ (forall s',
        run (findProductById.handler cfg args request) w
        = (inr (findProductById.not_found args), s') ->
        exists r1 d1 docs1 r2 d2 docs2,
          backend w [] by_id = Responded r1
          /\ body_json r1 = inr d1 /\ js_get d1 "docs" = inr docs1 /\ no_docs docs1 = true
          /\ backend w [by_id] by_name = Responded r2
          /\ body_json r2 = inr d2 /\ js_get d2 "docs" = inr docs2 /\ no_docs docs2 = true
          /\ requests s' = [by_id; by_name]).
Proof.
  intros by_id by_name query. split; [repeat split |]. split.
  - intros r1 d1 docs1 Hb Hjson Hdocs Hnone.
    destruct (findProductById_shape cfg args request w init) as (res & s' & Erun & _).
    exists res, s'. split; [exact Erun |].
    change (requests s') with (requests (snd (inr (A:=Exn) res, s'))).
    rewrite <- Erun. unfold findProductById.handler.
    rewrite try_catch_requests_silent_handler by (intros; trace_auto fail fail).
    erewrite bind_fetch_run by exact Hb. unfold response_json.
    erewrite bind_lift_run by exact Hjson. erewrite bind_lift_run by exact Hdocs.
    rewrite Hnone.
    rewrite bind_requests_silent_rest by (intros; trace_auto fail fail).
    rewrite bind_requests_silent_rest by (intros; trace_auto fail fail).
    rewrite fetch_requests. reflexivity.
  - intros s' Hrun. unfold run, findProductById.handler in Hrun.
    apply try_catch_inv in Hrun. destruct Hrun as [Hrun | (e & s1 & _ & Hcatch)].
    + unfold findProductById.not_found, error_result, success_result in *.
      inv_run.
      * do 6 eexists. repeat split; eassumption.
      * congruence.
    + unfold catch_plain, findProductById.not_found, error_result, text_item in Hcatch.
      rewrite bind_console_run in Hcatch. unfold ret in Hcatch.
      simpl in Hcatch. discriminate Hcatch.
Qed.


Lemma catch_plain_mentions label pre sub w s :
  exists res s', catch_plain label (JsErr (pre ++ sub)) w s = (inr res, s')
                 /\ is_error res /\ mentions res sub.
Proof.
  eexists _, _. split; [reflexivity |]. split.
  - repeat split; simpl; discriminate || reflexivity.
  - eexists _, _. split; [left; reflexivity |]. split; [reflexivity |].
    apply includes_skip, includes_suffix.
Qed.

Lemma catch_debug_mentions rq b label prefix fb pre sub w s :
  exists res s', catch_debug rq b label prefix fb (JsErr (pre ++ sub)) w s = (inr res, s')
                 /\ is_error res /\ mentions res sub.
Proof.
  eexists _, _. split; [reflexivity |]. split.
  - repeat split; simpl; discriminate || reflexivity.
  - eexists _, _. split; [right; left; reflexivity |]. split; [reflexivity |].
    apply includes_skip, includes_suffix.
Qed.

Section Down.
Variables (cfg : ServerConfig) (request : RequestContext) (w : World) (resp : Response).
Hypothesis answers : forall rq, backend w [] rq = Responded resp.
Hypothesis not_ok : ok resp = false.

Ltac body_eval :=
  repeat rewrite bind_console_run;
  erewrite bind_fetch_run by apply answers;
  repeat rewrite bind_console_run;
  rewrite not_ok; reflexivity.

Ltac down_debug :=
  cbv zeta; erewrite try_catch_run_inl by body_eval; apply catch_debug_mentions.
Ltac down_plain :=
  cbv zeta; erewrite try_catch_run_inl by body_eval; apply catch_plain_mentions.
Ltac down_content :=
  erewrite try_catch_run_inl
    by (apply bind_run_inl; unfold getContentCommon.resolve; body_eval);
  apply catch_plain_mentions.

(** Every query tool but findProductById: when the backend answers the
    first request with a non-success status, the handler returns the Error
    variant and its message contains the status code. *)
Lemma status_reported call :
  status_checked call = true ->
  rejected_input call = false ->
  exists res s',
    run (invoke cfg call request) w = (inr res, s')
    /\ is_error res /\ mentions res (string_of_Z (status resp)).
Proof.
  intros Hc Hin. destruct call; try discriminate Hc; simpl invoke; unfold run.
  - unfold getLogById.handler. down_debug.
  - unfold getLogConfig.handler. down_debug.
  - unfold listRecentErrors.handler. down_debug.
  - unfold findPickProfileGroups.handler. down_debug.
  - unfold retryFailedRecord.handler. down_debug.
  - unfold findDataManagerLogs.handler. down_debug.
  - unfold findOrderItems.handler. simpl in Hin. rewrite Hin. down_plain.
  - unfold findOrderHeader.handler. simpl in Hin.
    destruct (findOrderHeader.inputFields args); [discriminate |]. down_plain.
  - unfold findOrderTasks.handler. down_plain.
  - unfold findOrderTasks_linked.handler. down_plain.
  - unfold getImportSapiOrderConfig.handler. down_plain.
  - unfold getContent.handler. down_content.
  - unfold getContent_part_002.handler. down_content.
  - unfold getContent_part_003.handler. down_content.
Qed.
End Down.


End QueryTools.

(** ** Concrete runs *)

Section ConcreteRuns.
Import getContentCommon.

(** Concrete runs use the plain built-ins. *)
#[local] Existing Instance plain_builtins.

Lemma mentions_mentionsb (r : ToolResult) (sub : string) :
  mentions r sub -> mentionsb r sub = true.
Proof.
  intros (item & msg & Hin & Htext & Hinc). unfold mentionsb.
  apply existsb_exists. exists item. split; [exact Hin |]. rewrite Htext. exact Hinc.
Qed.

(** C9 fails on findProductById, the one query tool that does not check
    [response.ok]: when the backend answers HTTP 500 with a JSON error body,
    the handler sends both Product queries and returns the Error
    [Product not found: P1], whose message does not contain the status code;
    and when the 500 answer happens to carry a product, it returns Success. *)
Theorem findProductById_hides_http_status :
  ok (response_500 (JObj [("errorMessage", JStr "Internal Server Error")])) = false
  /\ (exists s',
        run (@findProductById.handler plain_builtins cfg_static args_P1 request_delegated)
          world_http_500
        = (inr (findProductById.not_found args_P1), s')
        /\ List.length (requests s') = 2%nat)
  /\ is_error (findProductById.not_found args_P1)
  /\ ~ mentions (findProductById.not_found args_P1) "500"
  /\ (exists res s',
        run (@findProductById.handler plain_builtins cfg_static args_P1 request_delegated)
          world_http_500_docs
        = (inr res, s')
        /\ is_success res).
Proof.
  split; [reflexivity |]. split; [eexists; split; reflexivity |].
  split; [repeat split; simpl; discriminate || reflexivity |].
  split.
  - intros H. apply mentions_mentionsb in H. discriminate H.
  - eexists _, _. split; [reflexivity |].
    apply success_result_is_success. discriminate.
Qed.

(** With no token anywhere, the raw CSV download of [unnamed/part_002] is
    sent with the header [Authorization: Bearer undefined]. *)
Lemma csv_download_without_token :
  header_values "Authorization"
    (headers (getContent_part_002.download_request cfg_no_token request_no_token "C1"))
  = ["Bearer undefined"]
  /\ In (getContent_part_002.download_request cfg_no_token request_no_token "C1")
       (requests (snd (run (@getContent_part_002.handler plain_builtins cfg_no_token
                              args_C1 request_no_token) world_text_fallback))).
Proof. split; [reflexivity |]. vm_compute. tauto. Qed.


(** C6 as stated fails: the text "hello" has been retrieved, the target
    directory cannot be created, and the handler returns the Error variant
    with the failure's message instead of Success. *)
Lemma persistence_counterexample :
  let w := world_mkdir_refused in
  let resolved := @resolve plain_builtins cfg_static request_delegated "C1" w init in
  let retrieved := @getContent_part_002.retrieve_text plain_builtins cfg_static
                     request_delegated "C1" (resolved_D1 "ELECTRONIC_TEXT") w
                     (snd resolved) in
  let failure := error_result [text_item "Error: EACCES: permission denied, mkdir"] in
  fst resolved = inr (inr (resolved_D1 "ELECTRONIC_TEXT"))
  /\ fst retrieved = inr (inr (JStr "hello"))
  /\ fst (run (@getContent_part_003.handler plain_builtins cfg_static args_C1_saved
                request_delegated) w) = inr failure
  /\ is_error failure
  /\ ~ is_success failure.
Proof.
  cbv zeta.
  split; [vm_compute; reflexivity |]. split; [vm_compute; reflexivity |].
  split; [vm_compute; reflexivity |].
  split; [repeat split; simpl; discriminate || reflexivity |].
  intros (_ & _ & H). discriminate H.
Qed.



(** C3 on a backend with no Content row, in [unnamed/part_003]. *)
Lemma content_not_found_stops_the_chain_witness :
  exists res s',
    run (@getContent_handler plain_builtins unnamed_part_003 cfg_no_token args_C1
           request_no_token) (constant_world (json_response 200 no_rows)) = (inr res, s')
    /\ res = content_not_found "C1"
    /\ is_error res
    /\ mentions res "C1"
    /\ requests s' = [content_request cfg_no_token request_no_token "C1"].
Proof.
  apply (@content_not_found_stops_the_chain plain_builtins unnamed_part_003 cfg_no_token
           args_C1 request_no_token (constant_world (json_response 200 no_rows))
           (answer_200 no_rows) no_rows (JArr [])).
  - reflexivity.
  - reflexivity.
  - reflexivity.
  - reflexivity.
  - reflexivity.
Defined.

(** C6, amended, where no [runtime] directory exists: still Success. *)
Lemma persistence_failure_outcomes_witness :
  exists res s',
    run (@getContent_part_003.handler plain_builtins cfg_static args_C1_saved
           request_delegated) world_no_anchor = (inr res, s')
    /\ is_success res
    /\ structured_field res "textData" = Some (JStr "hello")
    /\ structured_field res "savedPath" = Some JUndef.
Proof.
  destruct (@persistence_failure_outcomes plain_builtins cfg_static args_C1_saved
              request_delegated world_no_anchor (resolved_D1 "ELECTRONIC_TEXT")
              (snd (@resolve plain_builtins cfg_static request_delegated "C1"
                      world_no_anchor init))
              (snd (@getContent_part_002.retrieve_text plain_builtins cfg_static
                      request_delegated "C1" (resolved_D1 "ELECTRONIC_TEXT")
                      world_no_anchor
                      (snd (@resolve plain_builtins cfg_static request_delegated "C1"
                              world_no_anchor init))))
              "hello" "IMP_SAPI_ORDER")
    as (Hnone & _).
  - vm_compute. reflexivity.
  - vm_compute. reflexivity.
  - reflexivity.
  - discriminate.
  - destruct Hnone as (res & s' & Hrun & Hs & Ht & Hp & _); [reflexivity |].
    exists res, s'. split; [exact Hrun | split; [exact Hs | split; [exact Ht | exact Hp]]].
Defined.

(** C8 on the order 1001 with no items. *)
Lemma findOrderItems_no_rows_is_success_witness :
  exists res s',
    run (@findOrderItems.handler plain_builtins cfg_no_token
           {| findOrderItems.orderId := "1001" |} request_no_token)
      (constant_world (json_response 200 no_rows)) = (inr res, s')
    /\ is_success res
    /\ structuredContent res = Some (JObj [("items", JArr [])])
    /\ isError res = None.
Proof.
  apply (@findOrderItems_no_rows_is_success plain_builtins cfg_no_token
           {| findOrderItems.orderId := "1001" |} request_no_token
           (constant_world (json_response 200 no_rows))
           (answer_200 no_rows) no_rows (JArr [])).
  - discriminate.
  - reflexivity.
  - reflexivity.
  - reflexivity.
  - reflexivity.
  - left. reflexivity.
Defined.

(** C10 on a backend with no Product row. *)
Lemma findProductById_falls_back_to_internalName_witness :
  exists res s',
    run (@findProductById.handler plain_builtins cfg_static args_P1 request_delegated)
      (constant_world (json_response 200 no_rows)) = (inr res, s')
    /\ requests s' = [findProductById.by_productId cfg_static args_P1 request_delegated;
                      findProductById.by_internalName cfg_static args_P1 request_delegated]
    /\ body (findProductById.by_internalName cfg_static args_P1 request_delegated)
       = JsonBody (JObj [("entityName", JStr "Product"); ("noConditionFind", JStr "Y");
                         ("inputFields", JObj [("internalName", JStr "P1")]);
                         ("viewSize", JNum 1)]).
Proof.
  destruct (@findProductById_falls_back_to_internalName plain_builtins cfg_static args_P1
              request_delegated (constant_world (json_response 200 no_rows)))
    as [(_ & Hquery & _) [Hfirst _]].
  destruct (Hfirst (answer_200 no_rows) no_rows (JArr [])) as (res & s' & Hrun & Hreq);
    try reflexivity.
  exists res, s'. split; [exact Hrun |]. split; [exact Hreq | exact Hquery].
Defined.

End ConcreteRuns.

(** * Further properties of the handlers *)

(** ** Where requests go *)

Section Endpoints.
Context {builtins : JsBuiltins}.
Variables (cfg : ServerConfig) (request : RequestContext).

Lemma user_agent_attach :
  header_values "User-Agent" (attach_authorization cfg request (json_headers cfg))
  = [or_empty (BACKEND_USER_AGENT cfg)].
Proof.
  unfold attach_authorization.
  destruct (present (request_token request)); [reflexivity |].
  destruct (present (BACKEND_ACCESS_TOKEN cfg)); reflexivity.
Qed.

Lemma user_agent_upload :
  header_values "User-Agent" (uploadFileToConfig.upload_headers cfg request)
  = [or_empty (BACKEND_USER_AGENT cfg)].
Proof.
  unfold uploadFileToConfig.upload_headers.
  destruct (present (uploadFileToConfig.authToken cfg request)); reflexivity.
Qed.

Lemma backend_post_json h b :
  header_values "User-Agent" h = [or_empty (BACKEND_USER_AGENT cfg)] ->
  backend_request cfg (post_json (performFind_url cfg) h b).
Proof.
  intros H. split; [| split; [| split]].
  - left. split; [reflexivity |]. split; [reflexivity | eexists; reflexivity].
  - apply starts_with_app.
  - reflexivity.
  - exact H.
Qed.

Ltac endpoint_side :=
  first
    [ apply backend_post_json; first [ exact user_agent_attach | reflexivity ]
    | split; [| split; [| split]];
      [ first [ right; left; split; [reflexivity |]; split;
                [reflexivity | eexists; reflexivity]
              | right; right; split; [reflexivity |]; split; [reflexivity |];
                first [ left; eexists; reflexivity | right; eexists; reflexivity ] ]
      | apply starts_with_app
      | reflexivity
      | first [ exact user_agent_upload | reflexivity ] ] ].

Lemma trace_backend_request call : trace (backend_request cfg) (invoke cfg call request).
Proof.
  destruct call; simpl;
    trace_auto ltac:(apply trace_visit_links; intros; endpoint_side) endpoint_side.
Qed.

End Endpoints.

(** X1. Every request that any handler sends goes to one of the four
    endpoints of the configured backend (POST performFind with a JSON body,
    POST uploadAndImportFile with a form, or a body-less GET of one of the two
    download URLs), its URL starts with the configured base, it carries the
    configured User-Agent (empty when none is configured) exactly once, and
    certificate verification is switched off. *)
Theorem requests_go_to_the_backend {builtins : JsBuiltins}
    (cfg : ServerConfig) (call : ToolCall) (request : RequestContext) (w : World) :
  Forall (backend_request cfg) (requests (snd (run (invoke cfg call request) w))).
Proof. apply trace_run, trace_backend_request. Qed.

(** ** Input the handlers refuse *)

(** X2. findOrderItems with an empty orderId, and findOrderHeader with
    neither an orderId nor an externalId, return the Error variant without
    sending any request, logging anything or touching the file system. *)
Theorem rejected_input_sends_nothing {builtins : JsBuiltins}
    (cfg : ServerConfig) (call : ToolCall) (request : RequestContext) (w : World) :
  rejected_input call = true ->
  exists res,
    run (invoke cfg call request) w = (inr res, init) /\ is_error res.
Proof.
  destruct call; simpl; try discriminate; intros H; unfold run.
  - unfold findOrderItems.handler. rewrite H.
    eexists. split; [reflexivity |]. repeat split; simpl; discriminate || reflexivity.
  - unfold findOrderHeader.handler. destruct (findOrderHeader.inputFields args);
      [| discriminate].
    eexists. split; [reflexivity |]. repeat split; simpl; discriminate || reflexivity.
Qed.

Lemma rejected_input_sends_nothing_witness :
  exists res,
    run (@invoke plain_builtins cfg_static
           (call_findOrderHeader {| findOrderHeader.orderId := Some "";
                                    findOrderHeader.externalId := None |})
           request_delegated) world_http_500 = (inr res, init)
    /\ is_error res.
Proof.
  apply (@rejected_input_sends_nothing plain_builtins cfg_static
           (call_findOrderHeader {| findOrderHeader.orderId := Some "";
                                    findOrderHeader.externalId := None |})
           request_delegated world_http_500).
  reflexivity.
Defined.

(** ** How many requests an invocation sends *)

Section Bounds.
Context {builtins : JsBuiltins}.

Lemma at_most_silent {A} (n : nat) (m : M A) :
  trace (fun _ => False) m -> at_most n m.
Proof. intros H w s. rewrite (silent_requests w s H). lia. Qed.

Lemma at_most_fetch (n : nat) (rq : Request) : at_most (S n) (fetch rq).
Proof. intros w s. rewrite fetch_requests, length_app. simpl. lia. Qed.

Lemma at_most_bind_known {A B} (a n : nat) (m : M A) (f : A -> M B) :
  at_most a m -> (a <= n)%nat -> (forall x, at_most (n - a) (f x)) ->
  at_most n (bind m f).
Proof.
  intros Hm Hle Hf w s. unfold bind. specialize (Hm w s).
  destruct (m w s) as [[e | x] s1]; simpl in *; [lia |].
  specialize (Hf x w s1). lia.
Qed.

Lemma at_most_bind_fetch {B} (n : nat) (rq : Request) (f : Response -> M B) :
  (forall r, at_most n (f r)) -> at_most (S n) (bind (fetch rq) f).
Proof.
  intros Hf. apply (at_most_bind_known (a := 1)); [apply at_most_fetch | lia |].
  intros x. replace (S n - 1)%nat with n by lia. apply Hf.
Qed.

Lemma at_most_bind_silent {A B} (n : nat) (m : M A) (f : A -> M B) :
  trace (fun _ => False) m -> (forall x, at_most n (f x)) -> at_most n (bind m f).
Proof.
  intros Hm Hf. apply (at_most_bind_known (a := 0));
    [apply at_most_silent, Hm | lia |].
  intros x. replace (n - 0)%nat with n by lia. apply Hf.
Qed.

Lemma at_most_try_catch {A} (n : nat) (m : M A) (h : Exn -> M A) :
  at_most n m -> (forall e, trace (fun _ => False) (h e)) -> at_most n (try_catch m h).
Proof.
  intros Hm Hh w s. rewrite try_catch_requests_silent_handler by exact Hh. apply Hm.
Qed.

Ltac silent := solve [trace_auto fail fail].

Ltac bound_step :=
  lazymatch goal with
  | |- at_most _ (bind (fetch _) _) => apply at_most_bind_fetch; intros
  | |- at_most _ (bind (if ?b then _ else _) _) =>
      apply (at_most_bind_known (a := 1)); [destruct b | lia | intros; cbn [Nat.sub]]
  | |- at_most _ (bind _ _) => apply at_most_bind_silent; [silent | intros]
  | |- at_most _ (try_catch _ _) => apply at_most_try_catch; [| intros; silent]
  | |- at_most _ (fetch _) => apply at_most_fetch
  | |- at_most _ (if ?b then _ else _) => destruct b
  | |- at_most _ (match ?x with _ => _ end) => destruct x
  | |- at_most _ (let _ := _ in _) => cbv zeta
  | |- at_most _ _ => apply at_most_silent; silent
  end.

Lemma resolve_at_most cfg request cid :
  at_most 2 (getContentCommon.resolve cfg request cid).
Proof. unfold getContentCommon.resolve. repeat bound_step. Qed.

Lemma fetch_electronic_text_at_most cfg request id :
  at_most 1 (getContentCommon.fetch_electronic_text cfg request id).
Proof. unfold getContentCommon.fetch_electronic_text. repeat bound_step. Qed.

Lemma remote_fetch_at_most cfg request id td :
  at_most 1 (getContent.remote_fetch cfg request id td).
Proof. unfold getContent.remote_fetch. repeat bound_step. Qed.

Lemma download_fallback_at_most cfg request cid td :
  at_most 1 (getContent_part_002.download_fallback cfg request cid td).
Proof. unfold getContent_part_002.download_fallback. repeat bound_step. Qed.

Lemma retrieve_text_at_most cfg request cid r :
  at_most 2 (getContent_part_002.retrieve_text cfg request cid r).
Proof.
  unfold getContent_part_002.retrieve_text.
  apply (at_most_bind_known (a := 1)); [| lia | intros td; cbn [Nat.sub]].
  - destruct (getContentCommon.is_text_type _);
      [apply fetch_electronic_text_at_most | apply at_most_silent; silent].
  - apply (at_most_bind_known (a := 1)); [| lia | intros td'; cbn [Nat.sub]].
    + destruct (negb (truthy td));
        [apply download_fallback_at_most | apply at_most_silent; silent].
    + repeat bound_step.
Qed.

Lemma fetch_runtime_at_most cfg request id :
  at_most 1 (getImportSapiOrderConfig.fetch_runtime cfg request id).
Proof. unfold getImportSapiOrderConfig.fetch_runtime. repeat bound_step. Qed.

Ltac single := cbv zeta; repeat bound_step.

Lemma handler_at_most cfg call request n :
  max_requests call = Some n -> at_most n (invoke cfg call request).
Proof.
  destruct call; simpl; intros H; inversion H; subst; clear H.
  - unfold getLogById.handler. single.
  - unfold getLogConfig.handler. single.
  - unfold listRecentErrors.handler. single.
  - unfold findPickProfileGroups.handler. single.
  - unfold retryFailedRecord.handler. single.
  - unfold findDataManagerLogs.handler. single.
  - unfold uploadFileToConfig.handler. single.
  - unfold findOrderItems.handler. single.
  - unfold findOrderHeader.handler. single.
  - unfold findOrderTasks.handler. single.
  - unfold findProductById.handler. single.
  - unfold getImportSapiOrderConfig.handler.
    apply at_most_try_catch; [| intros; silent].
    apply at_most_bind_silent; [silent | intros _].
    apply at_most_bind_fetch; intros response.
    destruct (negb (ok response)); [apply at_most_silent; silent |].
    apply at_most_bind_silent; [silent | intros data].
    apply at_most_bind_silent; [silent | intros docs].
    destruct (no_docs docs); [apply at_most_silent; silent |]. cbv zeta.
    apply at_most_bind_silent; [silent | intros rid].
    apply (at_most_bind_known (a := 1)); [apply fetch_runtime_at_most | lia |].
    intros _. apply at_most_silent; silent.
  - unfold getContent.handler.
    apply at_most_try_catch; [| intros; silent].
    apply (at_most_bind_known (a := 2)); [apply resolve_at_most | lia |].
    intros [early | r]; cbn [Nat.sub]; [apply at_most_silent; silent |]. cbv zeta.
    assert (Hc : forall td,
               at_most 1
                 (mimeTypeId <- lift (js_get (getContentCommon.contentRecord r) "mimeTypeId") ;;
                  fetched <- getContent.remote_fetch cfg request
                               (getContentCommon.dataResourceId r) td ;;
                  let '(textData', resultTextData) := fetched in
                  if negb (truthy textData')
                  then ret (getContent.no_text_found (getContentCommon.dataResourceId r))
                  else
                    ret (success_result [{| type := "text"; text := textData' |}]
                           (JObj [("contentId", JStr (getContent.contentId args));
                                  ("dataResourceId",
                                   js_or (getContentCommon.dataResourceId r) JUndef);
                                  ("textData", resultTextData);
                                  ("mimeType", js_or mimeTypeId JUndef)])))).
    { intros td. apply at_most_bind_silent; [silent | intros mt].
      apply (at_most_bind_known (a := 1)); [apply remote_fetch_at_most | lia |].
      intros [a b]. apply at_most_silent; silent. }
    destruct (getContentCommon.is_text_type _).
    + apply (at_most_bind_known (a := 1));
        [apply fetch_electronic_text_at_most | lia | intros td; apply Hc].
    + destruct (getContentCommon.is_file_type _); [apply at_most_silent; silent |].
      intros w s. specialize (Hc (JStr "") w s). lia.
  - unfold getContent_part_002.handler.
    apply at_most_try_catch; [| intros; silent].
    apply (at_most_bind_known (a := 2)); [apply resolve_at_most | lia |].
    intros [early | r]; cbn [Nat.sub]; [apply at_most_silent; silent |].
    apply (at_most_bind_known (a := 2)); [apply retrieve_text_at_most | lia |].
    intros [early | td]; apply at_most_silent; silent.
  - unfold getContent_part_003.handler.
    apply at_most_try_catch; [| intros; silent].
    apply (at_most_bind_known (a := 2)); [apply resolve_at_most | lia |].
    intros [early | r]; cbn [Nat.sub]; [apply at_most_silent; silent |].
    apply (at_most_bind_known (a := 2)); [apply retrieve_text_at_most | lia |].
    intros [early | td]; apply at_most_silent; silent.
Qed.

End Bounds.

(** X3. Every handler but findOrderTasks through OrderHeaderWorkEffort
    sends a bounded number of requests, whatever the backend answers: one
    invocation sends at most one request in the single-query tools and in the
    upload, at most two in findProductById and getImportSapiOrderConfig, and
    at most four in each source of getContent. *)
Theorem handlers_send_few_requests {builtins : JsBuiltins}
    (cfg : ServerConfig) (call : ToolCall) (request : RequestContext) (w : World)
    (n : nat) :
  max_requests call = Some n ->
  (List.length (requests (snd (run (invoke cfg call request) w))) <= n)%nat.
Proof.
  intros H. apply (handler_at_most cfg call request) in H.
  specialize (H w init). exact H.
Qed.

Lemma handlers_send_few_requests_witness :
  (List.length (requests (snd (run (@invoke plain_builtins cfg_static
                                      (call_getContent_part_002 args_C1)
                                      request_delegated) world_text_fallback)))
   <= 4)%nat.
Proof.
  apply (@handlers_send_few_requests plain_builtins cfg_static
           (call_getContent_part_002 args_C1) request_delegated world_text_fallback 4).
  reflexivity.
Defined.

(** ** More of the content resolution chain *)

Section ChainSteps.
Context {builtins : JsBuiltins}.
Import getContentCommon.

(** An early return of steps 1 and 2 is what the handler returns. *)
Lemma early_return_is_returned src cfg args request w early s1 :
  resolve cfg request (getContent_part_002.contentId args) w init
  = (inr (inl early), s1) ->
  run (getContent_handler src cfg args request) w = (inr early, s1).
Proof.
  intros H. unfold run.
  destruct src; simpl;
    unfold getContent.handler, getContent_part_002.handler, getContent_part_003.handler;
    apply try_catch_run_inr; erewrite bind_run_inr by exact H; reflexivity.
Qed.

(** X4. In each source of getContent, when the Content row has no (or an
    empty) dataResourceId, the handler returns the Error
    [No dataResourceId for Content: <contentId>] after the one Content
    query: no DataResource query is sent. *)
Theorem missing_data_resource_link (src : Source)
    (cfg : ServerConfig) (args : getContent_part_002.Args) (request : RequestContext)
    (w : World) (resp : Response) (data docs link : JsVal) :
  let cid := getContent_part_002.contentId args in
  backend w [] (content_request cfg request cid) = Responded resp ->
  ok resp = true ->
  body_json resp = inr data ->
  js_get data "docs" = inr docs ->
  no_docs docs = false ->
  js_get (js_first docs) "dataResourceId" = inr link ->
  truthy link = false ->
  exists res s',
    run (getContent_handler src cfg args request) w = (inr res, s')
    /\ res = error_result [text_item ("No dataResourceId for Content: " ++ cid)]
    /\ is_error res
    /\ mentions res cid
    /\ requests s' = [content_request cfg request cid].
Proof.
  intros cid H1 H2 H3 H4 H5 H6 H7.
  eexists _, _. split.
  - apply early_return_is_returned. unfold resolve.
    erewrite bind_fetch_run by exact H1. rewrite H2. cbn [negb].
    unfold response_json. erewrite bind_lift_run by exact H3.
    erewrite bind_lift_run by exact H4. rewrite H5. cbv zeta.
    erewrite bind_lift_run by exact H6. rewrite H7. reflexivity.
  - split; [reflexivity |].
    split; [repeat split; simpl; discriminate || reflexivity |].
    split; [| reflexivity].
    eexists _, _. split; [left; reflexivity |]. split; [reflexivity |].
    apply includes_suffix.
Qed.


(** Once text has been retrieved, the guarded sources return it. *)
Lemma after_retrieval src cfg args request w r s1 t s2 :
  src <> src_tools_getContent ->
  resolve cfg request (getContent_part_002.contentId args) w init = (inr (inr r), s1) ->
  getContent_part_002.retrieve_text cfg request (getContent_part_002.contentId args)
    r w s1 = (inr (inr t), s2) ->
  exists res s',
    run (getContent_handler src cfg args request) w = (inr res, s')
    /\ requests s' = requests s2
    /\ (is_success res -> structured_field res "textData" = Some t)
    /\ (src = unnamed_part_002 -> is_success res /\ content res = [{| type := "text"; text := t |}])
    /\ (src = unnamed_part_003 -> getContent_part_002.configId args = None ->
        (exists str, t = JStr str) -> is_success res).
Proof.
  intros Hsrc Hres Hrt.
  pose proof Hres as Hr. apply resolve_resolved in Hr.
  destruct Hr as (_ & _ & _ & _ & _ & _ & Hcr & _).
  assert (Hm : exists y, js_get (contentRecord r) "mimeTypeId" = inr y)
    by (eapply js_get_other; exact Hcr).
  destruct Hm as (mime & Hmime).
  assert (Ht : truthy t = true) by (eapply retrieve_text_truthy; exact Hrt).
  destruct src as [| |]; [contradiction | |]; simpl getContent_handler; unfold run.
  - unfold getContent_part_002.handler.
    erewrite try_catch_bind_inr by exact Hres. cbv beta iota.
    erewrite try_catch_bind_inr by exact Hrt. cbv beta iota.
    erewrite try_catch_run_inr
      by (erewrite bind_lift_run by exact Hmime; reflexivity).
    eexists _, _. split; [reflexivity |]. split; [reflexivity |].
    split; [| split].
    + intros _. simpl. rewrite (@js_or_truthy t JUndef Ht). reflexivity.
    + intros _. split; [apply success_result_is_success; discriminate | reflexivity].
    + discriminate.
  - unfold getContent_part_003.handler.
    erewrite try_catch_bind_inr by exact Hres. cbv beta iota.
    erewrite try_catch_bind_inr by exact Hrt. cbv beta iota.
    match goal with |- exists res s', ?run = _ /\ _ =>
      assert (Hal : exists res s', run = (inr res, s')
                      /\ (is_success res -> structured_field res "textData" = Some t));
      [| assert (Hsil : requests (snd run) = requests s2) ]
    end.
    { apply always_try_catch.
      - repeat returns_step. intros _. simpl. rewrite (@js_or_truthy t JUndef Ht).
        reflexivity.
      - intros e. eapply always_weaken; [| apply always_catch_plain_error].
        intros res He Hs. destruct (not_both Hs He). }
    { apply silent_requests. trace_auto fail fail. }
    destruct Hal as (res & s' & Erun & Hfield).
    rewrite Erun in Hsil. simpl snd in Hsil.
    exists res, s'. split; [exact Erun |]. split; [exact Hsil |].
    split; [exact Hfield |]. split; [discriminate |].
    intros _ Hcfg [str ->].
    erewrite try_catch_run_inr in Erun
      by (erewrite bind_lift_run by exact Hmime;
          unfold getContent_part_003.persist, getContent_part_003.configId;
          rewrite Hcfg, bind_ret_run; reflexivity).
    inversion Erun; subst.
    apply success_result_is_success. discriminate.
Qed.


(** The download, when it answers OK with a body. *)
Lemma download_fallback_ok cfg request cid td w s resp t :
  backend w (requests s) (getContent_part_002.download_request cfg request cid)
  = Responded resp ->
  ok resp = true ->
  body_text resp = inr t ->
  getContent_part_002.download_fallback cfg request cid td w s
  = (inr (JStr t),
     sent (logged s ("[getContent] Attempting remote fetch from: "
                     ++ getContent_part_002.download_url cfg cid))
       (getContent_part_002.download_request cfg request cid)).
Proof.
  intros Hb Hok Ht. unfold getContent_part_002.download_fallback.
  apply try_catch_run_inr. rewrite bind_console_run.
  erewrite bind_fetch_run by exact Hb. rewrite Hok.
  unfold response_text. erewrite bind_lift_run by exact Ht. reflexivity.
Qed.

(** The download, when it gives no text: [textData] is unchanged. *)
Lemma download_fallback_fails cfg request cid td w s :
  download_fails
    (backend w (requests s) (getContent_part_002.download_request cfg request cid))
  = true ->
  fst (getContent_part_002.download_fallback cfg request cid td w s) = inr td.
Proof.
  intros H. unfold getContent_part_002.download_fallback, try_catch.
  rewrite bind_console_run. unfold bind, fetch. simpl requests.
  destruct (backend w (requests s) _) as [e | resp]; simpl in *; [reflexivity |].
  destruct (ok resp); simpl.
  - unfold response_text. destruct (body_text resp); simpl; [reflexivity | discriminate].
  - unfold response_text. destruct (body_text resp); reflexivity.
Qed.

End ChainSteps.

Section Fallbacks.
Context {builtins : JsBuiltins}.
Import getContentCommon.

Lemma fetch_electronic_text_not_ok cfg request id w s resp :
  backend w (requests s) (electronicText_request cfg request id) = Responded resp ->
  ok resp = false ->
  fetch_electronic_text cfg request id w s
  = (inr (JStr ""), sent s (electronicText_request cfg request id)).
Proof.
  intros Hb Hok. unfold fetch_electronic_text.
  erewrite bind_fetch_run by exact Hb. rewrite Hok. reflexivity.
Qed.

(** X6. In the guarded sources of getContent, a non-success answer to the
    ElectronicText query is not an error: the raw download is attempted
    next, and when it answers OK with a non-empty body the result carries
    that body verbatim as textData ([unnamed/part_002] returns Success with
    it as the text content).  The requests are the two lookups, the text
    query and the download, in this order. *)
Theorem text_query_failure_is_tolerated (src : Source)
    (cfg : ServerConfig) (args : getContent_part_002.Args) (request : RequestContext)
    (w : World) (r : Resolved) (s1 : State) (resp resp2 : Response) (t : string) :
  let cid := getContent_part_002.contentId args in
  let text_query := electronicText_request cfg request (dataResourceId r) in
  let download := getContent_part_002.download_request cfg request cid in
  src <> src_tools_getContent ->
  resolve cfg request cid w init = (inr (inr r), s1) ->
  is_text_type (dataResourceTypeId r) = true ->
  backend w (requests s1) text_query = Responded resp ->
  ok resp = false ->
  backend w (requests s1 ++ [text_query]) download = Responded resp2 ->
  ok resp2 = true ->
  body_text resp2 = inr t ->
  t <> "" ->
  exists res s',
    run (getContent_handler src cfg args request) w = (inr res, s')
    /\ requests s' = (requests s1 ++ [text_query; download])%list
    /\ (is_success res -> structured_field res "textData" = Some (JStr t))
    /\ (src = unnamed_part_002 ->
        is_success res /\ content res = [{| type := "text"; text := JStr t |}])
    /\ (src = unnamed_part_003 -> getContent_part_002.configId args = None ->
        is_success res).
Proof.
  intros cid text_query download Hsrc Hres Hty Hb Hok Hb2 Hok2 Hbody Ht.
  assert (Hrt : getContent_part_002.retrieve_text cfg request cid r w s1
                = (inr (inr (JStr t)),
                   sent (logged (sent s1 text_query)
                           ("[getContent] Attempting remote fetch from: "
                            ++ getContent_part_002.download_url cfg cid)) download)).
  { unfold getContent_part_002.retrieve_text. rewrite Hty.
    erewrite bind_run_inr by (eapply fetch_electronic_text_not_ok; eassumption).
    cbn [truthy String.eqb negb].
    erewrite bind_run_inr
      by (eapply download_fallback_ok; eassumption).
    cbn [truthy].
    replace (String.eqb t "") with false by (symmetry; apply String.eqb_neq; exact Ht).
    reflexivity. }
  destruct (@after_retrieval builtins src cfg args request w r s1 (JStr t) _ Hsrc Hres Hrt)
    as (res & s' & Hrun & Hreq & Hfield & H2 & H3).
  exists res, s'. split; [exact Hrun |].
  split; [rewrite Hreq; simpl; rewrite <- app_assoc; reflexivity |].
  split; [exact Hfield |]. split; [exact H2 |].
  intros Hs Hc. apply H3; [exact Hs | exact Hc | eexists; reflexivity].
Qed.





Section TextRowInPlainSource.
Variables (cfg : ServerConfig) (args : getContent.Args) (request : RequestContext)
  (w : World) (r : Resolved) (s1 : State) (resp : Response) (data docs t : JsVal).
Let cid := getContent.contentId args.
Let text_query := electronicText_request cfg request (dataResourceId r).
Hypothesis Hres : resolve cfg request cid w init = (inr (inr r), s1).
Hypothesis Hty : is_text_type (dataResourceTypeId r) = true.
Hypothesis Hb : backend w (requests s1) text_query = Responded resp.
Hypothesis Hok : ok resp = true.
Hypothesis Hjson : body_json resp = inr data.
Hypothesis Hdocs : js_get data "docs" = inr docs.
Hypothesis Hhas : has_docs docs = true.
Hypothesis Htext : js_get (js_first docs) "textData" = inr t.


End TextRowInPlainSource.



End Fallbacks.

Section FallbackRuns.
Import getContentCommon.

#[local] Existing Instance plain_builtins.

(** X4 on a Content row that has no dataResourceId, in [unnamed/part_003]. *)
Lemma missing_data_resource_link_witness :
  exists res s',
    run (@getContent_handler plain_builtins unnamed_part_003 cfg_static args_C1
           request_delegated) world_no_link = (inr res, s')
    /\ res = error_result [text_item "No dataResourceId for Content: C1"]
    /\ requests s' = [content_request cfg_static request_delegated "C1"].
Proof.
  destruct (@missing_data_resource_link plain_builtins unnamed_part_003 cfg_static
              args_C1 request_delegated world_no_link
              (answer_200 (one_doc [("contentId", JStr "C1")]))
              (one_doc [("contentId", JStr "C1")])
              (JArr [JObj [("contentId", JStr "C1")]])
              JUndef)
    as (res & s' & Hrun & Hres & _ & _ & Hreq);
    try reflexivity.
  exists res, s'. split; [exact Hrun |]. split; [exact Hres | exact Hreq].
Defined.


(** X6 on a refused ElectronicText query, in [unnamed/part_002]. *)
Lemma text_query_failure_is_tolerated_witness :
  exists res s',
    run (@getContent_handler plain_builtins unnamed_part_002 cfg_static args_C1
           request_delegated) world_text_query_refused = (inr res, s')
    /\ is_success res
    /\ content res = [{| type := "text"; text := JStr "a,b" |}].
Proof.
  destruct (@text_query_failure_is_tolerated plain_builtins unnamed_part_002
              cfg_static args_C1 request_delegated world_text_query_refused
              (resolved_D1 "SHORT_TEXT")
              (snd (@resolve plain_builtins cfg_static request_delegated "C1"
                      world_text_query_refused init))
              {| status := 503; statusText := ""; body_text := inr "";
                 body_json := inr (JObj []) |}
              {| status := 200; statusText := ""; body_text := inr "a,b";
                 body_json := inl (JsErr "Unexpected token in JSON at position 0") |}
              "a,b")
    as (res & s' & Hrun & _ & _ & Hsucc & _).
  - discriminate.
  - vm_compute. reflexivity.
  - reflexivity.
  - vm_compute. reflexivity.
  - reflexivity.
  - vm_compute. reflexivity.
  - reflexivity.
  - reflexivity.
  - discriminate.
  - exists res, s'. split; [exact Hrun |]. apply Hsucc. reflexivity.
Defined.




End FallbackRuns.

(** ** Paths and local persistence *)

Section Paths.
Import getContent_part_003.

Lemma path_join_runtime (d : Path) : path_join d "runtime" = (d ++ ["runtime"])%list.
Proof. reflexivity. Qed.

Lemma findRuntimeDir_from_spec (isDirectory : Path -> bool) (l : list string) :
  match findRuntimeDir_from isDirectory l with
  | Some p =>
      exists k, (k <= List.length l)%nat
        /\ p = (rev (skipn k l) ++ ["runtime"])%list
        /\ isDirectory p = true
        /\ forall j, (j < k)%nat ->
             isDirectory (rev (skipn j l) ++ ["runtime"])%list = false
  | None =>
      forall j, isDirectory (rev (skipn j l) ++ ["runtime"])%list = false
  end.
Proof.
  induction l as [| x parent IH].
  - cbn [findRuntimeDir_from]. rewrite path_join_runtime. cbn [rev app].
    destruct (isDirectory ["runtime"]) eqn:E.
    + exists 0%nat. split; [simpl; lia |]. split; [reflexivity |].
      split; [exact E | intros j Hj; lia].
    + intros j. rewrite skipn_nil. exact E.
  - cbn [findRuntimeDir_from]. rewrite path_join_runtime.
    destruct (isDirectory (rev (x :: parent) ++ ["runtime"])%list) eqn:E.
    + exists 0%nat. split; [lia |]. split; [reflexivity |].
      split; [exact E | intros j Hj; lia].
    + destruct (findRuntimeDir_from isDirectory parent) as [p |].
      * destruct IH as (k & Hk & Hp & Hd & Hnone).
        exists (S k). split; [simpl; lia |]. split; [exact Hp |]. split; [exact Hd |].
        intros [| j] Hj; [exact E | apply Hnone; lia].
      * intros [| j]; [exact E | apply IH].
Qed.

Lemma rev_skipn_rev (start : Path) (j : nat) :
  rev (skipn j (rev start)) = firstn (List.length start - j) start.
Proof.
  rewrite skipn_rev, rev_involutive. reflexivity.
Qed.

End Paths.

(** X10. [findRuntimeDir] returns the [runtime] directory of the nearest
    ancestor of the start directory (the start directory itself and the root
    included) that has one, and [null] exactly when no ancestor has one. *)
Theorem findRuntimeDir_nearest_ancestor (isDirectory : Path -> bool) (startDir : Path) :
  match getContent_part_003.findRuntimeDir isDirectory startDir with
  | Some p =>
      exists k, (k <= List.length startDir)%nat
        /\ p = (firstn k startDir ++ ["runtime"])%list
        /\ isDirectory p = true
        /\ forall j, (k < j <= List.length startDir)%nat ->
             isDirectory (firstn j startDir ++ ["runtime"])%list = false
  | None =>
      forall j, isDirectory (firstn j startDir ++ ["runtime"])%list = false
  end.
Proof.
  unfold getContent_part_003.findRuntimeDir.
  pose proof (findRuntimeDir_from_spec isDirectory (rev startDir)) as H.
  destruct (getContent_part_003.findRuntimeDir_from isDirectory (rev startDir)) as [p |].
  - destruct H as (k & Hk & Hp & Hd & Hnone). rewrite length_rev in Hk.
    exists (List.length startDir - k)%nat.
    split; [lia |]. split; [rewrite <- rev_skipn_rev; exact Hp |]. split; [exact Hd |].
    intros j Hj.
    replace j with (List.length startDir - (List.length startDir - j))%nat by lia.
    rewrite <- rev_skipn_rev. apply Hnone. lia.
  - intros j.
    destruct (Nat.le_gt_cases j (List.length startDir)) as [Hle | Hgt].
    + replace j with (List.length startDir - (List.length startDir - j))%nat by lia.
      rewrite <- rev_skipn_rev. apply H.
    + rewrite firstn_all2 by lia.
      specialize (H 0%nat). simpl in H. rewrite rev_involutive in H. exact H.
Qed.

Section PlainNames.
Import getContent_part_003.







End PlainNames.



Section Saving.
Context {builtins : JsBuiltins}.
Import getContentCommon.

Lemma persist_succeeds (args : getContent_part_002.Args) (mime td : JsVal)
    (w : World) (s : State) (c : string) (runtimeDir : Path) :
  let targetDir :=
    getContent_part_003.path_join runtimeDir
      (getContent_part_003.category_name args ++ "File_" ++ c) in
  let savedPath :=
    getContent_part_003.path_join targetDir
      (getContent_part_002.contentId args ++ getContent_part_003.extension mime) in
  getContent_part_002.configId args = Some c ->
  c <> "" ->
  getContent_part_003.findRuntimeDir (fs_isDirectory w) (module_dir w) = Some runtimeDir ->
  fs_existsSync w targetDir = true \/ fs_mkdir w targetDir = None ->
  fs_writeFile w savedPath td = None ->
  exists s',
    getContent_part_003.persist args mime td w s
    = (inr (Some (getContent_part_003.path_string savedPath)), s')
    /\ written s' = (written s ++ [(savedPath, td)])%list
    /\ made_dirs s'
       = (made_dirs s ++ (if fs_existsSync w targetDir then [] else [targetDir]))%list
    /\ requests s' = requests s.
Proof.
  intros targetDir savedPath Hcfg Hc Hanchor Hdir Hwr.
  rewrite (@persist_start args mime td w s c Hcfg Hc), Hanchor. cbv zeta.
  fold targetDir. fold savedPath.
  unfold bind, mkdir, writeFile, console_line, ret.
  destruct (fs_existsSync w targetDir) eqn:Hex; cbn [negb].
  - rewrite Hwr. eexists. split; [reflexivity |]. simpl.
    rewrite app_nil_r. repeat split.
  - destruct Hdir as [Hd | Hmk]; [discriminate |]. rewrite Hmk. simpl. rewrite Hwr.
    eexists. split; [reflexivity |]. repeat split.
Qed.

(** X12. In [unnamed/part_003], once text has been retrieved and a configId
    asks for it to be saved: when a [runtime] directory is found, the target
    directory exists or can be created and the write is accepted, the
    handler returns Success whose structuredContent carries the retrieved
    textData and, as savedPath, the path of the file; that file, with the
    retrieved text, is the one thing written, the target directory is
    created only when it did not exist, and no further request is sent. *)
Theorem persistence_saves_the_text
    (cfg : ServerConfig) (args : getContent_part_002.Args) (request : RequestContext)
    (w : World) (r : Resolved) (s1 s2 : State) (t c : string)
    (runtimeDir : Path) (mime : JsVal) :
  let cid := getContent_part_002.contentId args in
  let targetDir :=
    getContent_part_003.path_join runtimeDir
      (getContent_part_003.category_name args ++ "File_" ++ c) in
  let savedPath :=
    getContent_part_003.path_join targetDir (cid ++ getContent_part_003.extension mime) in
  resolve cfg request cid w init = (inr (inr r), s1) ->
  getContent_part_002.retrieve_text cfg request cid r w s1 = (inr (inr (JStr t)), s2) ->
  getContent_part_002.configId args = Some c ->
  c <> "" ->
  getContent_part_003.findRuntimeDir (fs_isDirectory w) (module_dir w) = Some runtimeDir ->
  js_get (contentRecord r) "mimeTypeId" = inr mime ->
  fs_existsSync w targetDir = true \/ fs_mkdir w targetDir = None ->
  fs_writeFile w savedPath (JStr t) = None ->
  exists res s',
    run (getContent_part_003.handler cfg args request) w = (inr res, s')
    /\ is_success res
    /\ structured_field res "textData" = Some (JStr t)
    /\ structured_field res "savedPath"
       = Some (JStr (getContent_part_003.path_string savedPath))
    /\ written s' = (written s2 ++ [(savedPath, JStr t)])%list
    /\ made_dirs s'
       = (made_dirs s2 ++ (if fs_existsSync w targetDir then [] else [targetDir]))%list
    /\ requests s' = requests s2.
Proof.
  intros cid targetDir savedPath Hres Hrt Hcfg Hc Hanchor Hmime Hdir Hwr.
  assert (Ht : truthy (JStr t) = true) by (eapply retrieve_text_truthy; exact Hrt).
  destruct (@persist_succeeds args mime (JStr t) w s2 c runtimeDir Hcfg Hc Hanchor
              Hdir Hwr) as (s' & Ep & Hw & Hd & Hq).
  unfold run, getContent_part_003.handler.
  erewrite try_catch_bind_inr by exact Hres. cbv beta iota.
  erewrite try_catch_bind_inr by exact Hrt. cbv beta iota.
  erewrite try_catch_run_inr
    by (erewrite bind_lift_run by exact Hmime;
        erewrite bind_run_inr by exact Ep; reflexivity).
  eexists _, _. split; [reflexivity |].
  split; [apply success_result_is_success; discriminate |].
  split; [simpl; rewrite (@js_or_truthy (JStr t) JUndef Ht); reflexivity |].
  split; [reflexivity |].
  split; [exact Hw |]. split; [exact Hd | exact Hq].
Qed.

End Saving.

(** ** Which invocations touch the file system *)

Section Files.
Context {builtins : JsBuiltins}.

Lemma keeps_files_ret {A} (a : A) : keeps_files (ret a).
Proof. intros w s. split; reflexivity. Qed.

Lemma keeps_files_throw {A} (e : Exn) : keeps_files (@throw A e).
Proof. intros w s. split; reflexivity. Qed.

Lemma keeps_files_lift {A} (r : Exn + A) : keeps_files (lift r).
Proof. destruct r; [apply keeps_files_throw | apply keeps_files_ret]. Qed.

Lemma keeps_files_console_line (line : string) : keeps_files (console_line line).
Proof. intros w s. split; reflexivity. Qed.

Lemma keeps_files_ask {A} (f : World -> A) : keeps_files (ask f).
Proof. intros w s. split; reflexivity. Qed.

Lemma keeps_files_fetch (rq : Request) : keeps_files (fetch rq).
Proof.
  intros w s. unfold fetch. destruct (backend w (requests s) rq); split; reflexivity.
Qed.

Lemma keeps_files_bind {A B} (m : M A) (f : A -> M B) :
  keeps_files m -> (forall a, keeps_files (f a)) -> keeps_files (bind m f).
Proof.
  intros Hm Hf w s. unfold bind. destruct (Hm w s) as (D1 & W1).
  destruct (m w s) as [[e | a] s']; simpl in *; [split; assumption |].
  destruct (Hf a w s') as (D2 & W2). rewrite D2, W2. split; assumption.
Qed.

Lemma keeps_files_try_catch {A} (m : M A) (h : Exn -> M A) :
  keeps_files m -> (forall e, keeps_files (h e)) -> keeps_files (try_catch m h).
Proof.
  intros Hm Hh w s. unfold try_catch. destruct (Hm w s) as (D1 & W1).
  destruct (m w s) as [[e | a] s']; simpl in *; [| split; assumption].
  destruct (Hh e w s') as (D2 & W2). rewrite D2, W2. split; assumption.
Qed.

Ltac keeps_step :=
  lazymatch goal with
  | |- keeps_files (bind _ _) => apply keeps_files_bind; intros
  | |- keeps_files (ret _) => apply keeps_files_ret
  | |- keeps_files (throw _) => apply keeps_files_throw
  | |- keeps_files (lift _) => apply keeps_files_lift
  | |- keeps_files (console_line _) => apply keeps_files_console_line
  | |- keeps_files (ask _) => apply keeps_files_ask
  | |- keeps_files (fetch _) => apply keeps_files_fetch
  | |- keeps_files (try_catch _ _) => apply keeps_files_try_catch; intros
  | |- keeps_files (if ?b then _ else _) => destruct b
  | |- keeps_files (match ?x with _ => _ end) => destruct x
  | |- keeps_files (let _ := _ in _) => cbv zeta
  end.

Lemma keeps_files_visit_links cfg args request links : forall tasks,
  keeps_files (findOrderTasks_linked.visit_links cfg args request tasks links).
Proof.
  induction links as [| link rest IH]; intros tasks; simpl.
  - apply keeps_files_ret.
  - apply keeps_files_bind; [| intros; apply IH].
    repeat first [ progress autounfold with handlers | keeps_step ].
Qed.

Lemma keeps_files_invoke cfg call request :
  saves call = false -> keeps_files (invoke cfg call request).
Proof.
  destruct call; simpl; intros H;
    try solve [ repeat first [ apply keeps_files_visit_links
                             | progress autounfold with handlers
                             | keeps_step ] ].
  unfold getContent_part_003.handler, getContent_part_003.persist,
    getContent_part_003.configId.
  destruct (getContent_part_002.configId args) as [c |]; simpl in H.
  - apply negb_false_iff in H. rewrite H.
    repeat first [ progress autounfold with handlers | keeps_step ].
  - repeat first [ progress autounfold with handlers | keeps_step ].
Qed.

End Files.

(** X13. Only getContent asked to save (the [unnamed/part_003] source, with
    a non-empty configId) touches the file system: every other invocation,
    of any tool and against any backend, creates no directory and writes no
    file. *)
Theorem only_saving_touches_files {builtins : JsBuiltins}
    (cfg : ServerConfig) (call : ToolCall) (request : RequestContext) (w : World) :
  saves call = false ->
  made_dirs (snd (run (invoke cfg call request) w)) = []
  /\ written (snd (run (invoke cfg call request) w)) = [].
Proof.
  intros H. apply (@keeps_files_invoke builtins cfg call request H w init).
Qed.

Lemma only_saving_touches_files_witness :
  made_dirs (snd (run (@invoke plain_builtins cfg_static (call_getContent_part_003 args_C1)
                         request_delegated) world_saves)) = []
  /\ written (snd (run (@invoke plain_builtins cfg_static (call_getContent_part_003 args_C1)
                          request_delegated) world_saves)) = [].
Proof.
  apply (@only_saving_touches_files plain_builtins cfg_static
           (call_getContent_part_003 args_C1) request_delegated world_saves).
  reflexivity.
Defined.

Section SavingRuns.
Import getContentCommon.

#[local] Existing Instance plain_builtins.

Lemma persistence_saves_the_text_witness :
  exists res s',
    run (@getContent_part_003.handler plain_builtins cfg_static args_C1_saved
           request_delegated) world_saves = (inr res, s')
    /\ is_success res
    /\ structured_field res "savedPath"
       = Some (JStr "/srv/app/runtime/errorFile_IMP_SAPI_ORDER/C1.csv")
    /\ written s'
       = [(["srv"; "app"; "runtime"; "errorFile_IMP_SAPI_ORDER"; "C1.csv"], JStr "hello")].
Proof.
  destruct (@persistence_saves_the_text plain_builtins cfg_static args_C1_saved
              request_delegated world_saves (resolved_D1 "ELECTRONIC_TEXT")
              (snd (@resolve plain_builtins cfg_static request_delegated "C1"
                      world_saves init))
              (snd (@getContent_part_002.retrieve_text plain_builtins cfg_static
                      request_delegated "C1" (resolved_D1 "ELECTRONIC_TEXT") world_saves
                      (snd (@resolve plain_builtins cfg_static request_delegated "C1"
                              world_saves init))))
              "hello" "IMP_SAPI_ORDER" ["srv"; "app"; "runtime"] (JStr "text/csv"))
    as (res & s' & Hrun & Hsucc & _ & Hpath & Hw & _).
  - vm_compute. reflexivity.
  - vm_compute. reflexivity.
  - reflexivity.
  - discriminate.
  - vm_compute. reflexivity.
  - reflexivity.
  - right. reflexivity.
  - reflexivity.
  - exists res, s'. split; [exact Hrun |]. split; [exact Hsucc |].
    split; [exact Hpath | exact Hw].
Defined.

End SavingRuns.

(** ** The first request and its failure *)

Section FirstRequestRules.
Context {builtins : JsBuiltins}.

Lemma starts_by_fetch (rq : Request) : starts_by rq (fetch rq).
Proof.
  intros w s. exists []. unfold fetch. destruct (backend w (requests s) rq); reflexivity.
Qed.

Lemma starts_by_bind {A B} rq (m : M A) (f : A -> M B) :
  starts_by rq m -> (forall a, trace (fun _ => True) (f a)) -> starts_by rq (bind m f).
Proof.
  intros Hm Hf w s. unfold bind. destruct (Hm w s) as (l1 & E1).
  destruct (m w s) as [[e | a] s']; simpl in *.
  - exists l1. exact E1.
  - destruct (Hf a w s') as (l2 & E2 & _). exists (l1 ++ l2)%list.
    rewrite E2, E1, <- app_assoc. reflexivity.
Qed.

Lemma starts_by_bind_console {B} rq (line : string) (f : unit -> M B) :
  starts_by rq (f tt) -> starts_by rq (bind (console_line line) f).
Proof. intros H w s. rewrite bind_console_run. apply (H w (logged s line)). Qed.

Lemma starts_by_try_catch {A} rq (m : M A) (h : Exn -> M A) :
  starts_by rq m -> (forall e, trace (fun _ => True) (h e)) -> starts_by rq (try_catch m h).
Proof.
  intros Hm Hf w s. unfold try_catch. destruct (Hm w s) as (l1 & E1).
  destruct (m w s) as [[e | a] s']; simpl in *.
  - destruct (Hf e w s') as (l2 & E2 & _). exists (l1 ++ l2)%list.
    rewrite E2, E1, <- app_assoc. reflexivity.
  - exists l1. exact E1.
Qed.

Ltac whatever :=
  intros; trace_auto ltac:(apply trace_visit_links; intros; exact I) ltac:(exact I).

Ltac starts_auto :=
  repeat first
    [ apply starts_by_fetch
    | apply starts_by_try_catch; [| whatever]
    | apply starts_by_bind_console
    | apply starts_by_bind; [| whatever]
    | progress autounfold with handlers ].

Lemma invoke_starts_by cfg call request :
  rejected_input call = false ->
  starts_by (first_request cfg call request) (invoke cfg call request).
Proof.
  destruct call; simpl; intros Hin; autounfold with handlers;
    try rewrite Hin; try (destruct (findOrderHeader.inputFields args); [discriminate |]);
    cbv zeta; starts_auto.
Qed.

Lemma bind_fetch_rejected {B} rq (f : Response -> M B) w s e :
  backend w (requests s) rq = Rejected e -> bind (fetch rq) f w s = (inl e, sent s rq).
Proof. intros H. unfold bind, fetch. rewrite H. reflexivity. Qed.

Lemma catch_plain_reports label e w s :
  exists res s',
    catch_plain label e w s = (inr res, s')
    /\ is_error res
    /\ (forall msg, e = JsErr msg -> mentions res msg)
    /\ requests s' = requests s.
Proof.
  eexists _, _. split; [reflexivity |]. split.
  - repeat split; simpl; discriminate || reflexivity.
  - split; [| reflexivity]. intros msg ->.
    eexists _, _. split; [left; reflexivity |]. split; [reflexivity |].
    apply includes_suffix.
Qed.

Lemma catch_debug_reports rq b label prefix fb e w s :
  exists res s',
    catch_debug rq b label prefix fb e w s = (inr res, s')
    /\ is_error res
    /\ (forall msg, e = JsErr msg -> mentions res msg)
    /\ requests s' = requests s.
Proof.
  eexists _, _. split; [reflexivity |]. split.
  - repeat split; simpl; discriminate || reflexivity.
  - split; [| reflexivity]. intros msg ->.
    eexists _, _. split; [right; left; reflexivity |]. split; [reflexivity |].
    apply includes_suffix.
Qed.

Lemma catch_plain_reports_suffix label pre sub w s :
  exists res s',
    catch_plain label (JsErr (pre ++ sub)) w s = (inr res, s')
    /\ is_error res /\ mentions res sub /\ requests s' = requests s.
Proof.
  destruct (catch_plain_mentions label pre sub w s) as (res & s' & E & He & Hm).
  exists res, s'. repeat split; try assumption; try apply He.
  unfold catch_plain in E. rewrite bind_console_run in E. injection E as _ <-. reflexivity.
Qed.

Lemma catch_debug_reports_suffix rq b label prefix fb pre sub w s :
  exists res s',
    catch_debug rq b label prefix fb (JsErr (pre ++ sub)) w s = (inr res, s')
    /\ is_error res /\ mentions res sub /\ requests s' = requests s.
Proof.
  destruct (catch_debug_mentions rq b label prefix fb pre sub w s)
    as (res & s' & E & He & Hm).
  exists res, s'. repeat split; try assumption; try apply He.
  unfold catch_debug in E. rewrite bind_console_run in E. injection E as _ <-. reflexivity.
Qed.

Lemma catch_plain_ends label pre sub w s sent_so_far :
  requests s = sent_so_far ->
  exists res s',
    catch_plain label (JsErr (pre ++ sub)) w s = (inr res, s')
    /\ is_error res /\ mentions res sub /\ requests s' = sent_so_far.
Proof. intros <-. apply catch_plain_reports_suffix. Qed.

Lemma catch_debug_ends rq b label prefix fb pre sub w s sent_so_far :
  requests s = sent_so_far ->
  exists res s',
    catch_debug rq b label prefix fb (JsErr (pre ++ sub)) w s = (inr res, s')
    /\ is_error res /\ mentions res sub /\ requests s' = sent_so_far.
Proof. intros <-. apply catch_debug_reports_suffix. Qed.

Section FirstAnswer.
Variables (cfg : ServerConfig) (call : ToolCall) (request : RequestContext) (w : World).
Hypothesis accepted : rejected_input call = false.

Section Refused.
Variable e : Exn.
Hypothesis refused : backend w [] (first_request cfg call request) = Rejected e.

Ltac refused_eval :=
  repeat rewrite bind_console_run;
  erewrite bind_fetch_rejected by exact refused; reflexivity.

Ltac refused_debug :=
  cbv zeta; erewrite try_catch_run_inl by refused_eval;
  match goal with
  | |- exists res s', catch_debug ?rq ?b ?l ?p ?fb ?e0 ?w0 ?s0 = _ /\ _ =>
      destruct (catch_debug_reports rq b l p fb e0 w0 s0)
        as (res & s' & E & He & Hm & Hq);
      exists res, s'; split; [exact E |]; split; [exact He |];
      split; [exact Hm | rewrite Hq; reflexivity]
  end.

Ltac refused_plain_with ev :=
  cbv zeta; erewrite try_catch_run_inl by ev;
  match goal with
  | |- exists res s', catch_plain ?l ?e0 ?w0 ?s0 = _ /\ _ =>
      destruct (catch_plain_reports l e0 w0 s0)
        as (res & s' & E & He & Hm & Hq);
      exists res, s'; split; [exact E |]; split; [exact He |];
      split; [exact Hm | rewrite Hq; reflexivity]
  end.

Ltac refused_plain := refused_plain_with refused_eval.

Ltac refused_content :=
  refused_plain_with
    ltac:(apply bind_run_inl; unfold getContentCommon.resolve; refused_eval).

Lemma refused_is_reported :
  exists res s',
    run (invoke cfg call request) w = (inr res, s')
    /\ is_error res
    /\ (forall msg, e = JsErr msg -> mentions res msg)
    /\ requests s' = [first_request cfg call request].
Proof.
  revert accepted refused.
  destruct call; simpl rejected_input; simpl first_request; simpl invoke;
    intros accepted refused; unfold run.
  - unfold getLogById.handler. refused_debug.
  - unfold getLogConfig.handler. refused_debug.
  - unfold listRecentErrors.handler. refused_debug.
  - unfold findPickProfileGroups.handler. refused_debug.
  - unfold retryFailedRecord.handler. refused_debug.
  - unfold findDataManagerLogs.handler. refused_debug.
  - unfold uploadFileToConfig.handler. refused_plain.
  - unfold findOrderItems.handler. rewrite accepted. refused_plain.
  - unfold findOrderHeader.handler.
    destruct (findOrderHeader.inputFields args); [discriminate |]. refused_plain.
  - unfold findOrderTasks.handler. refused_plain.
  - unfold findOrderTasks_linked.handler. refused_plain.
  - unfold findProductById.handler. refused_plain.
  - unfold getImportSapiOrderConfig.handler. refused_plain.
  - unfold getContent.handler. refused_content.
  - unfold getContent_part_002.handler. refused_content.
  - unfold getContent_part_003.handler. refused_content.
Qed.

End Refused.

Section NotOk.
Variable resp : Response.
Hypothesis answered : backend w [] (first_request cfg call request) = Responded resp.
Hypothesis not_ok : ok resp = false.
Hypothesis checked : status_checked call = true.

Ltac not_ok_eval :=
  repeat rewrite bind_console_run;
  erewrite bind_fetch_run by exact answered;
  repeat rewrite bind_console_run;
  rewrite not_ok; reflexivity.

Ltac not_ok_debug :=
  cbv zeta; erewrite try_catch_run_inl by not_ok_eval;
  apply catch_debug_ends; reflexivity.

Ltac not_ok_plain_with ev :=
  cbv zeta; erewrite try_catch_run_inl by ev;
  apply catch_plain_ends; reflexivity.

Ltac not_ok_plain := not_ok_plain_with not_ok_eval.

Ltac not_ok_content :=
  not_ok_plain_with
    ltac:(apply bind_run_inl; unfold getContentCommon.resolve; not_ok_eval).

Lemma not_ok_is_reported :
  exists res s',
    run (invoke cfg call request) w = (inr res, s')
    /\ is_error res
    /\ mentions res (string_of_Z (status resp))
    /\ requests s' = [first_request cfg call request].
Proof.
  revert accepted answered checked.
  destruct call; simpl rejected_input; simpl first_request; simpl invoke;
    simpl status_checked; intros accepted answered checked;
    try discriminate checked; unfold run.
  - unfold getLogById.handler. not_ok_debug.
  - unfold getLogConfig.handler. not_ok_debug.
  - unfold listRecentErrors.handler. not_ok_debug.
  - unfold findPickProfileGroups.handler. not_ok_debug.
  - unfold retryFailedRecord.handler. not_ok_debug.
  - unfold findDataManagerLogs.handler. not_ok_debug.
  - unfold findOrderItems.handler. rewrite accepted. not_ok_plain.
  - unfold findOrderHeader.handler.
    destruct (findOrderHeader.inputFields args); [discriminate |]. not_ok_plain.
  - unfold findOrderTasks.handler. not_ok_plain.
  - unfold findOrderTasks_linked.handler. not_ok_plain.
  - unfold getImportSapiOrderConfig.handler. not_ok_plain.
  - unfold getContent.handler. not_ok_content.
  - unfold getContent_part_002.handler. not_ok_content.
  - unfold getContent_part_003.handler. not_ok_content.
Qed.

End NotOk.
End FirstAnswer.

End FirstRequestRules.

(** X14. Unless the handler refuses its input, the first request of an
    invocation is fixed by the tool, its arguments, the configuration and
    the request context: whatever the backend and the file system do, the
    request log starts with it. *)
Theorem first_request_is_fixed {builtins : JsBuiltins}
    (cfg : ServerConfig) (call : ToolCall) (request : RequestContext) (w : World) :
  rejected_input call = false ->
  exists more,
    requests (snd (run (invoke cfg call request) w))
    = first_request cfg call request :: more.
Proof.
  intros H. destruct (@invoke_starts_by builtins cfg call request H w init) as (more & E).
  exists more. exact E.
Qed.

Lemma first_request_is_fixed_witness :
  exists more,
    requests (snd (run (@invoke plain_builtins cfg_static (call_findProductById args_P1)
                          request_delegated) world_http_500))
    = @first_request plain_builtins cfg_static (call_findProductById args_P1)
        request_delegated :: more.
Proof.
  apply (@first_request_is_fixed plain_builtins cfg_static (call_findProductById args_P1)
           request_delegated world_http_500).
  reflexivity.
Defined.

(** X15. When the first request of an invocation cannot be delivered (the
    [fetch] call rejects), every handler returns the Error variant; when the
    rejection is an [Error], its message is part of the reported text; and
    no further request is sent, so nothing is retried. *)
Theorem transport_failure_is_reported {builtins : JsBuiltins}
    (cfg : ServerConfig) (call : ToolCall) (request : RequestContext) (w : World)
    (e : Exn) :
  rejected_input call = false ->
  backend w [] (first_request cfg call request) = Rejected e ->
  exists res s',
    run (invoke cfg call request) w = (inr res, s')
    /\ is_error res
    /\ (forall msg, e = JsErr msg -> mentions res msg)
    /\ requests s' = [first_request cfg call request].
Proof. intros H1 H2. exact (@refused_is_reported builtins cfg call request w H1 e H2). Qed.

Lemma transport_failure_is_reported_witness :
  exists res s',
    run (@invoke plain_builtins cfg_static
           (call_uploadFileToConfig {| uploadFileToConfig.configId := "IMP_SAPI_ORDER";
                                       uploadFileToConfig.file := "a,b";
                                       uploadFileToConfig.fileName := "orders.csv" |})
           request_delegated) world_unreachable = (inr res, s')
    /\ is_error res
    /\ mentions res "connect ECONNREFUSED 10.0.0.7:443".
Proof.
  destruct (@transport_failure_is_reported plain_builtins cfg_static
              (call_uploadFileToConfig {| uploadFileToConfig.configId := "IMP_SAPI_ORDER";
                                          uploadFileToConfig.file := "a,b";
                                          uploadFileToConfig.fileName := "orders.csv" |})
              request_delegated world_unreachable
              (JsErr "connect ECONNREFUSED 10.0.0.7:443"))
    as (res & s' & Hrun & Herr & Hm & _).
  - reflexivity.
  - reflexivity.
  - exists res, s'. split; [exact Hrun |]. split; [exact Herr |].
    apply Hm. reflexivity.
Defined.

(** X16. In every tool that checks [response.ok] after its first query (all
    but findProductById and uploadFileToConfig), a non-success status of the
    first answer ends the invocation: the handler returns the Error variant,
    whose text contains the status code, and the first request is the only
    one sent. *)
Theorem failed_status_ends_the_invocation {builtins : JsBuiltins}
    (cfg : ServerConfig) (call : ToolCall) (request : RequestContext) (w : World)
    (resp : Response) :
  status_checked call = true ->
  rejected_input call = false ->
  backend w [] (first_request cfg call request) = Responded resp ->
  ok resp = false ->
  exists res s',
    run (invoke cfg call request) w = (inr res, s')
    /\ is_error res
    /\ mentions res (string_of_Z (status resp))
    /\ requests s' = [first_request cfg call request].
Proof.
  intros H1 H2 H3 H4.
  exact (@not_ok_is_reported builtins cfg call request w H2 resp H3 H4 H1).
Qed.

Lemma failed_status_ends_the_invocation_witness :
  exists res s',
    run (@invoke plain_builtins cfg_static
           (call_findOrderTasks_linked {| findOrderTasks_linked.orderId := "1001";
                                          findOrderTasks_linked.workEffortTypeId := None |})
           request_delegated) world_http_500 = (inr res, s')
    /\ is_error res
    /\ mentions res "500".
Proof.
  destruct (@failed_status_ends_the_invocation plain_builtins cfg_static
              (call_findOrderTasks_linked
                 {| findOrderTasks_linked.orderId := "1001";
                    findOrderTasks_linked.workEffortTypeId := None |})
              request_delegated world_http_500
              (response_500 (JObj [("errorMessage", JStr "Internal Server Error")])))
    as (res & s' & Hrun & Herr & Hm & _).
  - reflexivity.
  - reflexivity.
  - reflexivity.
  - reflexivity.
  - exists res, s'. split; [exact Hrun |]. split; [exact Herr | exact Hm].
Defined.

(** ** Answers of the backend, tool by tool *)

Section Upload.
Context {builtins : JsBuiltins}.
Variables (cfg : ServerConfig) (args : uploadFileToConfig.Args)
  (request : RequestContext) (w : World) (resp : Response).
Let rq := uploadFileToConfig.upload_request cfg args request.
Hypothesis answered : backend w [] rq = Responded resp.




End Upload.





Section NoRows.
Context {builtins : JsBuiltins}.

Lemma zero_docs_or_empty docs :
  docs = JArr [] \/ truthy docs = false -> js_or docs (JArr []) = JArr [].
Proof. intros [-> | H]; [reflexivity |]. unfold js_or. rewrite H. reflexivity. Qed.

Lemma zero_docs_no_docs docs :
  docs = JArr [] \/ truthy docs = false -> no_docs docs = true.
Proof. intros [-> | H]; [reflexivity |]. unfold no_docs. rewrite H. reflexivity. Qed.

Variables (cfg : ServerConfig) (call : ToolCall) (request : RequestContext) (w : World)
  (resp : Response) (data docs : JsVal).
Hypothesis accepted : rejected_input call = false.
Hypothesis answered : backend w [] (first_request cfg call request) = Responded resp.
Hypothesis Hok : ok resp = true.
Hypothesis Hjson : body_json resp = inr data.
Hypothesis Hdocs : js_get data "docs" = inr docs.
Hypothesis Hzero : docs = JArr [] \/ truthy docs = false.

Ltac ok_step :=
  first
    [ rewrite bind_console_run
    | erewrite bind_fetch_run by exact answered
    | rewrite Hok; cbn [negb]
    | unfold response_json; erewrite bind_lift_run by exact Hjson
    | erewrite bind_run_inr by (apply docs_or_empty_run; exact Hdocs)
    | erewrite bind_lift_run by exact Hdocs
    | rewrite (zero_docs_or_empty Hzero)
    | rewrite (zero_docs_no_docs Hzero)
    | erewrite bind_lift_run by reflexivity ].

Ltac ok_eval := cbv zeta; apply try_catch_run_inr; repeat ok_step; reflexivity.

Lemma no_record_is_an_error msg :
  not_found_text call = Some msg ->
  exists s',
    run (invoke cfg call request) w = (inr (error_result [text_item msg]), s')
    /\ requests s' = [first_request cfg call request].
Proof.
  revert accepted answered.
  destruct call; simpl not_found_text; simpl rejected_input; simpl first_request;
    simpl invoke; intros accepted answered Hmsg; try discriminate Hmsg;
    injection Hmsg as <-; unfold run.
  - eexists. split; [unfold getLogById.handler; ok_eval | reflexivity].
  - eexists. split; [unfold getLogConfig.handler; ok_eval | reflexivity].
  - eexists. split; [unfold retryFailedRecord.handler; ok_eval | reflexivity].
  - unfold findOrderHeader.handler.
    destruct (findOrderHeader.inputFields args); [discriminate |].
    eexists. split; [ok_eval | reflexivity].
  - eexists. split; [unfold getImportSapiOrderConfig.handler; ok_eval | reflexivity].
Qed.

Lemma no_rows_is_an_empty_list key :
  list_key call = Some key ->
  exists res s',
    run (invoke cfg call request) w = (inr res, s')
    /\ is_success res
    /\ structured_field res key = Some (JArr [])
    /\ requests s' = [first_request cfg call request].
Proof.
  revert accepted answered.
  destruct call; simpl list_key; simpl rejected_input; simpl first_request;
    simpl invoke; intros accepted answered Hkey; try discriminate Hkey;
    injection Hkey as <-; unfold run; eexists _, _.
  - split; [unfold listRecentErrors.handler; ok_eval |].
    split; [apply success_result_is_success; discriminate |]. split; reflexivity.
  - split; [unfold findPickProfileGroups.handler; ok_eval |].
    split; [apply success_result_is_success; discriminate |]. split; reflexivity.
  - split; [unfold findDataManagerLogs.handler; ok_eval |].
    split; [apply success_result_is_success; discriminate |]. split; reflexivity.
  - split; [unfold findOrderItems.handler; rewrite accepted; ok_eval |].
    split; [apply success_result_is_success; discriminate |]. split; reflexivity.
  - split; [unfold findOrderTasks.handler; ok_eval |].
    split; [apply success_result_is_success; discriminate |]. split; reflexivity.
  - split; [unfold findOrderTasks_linked.handler; ok_eval |].
    split; [apply success_result_is_success; discriminate |]. split; reflexivity.
Qed.

End NoRows.

(** X19. The tools that look up one record (getLogById, getLogConfig,
    retryFailedRecord, findOrderHeader, getImportSapiOrderConfig) treat an
    answer with a success status and zero docs (an empty list, or no docs) as
    a failure: they return the Error variant with their not-found message
    as its one text item, after the one request. *)
Theorem missing_record_is_an_error {builtins : JsBuiltins}
    (cfg : ServerConfig) (call : ToolCall) (request : RequestContext) (w : World)
    (resp : Response) (data docs : JsVal) (msg : string) :
  not_found_text call = Some msg ->
  rejected_input call = false ->
  backend w [] (first_request cfg call request) = Responded resp ->
  ok resp = true ->
  body_json resp = inr data ->
  js_get data "docs" = inr docs ->
  docs = JArr [] \/ truthy docs = false ->
  exists res s',
    run (invoke cfg call request) w = (inr res, s')
    /\ res = error_result [text_item msg]
    /\ is_error res
    /\ requests s' = [first_request cfg call request].
Proof.
  intros Hmsg Hin Hb Hok Hj Hd Hz.
  destruct (@no_record_is_an_error builtins cfg call request w resp data docs
              Hin Hb Hok Hj Hd Hz msg Hmsg) as (s' & Hrun & Hreq).
  eexists _, s'. split; [exact Hrun |]. split; [reflexivity |].
  split; [repeat split; simpl; discriminate || reflexivity | exact Hreq].
Qed.

Lemma missing_record_is_an_error_witness :
  exists res s',
    run (@invoke plain_builtins cfg_static
           (call_getLogConfig {| getLogConfig.configId := "IMP_SAPI_ORDER" |})
           request_delegated) (constant_world (json_response 200 no_rows))
    = (inr res, s')
    /\ res = error_result [text_item "Config IMP_SAPI_ORDER not found."]
    /\ is_error res.
Proof.
  destruct (@missing_record_is_an_error plain_builtins cfg_static
              (call_getLogConfig {| getLogConfig.configId := "IMP_SAPI_ORDER" |})
              request_delegated (constant_world (json_response 200 no_rows))
              (answer_200 no_rows) no_rows (JArr [])
              "Config IMP_SAPI_ORDER not found.")
    as (res & s' & Hrun & Hres & Herr & _);
    try reflexivity.
  - left. reflexivity.
  - exists res, s'. split; [exact Hrun |]. split; [exact Hres | exact Herr].
Defined.

(** X20. The tools that return a list (listRecentErrors,
    findPickProfileGroups, findDataManagerLogs, findOrderItems and both
    findOrderTasks) treat an answer with a success status and zero docs as
    an empty result, not as a failure: they return Success with the empty
    list under their key of structuredContent, after the one request. *)
Theorem empty_answer_is_an_empty_list {builtins : JsBuiltins}
    (cfg : ServerConfig) (call : ToolCall) (request : RequestContext) (w : World)
    (resp : Response) (data docs : JsVal) (key : string) :
  list_key call = Some key ->
  rejected_input call = false ->
  backend w [] (first_request cfg call request) = Responded resp ->
  ok resp = true ->
  body_json resp = inr data ->
  js_get data "docs" = inr docs ->
  docs = JArr [] \/ truthy docs = false ->
  exists res s',
    run (invoke cfg call request) w = (inr res, s')
    /\ is_success res
    /\ structured_field res key = Some (JArr [])
    /\ requests s' = [first_request cfg call request].
Proof.
  intros Hkey Hin Hb Hok Hj Hd Hz.
  exact (@no_rows_is_an_empty_list builtins cfg call request w resp data docs
           Hin Hb Hok Hj Hd Hz key Hkey).
Qed.

Lemma empty_answer_is_an_empty_list_witness :
  exists res s',
    run (@invoke plain_builtins cfg_static
           (call_listRecentErrors {| listRecentErrors.limit := None;
                                     listRecentErrors.configId := None |})
           request_delegated) (constant_world (json_response 200 (JObj [])))
    = (inr res, s')
    /\ is_success res
    /\ structured_field res "logs" = Some (JArr []).
Proof.
  destruct (@empty_answer_is_an_empty_list plain_builtins cfg_static
              (call_listRecentErrors {| listRecentErrors.limit := None;
                                        listRecentErrors.configId := None |})
              request_delegated (constant_world (json_response 200 (JObj [])))
              (answer_200 (JObj [])) (JObj []) JUndef "logs")
    as (res & s' & Hrun & Hsucc & Hfield & _);
    try reflexivity.
  - right. reflexivity.
  - exists res, s'. split; [exact Hrun |]. split; [exact Hsucc | exact Hfield].
Defined.

(** ** Rows of the backend and entries of the result *)

Section Rows.
Context {builtins : JsBuiltins}.

Lemma project_object (props : list (string * JsVal)) (fields : list Proj) :
  exists l, project (JObj props) fields = inr l.
Proof.
  induction fields as [| p rest IH]; simpl; [eexists; reflexivity |].
  destruct IH as (l & ->). destruct p; eexists; reflexivity.
Qed.

Lemma entry_of_object (fields : list Proj) (row : JsVal) :
  is_object row = true -> exists entry, entry_of fields row = inr entry.
Proof.
  destruct row as [| | b | n | t | l | props]; try discriminate. intros _.
  unfold entry_of. destruct (project_object props fields) as (l' & ->).
  eexists; reflexivity.
Qed.

Lemma entry_of_nothing (fields : list Proj) (row : JsVal) :
  fields <> [] -> row = JNull \/ row = JUndef -> exists e, entry_of fields row = inl e.
Proof.
  intros Hf Hr. destruct fields as [| p rest]; [contradiction |].
  unfold entry_of. destruct Hr as [-> | ->]; destruct p; simpl; eexists; reflexivity.
Qed.

Lemma map_exn_total {A B} (f : A -> Exn + B) (l : list A) :
  (forall x, In x l -> exists y, f x = inr y) ->
  exists ys, map_exn f l = inr ys /\ Forall2 (fun x y => f x = inr y) l ys.
Proof.
  induction l as [| x r IH]; intros H; simpl.
  - exists []. split; [reflexivity | constructor].
  - destruct (H x (or_introl eq_refl)) as (y & Hy).
    destruct IH as (ys & E & F); [intros z Hz; apply H; right; exact Hz |].
    rewrite Hy, E. exists (y :: ys). split; [reflexivity |].
    constructor; assumption.
Qed.

Lemma map_exn_fails {A B} (f : A -> Exn + B) (l : list A) (x : A) :
  In x l -> (exists e, f x = inl e) -> exists e, map_exn f l = inl e.
Proof.
  induction l as [| z r IH]; intros Hin Hx; [contradiction |]. simpl.
  destruct (f z) as [e | y] eqn:E; [eexists; reflexivity |].
  destruct Hin as [-> | Hin].
  - destruct Hx as (e & He). congruence.
  - destruct (IH Hin Hx) as (e & ->). eexists; reflexivity.
Qed.

Section Listing.
Variables (cfg : ServerConfig) (call : ToolCall) (request : RequestContext) (w : World)
  (resp : Response) (data : JsVal) (rows : list JsVal).
Hypothesis accepted : rejected_input call = false.
Hypothesis answered : backend w [] (first_request cfg call request) = Responded resp.
Hypothesis Hok : ok resp = true.
Hypothesis Hjson : body_json resp = inr data.
Hypothesis Hdocs : js_get data "docs" = inr (JArr rows).

Ltac rows_step :=
  first
    [ rewrite bind_console_run
    | erewrite bind_fetch_run by exact answered
    | rewrite Hok; cbn [negb]
    | unfold response_json; erewrite bind_lift_run by exact Hjson
    | erewrite bind_run_inr by (apply docs_or_empty_run; exact Hdocs)
    | erewrite bind_lift_run by reflexivity ].

Ltac rows_eval := cbv zeta; repeat rows_step.

Lemma bind_lift_thrown {A B} (x : Exn + A) (f : A -> M B) w0 s e :
  x = inl e -> bind (lift x) f w0 s = (inl e, s).
Proof. intros ->. reflexivity. Qed.

Lemma rows_are_copied fields key :
  row_fields call = Some fields ->
  list_key call = Some key ->
  forallb is_object rows = true ->
  exists res s' entries,
    run (invoke cfg call request) w = (inr res, s')
    /\ is_success res
    /\ structured_field res key = Some (JArr entries)
    /\ Forall2 (fun row entry => entry_of fields row = inr entry) rows entries
    /\ requests s' = [first_request cfg call request].
Proof.
  intros Hf Hk Hrows.
  destruct (@map_exn_total _ _ (entry_of fields) rows) as (entries & E & F).
  { intros x Hx. apply entry_of_object.
    rewrite forallb_forall in Hrows. apply Hrows, Hx. }
  revert accepted answered Hf Hk.
  destruct call; simpl row_fields; simpl list_key; simpl rejected_input;
    simpl first_request; simpl invoke; intros accepted answered Hf Hk;
    try discriminate Hf; injection Hf as <-; injection Hk as <-; unfold run;
    eexists _, _, entries.
  - split; [unfold findDataManagerLogs.handler; cbv zeta; apply try_catch_run_inr;
            rows_eval; erewrite bind_lift_run by exact E; reflexivity |].
    split; [apply success_result_is_success; discriminate |].
    split; [reflexivity |]. split; [exact F | reflexivity].
  - split; [unfold findOrderItems.handler; rewrite accepted; apply try_catch_run_inr;
            rows_eval; erewrite bind_lift_run by exact E; reflexivity |].
    split; [apply success_result_is_success; discriminate |].
    split; [reflexivity |]. split; [exact F | reflexivity].
  - split; [unfold findOrderTasks.handler; apply try_catch_run_inr;
            rows_eval; erewrite bind_lift_run by exact E; reflexivity |].
    split; [apply success_result_is_success; discriminate |].
    split; [reflexivity |]. split; [exact F | reflexivity].
Qed.

Lemma missing_row_fails fields :
  row_fields call = Some fields ->
  In JNull rows \/ In JUndef rows ->
  exists res s',
    run (invoke cfg call request) w = (inr res, s')
    /\ is_error res
    /\ requests s' = [first_request cfg call request].
Proof.
  intros Hf Hrow.
  assert (Hthrown : exists e, map_exn (entry_of fields) rows = inl e).
  { assert (Hne : fields <> []).
    { destruct call; simpl in Hf; try discriminate Hf; injection Hf as <-;
        discriminate. }
    destruct Hrow as [Hin | Hin]; eapply map_exn_fails; try exact Hin;
      apply entry_of_nothing; auto. }
  destruct Hthrown as (e & E).
  revert accepted answered Hf.
  destruct call; simpl row_fields; simpl rejected_input;
    simpl first_request; simpl invoke; intros accepted answered Hf;
    try discriminate Hf; injection Hf as <-; unfold run.
  - unfold findDataManagerLogs.handler. cbv zeta.
    erewrite try_catch_run_inl
      by (rows_eval; erewrite bind_lift_thrown by exact E; reflexivity).
    match goal with
    | |- exists res s', catch_debug ?rq ?b ?l ?p ?fb ?e0 ?w0 ?s0 = _ /\ _ =>
        destruct (catch_debug_reports rq b l p fb e0 w0 s0)
          as (res & s' & Ec & He & _ & Hq)
    end.
    exists res, s'. split; [exact Ec |]. split; [exact He |]. rewrite Hq. reflexivity.
  - unfold findOrderItems.handler. rewrite accepted.
    erewrite try_catch_run_inl
      by (rows_eval; erewrite bind_lift_thrown by exact E; reflexivity).
    match goal with
    | |- exists res s', catch_plain ?l ?e0 ?w0 ?s0 = _ /\ _ =>
        destruct (catch_plain_reports l e0 w0 s0) as (res & s' & Ec & He & _ & Hq)
    end.
    exists res, s'. split; [exact Ec |]. split; [exact He |]. rewrite Hq. reflexivity.
  - unfold findOrderTasks.handler.
    erewrite try_catch_run_inl
      by (rows_eval; erewrite bind_lift_thrown by exact E; reflexivity).
    match goal with
    | |- exists res s', catch_plain ?l ?e0 ?w0 ?s0 = _ /\ _ =>
        destruct (catch_plain_reports l e0 w0 s0) as (res & s' & Ec & He & _ & Hq)
    end.
    exists res, s'. split; [exact Ec |]. split; [exact He |]. rewrite Hq. reflexivity.
Qed.

End Listing.

Lemma is_failed_plain (row : JsVal) :
  plain_log_row row = true ->
  listRecentErrors.is_failed row = inr (reports_failure row).
Proof.
  destruct row as [| | b | n | t | l | props]; try discriminate.
  unfold plain_log_row, listRecentErrors.is_failed, reports_failure.
  cbn [js_get]. cbv beta iota zeta.
  set (st := match assoc "statusId" props with Some x => x | None => JUndef end).
  destruct (js_strict_eq st (JStr "SERVICE_FAILED") || js_strict_eq st (JStr "SERVICE_CRASHED")
            || js_strict_eq st (JStr "DM_LOG_ERROR")); [reflexivity |].
  cbn [orb].
  destruct (assoc "errorRecordContentId" props) as [v |]; [| reflexivity].
  destruct v as [| | b | n | t | l | p]; simpl; intros H;
    try reflexivity; try discriminate H;
    try (rewrite negb_true_iff in H; rewrite H; reflexivity).
  destruct (String.eqb t ""); reflexivity.
Qed.

Lemma filter_exn_total {A} (f : A -> Exn + bool) (g : A -> bool) (l : list A) :
  (forall x, In x l -> f x = inr (g x)) -> filter_exn f l = inr (filter g l).
Proof.
  induction l as [| x r IH]; intros H; simpl; [reflexivity |].
  rewrite (H x (or_introl eq_refl)), IH by (intros y Hy; apply H; right; exact Hy).
  destruct (g x); reflexivity.
Qed.

Lemma plain_log_row_is_object (row : JsVal) :
  plain_log_row row = true -> is_object row = true.
Proof. destruct row; try discriminate. reflexivity. Qed.

Section FailedLogs.
Variables (cfg : ServerConfig) (args : listRecentErrors.Args) (request : RequestContext)
  (w : World) (resp : Response) (data : JsVal) (rows : list JsVal).
Let rq := listRecentErrors.requestOptions cfg args request.
Hypothesis answered : backend w [] rq = Responded resp.
Hypothesis Hok : ok resp = true.
Hypothesis Hjson : body_json resp = inr data.
Hypothesis Hdocs : js_get data "docs" = inr (JArr rows).
Hypothesis Hrows : forallb plain_log_row rows = true.

Lemma failed_rows_are_copied :
  exists res s' logs,
    run (listRecentErrors.handler cfg args request) w = (inr res, s')
    /\ is_success res
    /\ structured_field res "logs" = Some (JArr logs)
    /\ Forall2 (fun row log => entry_of listRecentErrors.output_fields row = inr log)
         (filter reports_failure rows) logs
    /\ requests s' = [rq].
Proof.
  assert (Hplain : forall x, In x rows -> plain_log_row x = true)
    by (apply forallb_forall; exact Hrows).
  assert (Hkept : filter_exn listRecentErrors.is_failed rows
                  = inr (filter reports_failure rows)).
  { apply filter_exn_total. intros x Hx. apply is_failed_plain, Hplain, Hx. }
  destruct (@map_exn_total _ _ (entry_of listRecentErrors.output_fields)
              (filter reports_failure rows)) as (logs & E & F).
  { intros x Hx. apply filter_In in Hx.
    apply entry_of_object, plain_log_row_is_object, Hplain, Hx. }
  unfold run. eexists _, _, logs.
  split; [unfold listRecentErrors.handler; cbv zeta; apply try_catch_run_inr;
          repeat rewrite bind_console_run;
          erewrite bind_fetch_run by exact answered;
          rewrite Hok; cbn [negb];
          unfold response_json; erewrite bind_lift_run by exact Hjson;
          erewrite bind_run_inr by (apply docs_or_empty_run; exact Hdocs);
          erewrite bind_lift_run by reflexivity;
          erewrite bind_lift_run by exact Hkept;
          erewrite bind_lift_run by exact E; reflexivity |].
  split; [apply success_result_is_success; discriminate |].
  split; [reflexivity |]. split; [exact F | reflexivity].
Qed.

End FailedLogs.
End Rows.

(** X21. findOrderItems, findOrderTasks (by source reference) and
    findDataManagerLogs return one entry per row of the backend's answer, in
    the backend's order, each entry built from its own row; and a row that
    is [null] fails the whole listing: the handler then returns the Error
    variant, not the other rows. *)
Theorem listing_copies_every_row {builtins : JsBuiltins}
    (cfg : ServerConfig) (call : ToolCall) (request : RequestContext) (w : World)
    (resp : Response) (data : JsVal) (rows : list JsVal)
    (fields : list Proj) (key : string) :
  row_fields call = Some fields ->
  list_key call = Some key ->
  rejected_input call = false ->
  backend w [] (first_request cfg call request) = Responded resp ->
  ok resp = true ->
  body_json resp = inr data ->
  js_get data "docs" = inr (JArr rows) ->
  (forallb is_object rows = true ->
   exists res s' entries,
     run (invoke cfg call request) w = (inr res, s')
     /\ is_success res
     /\ structured_field res key = Some (JArr entries)
     /\ Forall2 (fun row entry => entry_of fields row = inr entry) rows entries
     /\ requests s' = [first_request cfg call request])
  /\ (In JNull rows \/ In JUndef rows ->
      exists res s',
        run (invoke cfg call request) w = (inr res, s')
        /\ is_error res
        /\ requests s' = [first_request cfg call request]).
Proof.
  intros Hf Hk Hin Hb Hok Hj Hd. split.
  - intros Hrows.
    exact (@rows_are_copied builtins cfg call request w resp data rows
             Hin Hb Hok Hj Hd fields key Hf Hk Hrows).
  - intros Hrow.
    exact (@missing_row_fails builtins cfg call request w resp data rows
             Hin Hb Hok Hj Hd fields Hf Hrow).
Qed.

Lemma listing_copies_every_row_witness :
  exists res s' entries,
    run (@invoke plain_builtins cfg_static
           (call_findOrderItems {| findOrderItems.orderId := "1001" |})
           request_delegated)
      (constant_world (json_response 200 (JObj [("docs", JArr two_items)])))
    = (inr res, s')
    /\ is_success res
    /\ structured_field res "items" = Some (JArr entries)
    /\ List.length entries = 2%nat.
Proof.
  destruct (@listing_copies_every_row plain_builtins cfg_static
              (call_findOrderItems {| findOrderItems.orderId := "1001" |})
              request_delegated
              (constant_world (json_response 200 (JObj [("docs", JArr two_items)])))
              (answer_200 (JObj [("docs", JArr two_items)]))
              (JObj [("docs", JArr two_items)]) two_items
              findOrderItems.output_fields "items")
    as (Hcopied & _);
    try reflexivity.
  destruct (Hcopied eq_refl) as (res & s' & entries & Hrun & Hsucc & Hfield & Hrows & _).
  exists res, s', entries. split; [exact Hrun |]. split; [exact Hsucc |].
  split; [exact Hfield |].
  symmetry. exact (Forall2_length Hrows).
Defined.

(** X22. listRecentErrors returns the failed rows only: of the rows of the
    backend's answer it keeps, in order, those whose status is
    SERVICE_FAILED, SERVICE_CRASHED or DM_LOG_ERROR or that carry an error
    record that is neither empty nor blank (its trimmed text is not empty),
    and returns one log entry per kept row. *)
Theorem listRecentErrors_keeps_failed_rows {builtins : JsBuiltins}
    (cfg : ServerConfig) (args : listRecentErrors.Args) (request : RequestContext)
    (w : World) (resp : Response) (data : JsVal) (rows : list JsVal) :
  let rq := listRecentErrors.requestOptions cfg args request in
  backend w [] rq = Responded resp ->
  ok resp = true ->
  body_json resp = inr data ->
  js_get data "docs" = inr (JArr rows) ->
  forallb plain_log_row rows = true ->
  exists res s' logs,
    run (listRecentErrors.handler cfg args request) w = (inr res, s')
    /\ is_success res
    /\ structured_field res "logs" = Some (JArr logs)
    /\ Forall2 (fun row log => entry_of listRecentErrors.output_fields row = inr log)
         (filter reports_failure rows) logs
    /\ requests s' = [rq].
Proof.
  intros rq Hb Hok Hj Hd Hrows.
  exact (@failed_rows_are_copied builtins cfg args request w resp data rows
           Hb Hok Hj Hd Hrows).
Qed.

(** X22 on five rows, of which the failed one, the one with an error record
    and the crashed one are kept; the row whose error record is blank is
    not. *)
Lemma listRecentErrors_keeps_failed_rows_witness :
  exists res s' logs,
    run (@listRecentErrors.handler plain_builtins cfg_static
           {| listRecentErrors.limit := None; listRecentErrors.configId := None |}
           request_delegated)
      (constant_world (json_response 200 (JObj [("docs", JArr sample_logs)])))
    = (inr res, s')
    /\ is_success res
    /\ structured_field res "logs" = Some (JArr logs)
    /\ map (fun row => js_get row "logId") (filter (@reports_failure plain_builtins) sample_logs)
       = [inr (JStr "L2"); inr (JStr "L3"); inr (JStr "L5")]
    /\ List.length logs = 3%nat.
Proof.
  destruct (@listRecentErrors_keeps_failed_rows plain_builtins cfg_static
              {| listRecentErrors.limit := None; listRecentErrors.configId := None |}
              request_delegated
              (constant_world (json_response 200 (JObj [("docs", JArr sample_logs)])))
              (answer_200 (JObj [("docs", JArr sample_logs)]))
              (JObj [("docs", JArr sample_logs)]) sample_logs)
    as (res & s' & logs & Hrun & Hsucc & Hfield & Hrows & _);
    try reflexivity.
  exists res, s', logs. split; [exact Hrun |]. split; [exact Hsucc |].
  split; [exact Hfield |]. split; [reflexivity |].
  symmetry. exact (Forall2_length Hrows).
Defined.

(** ** The loop over the links of an order *)

Section Links.
Context {builtins : JsBuiltins}.
Variables (cfg : ServerConfig) (args : findOrderTasks_linked.Args)
  (request : RequestContext).



End Links.



(** ** What a Success is made of *)

Section RuntimeData.
Context {builtins : JsBuiltins}.
Variables (cfg : ServerConfig) (args : getImportSapiOrderConfig.Args)
  (request : RequestContext).

Lemma error_result_is_no_success items : ~ is_success (error_result items).
Proof. intros (_ & (sc & Hsc) & _). discriminate Hsc. Qed.

Lemma success_comes_from_the_config w res s' :
  run (getImportSapiOrderConfig.handler cfg args request) w = (inr res, s') ->
  is_success res ->
  exists resp data docs did rest,
    backend w [] (first_request cfg (call_getImportSapiOrderConfig args) request)
    = Responded resp
    /\ body_json resp = inr data
    /\ js_get data "docs" = inr docs
    /\ js_get (js_first docs) "dataManagerConfigId" = inr did
    /\ project (js_first docs)
         [same_or_undef "description"; same_or_undef "jobName";
          same_or_undef "runtimeDataId"; same_or_undef "runtimeInfo"] = inr rest
    /\ res = success_result
               [text_item (JSON_stringify
                             (JObj (("configId",
                                     js_or did (opt_js (getImportSapiOrderConfig.configId args)))
                                    :: rest)) 2)]
               (JObj (("configId",
                       js_or did (opt_js (getImportSapiOrderConfig.configId args)))
                      :: rest)).
Proof.
  unfold run, getImportSapiOrderConfig.handler. cbv zeta. intros H Hsucc.
  apply try_catch_inv in H. destruct H as [H | (e & s1 & _ & Hc)].
  - rewrite bind_console_run in H. inv_run.
    + exfalso. exact (error_result_is_no_success Hsucc).
    + do 5 eexists. repeat split; eassumption || reflexivity.
  - exfalso. unfold catch_plain in Hc. rewrite bind_console_run in Hc.
    inversion Hc; subst. exact (error_result_is_no_success Hsucc).
Qed.

End RuntimeData.

(** X24. What the RuntimeData lookup of getImportSapiOrderConfig answers
    never shows in a Success: two invocations with the same arguments whose
    DataManagerConfig query gets the same answer return the same Success,
    whatever their RuntimeData lookups answer; the [runtimeInfo] reported is
    the one of the configuration row. *)
Theorem runtime_data_never_shows {builtins : JsBuiltins}
    (cfg : ServerConfig) (args : getImportSapiOrderConfig.Args)
    (request : RequestContext) (w1 w2 : World)
    (r1 r2 : ToolResult) (s1 s2 : State) :
  let rq := first_request cfg (call_getImportSapiOrderConfig args) request in
  backend w1 [] rq = backend w2 [] rq ->
  run (getImportSapiOrderConfig.handler cfg args request) w1 = (inr r1, s1) ->
  run (getImportSapiOrderConfig.handler cfg args request) w2 = (inr r2, s2) ->
  is_success r1 ->
  is_success r2 ->
  r1 = r2.
Proof.
  intros rq Hsame H1 H2 Hs1 Hs2.
  apply success_comes_from_the_config in H1; [| exact Hs1].
  apply success_comes_from_the_config in H2; [| exact Hs2].
  destruct H1 as (resp & data & docs & did & rest & Hb & Hj & Hd & Hdid & Hrest & ->).
  destruct H2 as (resp' & data' & docs' & did' & rest' & Hb' & Hj' & Hd' & Hdid' & Hrest' & ->).
  fold rq in Hb, Hb'. rewrite Hsame, Hb' in Hb. injection Hb as <-.
  rewrite Hj' in Hj. injection Hj as <-.
  rewrite Hd' in Hd. injection Hd as <-.
  rewrite Hdid' in Hdid. injection Hdid as <-.
  rewrite Hrest' in Hrest. injection Hrest as <-.
  reflexivity.
Qed.

Lemma runtime_data_never_shows_witness :
  fst (run (@getImportSapiOrderConfig.handler plain_builtins cfg_static
              {| getImportSapiOrderConfig.configId := None |} request_delegated)
         (world_config (json_response 200 (one_doc [("runtimeInfo", JStr "from RuntimeData")]))))
  = fst (run (@getImportSapiOrderConfig.handler plain_builtins cfg_static
                {| getImportSapiOrderConfig.configId := None |} request_delegated)
           (world_config (json_response 404 (JObj [])))).
Proof.
  pose (out1 := run (@getImportSapiOrderConfig.handler plain_builtins cfg_static
                       {| getImportSapiOrderConfig.configId := None |} request_delegated)
                  (world_config (json_response 200
                                   (one_doc [("runtimeInfo", JStr "from RuntimeData")])))).
  pose (out2 := run (@getImportSapiOrderConfig.handler plain_builtins cfg_static
                       {| getImportSapiOrderConfig.configId := None |} request_delegated)
                  (world_config (json_response 404 (JObj [])))).
  pose (res_of := fun out : (Exn + ToolResult) * State =>
                    match fst out with inr r => r | inl _ => error_result [] end).
  assert (H : res_of out1 = res_of out2).
  { apply (@runtime_data_never_shows plain_builtins cfg_static
             {| getImportSapiOrderConfig.configId := None |} request_delegated
             (world_config (json_response 200
                              (one_doc [("runtimeInfo", JStr "from RuntimeData")])))
             (world_config (json_response 404 (JObj [])))
             (res_of out1) (res_of out2) (snd out1) (snd out2)).
    - reflexivity.
    - vm_compute. reflexivity.
    - vm_compute. reflexivity.
    - vm_compute. repeat split; discriminate || (eexists; reflexivity).
    - vm_compute. repeat split; discriminate || (eexists; reflexivity). }
  change (fst out1 = fst out2).
  assert (E1 : fst out1 = inr (res_of out1)) by (vm_compute; reflexivity).
  assert (E2 : fst out2 = inr (res_of out2)) by (vm_compute; reflexivity).
  rewrite E1, E2, H. reflexivity.
Defined.

Section Retry.
Context {builtins : JsBuiltins}.

Lemma retry_result_shape cfg args request :
  returns (fun res =>
             is_success res ->
             structured_field res "canRetry" = Some (JBool false)
             /\ exists msg, structured_field res "message" = Some (JStr msg)
                            /\ content res = [text_item msg])
    (retryFailedRecord.handler cfg args request).
Proof.
  unfold retryFailedRecord.handler, catch_debug. cbv zeta.
  repeat returns_step;
    try (intros Hs; exfalso; exact (error_result_is_no_success Hs)).
  intros _. split; [reflexivity |]. eexists. split; reflexivity.
Qed.

End Retry.

(** X25. retryFailedRecord never retries anything: it sends at most its one
    query for the log, and whenever it returns Success the structuredContent
    says [canRetry: false] and carries, as [message], the same text as the
    one content item. *)
Theorem retryFailedRecord_never_retries {builtins : JsBuiltins}
    (cfg : ServerConfig) (args : retryFailedRecord.Args) (request : RequestContext)
    (w : World) (res : ToolResult) (s' : State) :
  run (retryFailedRecord.handler cfg args request) w = (inr res, s') ->
  is_success res ->
  structured_field res "canRetry" = Some (JBool false)
  /\ (exists msg, structured_field res "message" = Some (JStr msg)
                  /\ content res = [text_item msg])
  /\ requests s' = [retryFailedRecord.requestOptions cfg args request].
Proof.
  intros Hrun Hsucc.
  pose proof (@retry_result_shape builtins cfg args request w init) as Hshape.
  unfold run in Hrun. rewrite Hrun in Hshape. simpl in Hshape.
  destruct (Hshape Hsucc) as (Hcan & Hmsg).
  split; [exact Hcan |]. split; [exact Hmsg |].
  destruct (@invoke_starts_by builtins cfg (call_retryFailedRecord args) request
              eq_refl w init) as (more & Hfirst).
  pose proof (@handler_at_most builtins cfg (call_retryFailedRecord args) request 1%nat
                eq_refl w init) as Hfew.
  simpl invoke in Hfirst, Hfew. rewrite Hrun in Hfirst, Hfew.
  simpl in Hfirst, Hfew. rewrite Hfirst in *.
  destruct more; [reflexivity | simpl in Hfew; lia].
Qed.

Lemma retryFailedRecord_never_retries_witness :
  exists res s',
    run (@retryFailedRecord.handler plain_builtins cfg_static
           {| retryFailedRecord.logId := "40160" |} request_delegated) world_log_found
    = (inr res, s')
    /\ is_success res
    /\ structured_field res "canRetry" = Some (JBool false)
    /\ List.length (requests s') = 1%nat.
Proof.
  pose (out := run (@retryFailedRecord.handler plain_builtins cfg_static
                      {| retryFailedRecord.logId := "40160" |} request_delegated)
                 world_log_found).
  pose (res := match fst out with inr r => r | inl _ => error_result [] end).
  assert (Hrun : out = (inr res, snd out)) by (vm_compute; reflexivity).
  assert (Hsucc : is_success res)
    by (vm_compute; repeat split; discriminate || (eexists; reflexivity)).
  destruct (@retryFailedRecord_never_retries plain_builtins cfg_static
              {| retryFailedRecord.logId := "40160" |} request_delegated world_log_found
              res (snd out) Hrun Hsucc) as (Hcan & _ & Hreq).
  exists res, (snd out). split; [exact Hrun |]. split; [exact Hsucc |].
  split; [exact Hcan |]. rewrite Hreq. reflexivity.
Defined.

Section Found.
Context {builtins : JsBuiltins}.

Lemma project_keys (o : JsVal) (fields : list Proj) (l : list (string * JsVal)) :
  project o fields = inr l -> map fst l = map proj_key fields.
Proof.
  revert l. induction fields as [| p rest IH]; intros l H; simpl in H.
  - injection H as <-. reflexivity.
  - destruct p as [k f | k f]; simpl in H;
      destruct (js_get o f) as [e | v]; try discriminate;
      destruct (project o rest) as [e | l']; try discriminate;
      injection H as <-; simpl; rewrite (IH l' eq_refl); reflexivity.
Qed.

Section OneRow.
Variables (cfg : ServerConfig) (call : ToolCall) (request : RequestContext) (w : World)
  (resp : Response) (data row : JsVal) (others : list JsVal).
Hypothesis accepted : rejected_input call = false.
Hypothesis answered : backend w [] (first_request cfg call request) = Responded resp.
Hypothesis Hok : ok resp = true.
Hypothesis Hjson : body_json resp = inr data.
Hypothesis Hdocs : js_get data "docs" = inr (JArr (row :: others)).
Hypothesis Hrow : is_object row = true.

Ltac row_step :=
  first
    [ rewrite bind_console_run
    | erewrite bind_fetch_run by exact answered
    | rewrite Hok; cbn [negb]
    | unfold response_json; erewrite bind_lift_run by exact Hjson
    | erewrite bind_run_inr by (apply docs_or_empty_run; exact Hdocs)
    | erewrite bind_lift_run by exact Hdocs ].

Lemma record_is_copied fields :
  record_fields call = Some fields ->
  exists res s' l,
    run (invoke cfg call request) w = (inr res, s')
    /\ is_success res
    /\ structuredContent res = Some (JObj l)
    /\ project row fields = inr l
    /\ requests s' = [first_request cfg call request].
Proof.
  intros Hf.
  assert (Hl : exists l, project row fields = inr l).
  { destruct row as [| | b | n | t | a | props]; try discriminate Hrow.
    apply project_object. }
  destruct Hl as (l & Hl).
  assert (Hno : no_docs (JArr (row :: others)) = false).
  { unfold no_docs, js_length_is_zero. simpl.
    destruct (List.length others); reflexivity. }
  assert (Hz : js_length_is_zero (JArr (row :: others)) = inr false).
  { unfold js_length_is_zero. simpl. destruct (List.length others); reflexivity. }
  revert accepted answered Hf.
  destruct call; simpl record_fields; simpl rejected_input; simpl first_request;
    simpl invoke; intros accepted answered Hf; try discriminate Hf;
    injection Hf as <-; unfold run.
  - eexists _, _, l.
    split; [unfold getLogById.handler; cbv zeta; apply try_catch_run_inr;
            repeat row_step; erewrite bind_lift_run by exact Hz; cbv beta iota;
            erewrite bind_lift_run by exact Hl; reflexivity |].
    split; [apply success_result_is_success; discriminate |].
    split; [reflexivity |]. split; [exact Hl | reflexivity].
  - eexists _, _, l.
    split; [unfold getLogConfig.handler; cbv zeta; apply try_catch_run_inr;
            repeat row_step; erewrite bind_lift_run by exact Hz; cbv beta iota;
            erewrite bind_lift_run by exact Hl; reflexivity |].
    split; [apply success_result_is_success; discriminate |].
    split; [reflexivity |]. split; [exact Hl | reflexivity].
  - unfold findOrderHeader.handler.
    destruct (findOrderHeader.inputFields args); [discriminate |].
    eexists _, _, l.
    split; [cbv zeta; apply try_catch_run_inr;
            repeat row_step; rewrite Hno;
            erewrite bind_lift_run by exact Hl; reflexivity |].
    split; [apply success_result_is_success; discriminate |].
    split; [reflexivity |]. split; [exact Hl | reflexivity].
Qed.

End OneRow.
End Found.

(** X26. getLogById, getLogConfig and findOrderHeader, when the backend
    answers with a success status and at least one row, return Success whose
    structuredContent is made of the first row only, field by field: it has
    exactly the tool's declared keys, in their order, each with the row's
    value, so a field of the row that is not declared is not passed on. *)
Theorem record_is_copied_field_by_field {builtins : JsBuiltins}
    (cfg : ServerConfig) (call : ToolCall) (request : RequestContext) (w : World)
    (resp : Response) (data row : JsVal) (others : list JsVal) (fields : list Proj) :
  record_fields call = Some fields ->
  rejected_input call = false ->
  backend w [] (first_request cfg call request) = Responded resp ->
  ok resp = true ->
  body_json resp = inr data ->
  js_get data "docs" = inr (JArr (row :: others)) ->
  is_object row = true ->
  exists res s' l,
    run (invoke cfg call request) w = (inr res, s')
    /\ is_success res
    /\ structuredContent res = Some (JObj l)
    /\ project row fields = inr l
    /\ map fst l = map proj_key fields
    /\ requests s' = [first_request cfg call request].
Proof.
  intros Hf Hin Hb Hok Hj Hd Hrow.
  destruct (@record_is_copied builtins cfg call request w resp data row others
              Hin Hb Hok Hj Hd Hrow fields Hf)
    as (res & s' & l & Hrun & Hsucc & Hsc & Hl & Hreq).
  exists res, s', l. split; [exact Hrun |]. split; [exact Hsucc |].
  split; [exact Hsc |]. split; [exact Hl |].
  split; [exact (project_keys _ _ Hl) | exact Hreq].
Qed.

Lemma record_is_copied_field_by_field_witness :
  exists res s',
    run (@invoke plain_builtins cfg_static
           (call_getLogById {| getLogById.logId := "40160" |}) request_delegated)
      world_log_found = (inr res, s')
    /\ is_success res
    /\ structured_field res "statusId" = Some (JStr "SERVICE_FAILED")
    /\ structured_field res "internalNote" = None.
Proof.
  destruct (@record_is_copied_field_by_field plain_builtins cfg_static
              (call_getLogById {| getLogById.logId := "40160" |}) request_delegated
              world_log_found
              (answer_200 (one_doc [("logId", JStr "40160");
                                    ("configId", JStr "IMP_SAPI_ORDER");
                                    ("statusId", JStr "SERVICE_FAILED");
                                    ("internalNote", JStr "not for clients")]))
              (one_doc [("logId", JStr "40160"); ("configId", JStr "IMP_SAPI_ORDER");
                        ("statusId", JStr "SERVICE_FAILED");
                        ("internalNote", JStr "not for clients")])
              (JObj [("logId", JStr "40160"); ("configId", JStr "IMP_SAPI_ORDER");
                     ("statusId", JStr "SERVICE_FAILED");
                     ("internalNote", JStr "not for clients")])
              [] getLogById.output_fields)
    as (res & s' & l & Hrun & Hsucc & Hsc & Hl & _);
    try reflexivity.
  exists res, s'. split; [exact Hrun |]. split; [exact Hsucc |].
  unfold structured_field. rewrite Hsc.
  vm_compute in Hl. injection Hl as <-. split; reflexivity.
Defined.

(** X27. findProductById stops at the first match: when the answer to the
    productId query carries at least one row, whatever its status, the
    handler returns Success built from the first row, with the row's
    productId, and the internalName query is not sent. *)
Theorem findProductById_stops_at_first_match {builtins : JsBuiltins}
    (cfg : ServerConfig) (args : findProductById.Args) (request : RequestContext)
    (w : World) (resp : Response) (data row : JsVal) (others : list JsVal) :
  let rq := findProductById.by_productId cfg args request in
  backend w [] rq = Responded resp ->
  body_json resp = inr data ->
  js_get data "docs" = inr (JArr (row :: others)) ->
  is_object row = true ->
  exists res s' pid,
    run (findProductById.handler cfg args request) w = (inr res, s')
    /\ is_success res
    /\ js_get row "productId" = inr pid
    /\ structured_field res "productId" = Some pid
    /\ requests s' = [rq].
Proof.
  intros rq Hb Hj Hd Hrow.
  destruct row as [| | b | n | t | a | props]; try discriminate Hrow.
  assert (Hno : no_docs (JArr (JObj props :: others)) = false).
  { unfold no_docs, js_length_is_zero. simpl.
    destruct (List.length others); reflexivity. }
  destruct (project_object props findProductById.output_fields) as (l & Hl).
  assert (Hpid : assoc "productId" l
                 = Some (match assoc "productId" props with
                         | Some x => x
                         | None => JUndef
                         end)).
  { pose proof Hl as Hl'. unfold findProductById.output_fields in Hl'. simpl in Hl'.
    injection Hl' as <-. reflexivity. }
  unfold run. eexists _, _, _.
  split; [unfold findProductById.handler; apply try_catch_run_inr;
          erewrite bind_fetch_run by exact Hb;
          unfold response_json; erewrite bind_lift_run by exact Hj;
          erewrite bind_lift_run by exact Hd; rewrite Hno;
          rewrite bind_ret_run; rewrite Hno; cbv zeta;
          erewrite bind_lift_run by exact Hl; reflexivity |].
  split; [apply success_result_is_success; discriminate |].
  split; [reflexivity |].
  split; [exact Hpid | reflexivity].
Qed.

Lemma findProductById_stops_at_first_match_witness :
  exists res s',
    run (@findProductById.handler plain_builtins cfg_static args_P1 request_delegated)
      world_http_500_docs = (inr res, s')
    /\ is_success res
    /\ structured_field res "productId" = Some (JStr "P1")
    /\ List.length (requests s') = 1%nat.
Proof.
  destruct (@findProductById_stops_at_first_match plain_builtins cfg_static args_P1
              request_delegated world_http_500_docs
              (response_500 (one_doc [("productId", JStr "P1")]))
              (one_doc [("productId", JStr "P1")])
              (JObj [("productId", JStr "P1")]) [])
    as (res & s' & pid & Hrun & Hsucc & Hpid & Hfield & Hreq);
    try reflexivity.
  exists res, s'. split; [exact Hrun |]. split; [exact Hsucc |].
  injection Hpid as <-. split; [exact Hfield |]. rewrite Hreq. reflexivity.
Defined.


Section PlainFileRuns.
Import getContentCommon.

#[local] Existing Instance plain_builtins.


End PlainFileRuns.
